(** * WTL_Analysis: the persistence layer and the automated report engine

    A shallow embedding of [DatabaseManager] (database_manager.py): the two
    summary tables, [insert_financial_summary], [insert_department_summary]
    and [generate_automated_report], together with the part of MySQL and of
    the Python runtime that these three methods rely on.

    Modelling conventions.
    - A [DECIMAL(p,2)] value is the integer number of hundredths it denotes
      ([decimal]); a finite Python float handed to the driver is taken at
      the value the column stores.  A NaN is sent as [NULL] by the driver's
      converter.  Infinities are outside the model; a value the server
      refuses is a failed request.
    - A Python float read back from the database is an exact rational in
      lowest terms ([Q] under [Qred]); [AVG] is the exact mean.
    - Every column without [NOT NULL] is nullable ([option]); the SQL
      aggregates and comparisons follow the three-valued semantics.
    - String comparison is exact equality (a binary collation).
    - The [id] and [created_at] columns are not read by any query of the
      module and are left out; a row is identified by its list position.
    - The connection does not autocommit (the driver's default): rows
      written by [executemany] are pending until [commit].
    - Any request to the server may fail with [mysql.connector.Error]; which
      ones do is given by a schedule carried in the state.
    - A method call happens at one instant: [datetime.now()] reads the
      clock of the state the call starts in.  Statements about two calls
      at different times take two states.
    - Logging is not modelled. *)

From Stdlib Require Import ZArith QArith Qreduction String Ascii DecimalString.
From stdpp Require Import gmap strings list sorting.

Local Open Scope Z_scope.

(* ===================================================================== *)
(** ** Python values: dates, numbers and their formatting *)
(* ===================================================================== *)

Record date := mkdate { year : nat; month : nat; day : nat }.

Record datetime := mkdatetime {
  dt_date : date;
  hour : nat; minute : nat; second : nat; microsecond : nat
}.

#[global] Instance date_eq_dec : EqDecision date.
Proof. solve_decision. Defined.

(** Chronological order on dates, as MySQL compares [DATE] values. *)
Definition date_leb (a b : date) : bool :=
  if (year a <? year b)%nat then true
  else if (year b <? year a)%nat then false
  else if (month a <? month b)%nat then true
  else if (month b <? month a)%nat then false
  else (day a <=? day b)%nat.

Definition date_le (a b : date) : Prop :=
  (year a < year b)%nat ∨
  (year a = year b ∧ ((month a < month b)%nat ∨
                      (month a = month b ∧ (day a <= day b)%nat))).

(** [expr BETWEEN lo AND hi] is [lo <= expr AND expr <= hi]. *)
Definition BETWEEN (d lo hi : date) : bool := date_leb lo d && date_leb d hi.

(** [str(n)] for a non-negative integer. *)
Definition str_nat (n : nat) : string := NilZero.string_of_uint (Nat.to_uint n).

(** [str(z)] for a Python int. *)
Definition str_int (z : Z) : string := NilZero.string_of_int (Z.to_int z).

(** [s.rjust(width, '0')]. *)
Definition zfill (width : nat) (s : string) : string :=
  String.concat "" (replicate (width - String.length s)%nat "0"%string) +:+ s.

(** [d.strftime('%Y-%m-%d')]. *)
Definition strftime_Ymd (d : date) : string :=
  zfill 4 (str_nat (year d)) +:+ "-" +:+ zfill 2 (str_nat (month d)) +:+ "-"
    +:+ zfill 2 (str_nat (day d)).

(** [now.strftime('%Y-%m-01')], read back as a date: the first day of the
    month of [now]. *)
Definition first_of_month (d : date) : date :=
  {| year := year d; month := month d; day := 1 |}.

(** [now.isoformat()]. *)
Definition isoformat (t : datetime) : string :=
  strftime_Ymd (dt_date t) +:+ "T" +:+ zfill 2 (str_nat (hour t)) +:+ ":"
    +:+ zfill 2 (str_nat (minute t)) +:+ ":" +:+ zfill 2 (str_nat (second t))
    +:+ (if (microsecond t =? 0)%nat then ""
         else "." +:+ zfill 6 (str_nat (microsecond t))).

(** A [DECIMAL(p,2)] value, in hundredths. *)
Definition decimal := Z.

Definition decimal_of_int (n : Z) : decimal := 100 * n.

(** [float(d)] for a [Decimal] with two places. *)
Definition float_of_decimal (d : decimal) : Q := Qred (d # 100).

(** Thousands separators: a comma before every complete group of three
    digits, counted from the right.  The argument is the reversed digit
    list. *)
Fixpoint group3 (rev_digits : list ascii) : list ascii :=
  match rev_digits with
  | a :: b :: c :: ((_ :: _) as rest) => a :: b :: c :: ","%char :: group3 rest
  | l => l
  end.

Definition with_commas (digits : string) : string :=
  string_of_list_ascii
    (reverse (group3 (reverse (list_ascii_of_string digits)))).

(** [f"{d:,.2f}"] for a [Decimal] with two places: no rounding happens. *)
Definition format_comma_2f (d : decimal) : string :=
  (if d <? 0 then "-" else "") +:+
  with_commas (str_nat (Z.to_nat (Z.abs d / 100))) +:+ "." +:+
  zfill 2 (str_nat (Z.to_nat (Z.abs d mod 100))).

(** The yen sign, U+00A5, in UTF-8. *)
Definition yen : string :=
  String (ascii_of_nat 194) (String (ascii_of_nat 165) EmptyString).

(* ===================================================================== *)
(** ** The Python side: DataFrame rows, the report dictionary *)
(* ===================================================================== *)

(** A float cell of a frame, as [float(row['X'])] hands it to the driver: a
    finite number or NaN, the missing value of pandas. *)
Inductive float_cell := Num (d : decimal) | NaN.

(** The driver's converter for a float parameter: a NaN is sent as
    [NULL]. *)
Definition float_to_mysql (x : float_cell) : option decimal :=
  match x with Num d => Some d | NaN => None end.

(** The columns [insert_financial_summary] reads with [row.get]: a frame has
    each of them for all of its rows or for none. *)
Record columns := {
  has_Status : bool;
  has_LaborCost : bool;
  has_TotalHours : bool;
  has_EfficiencyScore : bool
}.

(** The cell of a column that the frame may lack. *)
Definition column (present : bool) (A : Type) : Type :=
  if present then A else unit.

(** One row of a [summary_df] with the columns [c].  A field read with
    [row['X']] is always there.  A text cell may hold a missing value
    (Python's [None], or NaN), which the driver sends as [NULL]. *)
Record summary_row (c : columns) := {
  ProjectCode : string;
  ProjectName : option string;
  ProjectType : option string;
  Status : column (has_Status c) (option string);
  ContractPrice : float_cell;
  PurchaseCost : float_cell;
  LaborCost : column (has_LaborCost c) float_cell;
  TotalCost : float_cell;
  Profit : float_cell;
  ProfitMargin : float_cell;
  TotalHours : column (has_TotalHours c) float_cell;
  EfficiencyScore : column (has_EfficiencyScore c) float_cell
}.
Arguments Build_summary_row c & _ _ _ _ _ _ _ _ _ _ _ _.
Arguments ProjectCode {c} _.
Arguments ProjectName {c} _.
Arguments ProjectType {c} _.
Arguments Status {c} _.
Arguments ContractPrice {c} _.
Arguments PurchaseCost {c} _.
Arguments LaborCost {c} _.
Arguments TotalCost {c} _.
Arguments Profit {c} _.
Arguments ProfitMargin {c} _.
Arguments TotalHours {c} _.
Arguments EfficiencyScore {c} _.

(** One row of [dept_summary_df]; the department is the frame's index.  The
    two counts are integer cells. *)
Record dept_summary_row := {
  dept : string;
  dept_TotalHours : float_cell;
  TotalLaborCost : float_cell;
  NumProjects : Z;
  NumTasks : Z;
  HourlyRate : float_cell
}.

(** An optional argument, or its default. *)
Definition get {A} (field : option A) (default : A) : A :=
  match field with Some v => v | None => default end.

(** The cell of a column when the frame has it. *)
Definition cell_of {present : bool} {A} (cell : column present A) : option A :=
  match present return column present A → option A with
  | true => λ v, Some v
  | false => λ _, None
  end cell.

(** [row.get(key, default)]: the default is returned when the frame has no
    such column; a cell that is there is returned as it is, a missing value
    included. *)
Definition row_get {present : bool} {A} (cell : column present A) (default : A)
  : A :=
  match present return column present A → A with
  | true => λ v, v
  | false => λ _, default
  end cell.

(* ===================================================================== *)
(** ** The logical schema ([create_tables]) *)
(* ===================================================================== *)

Module financial_summary.
Record fin_row := {
    report_date : date;
    project_code : string;
    project_name : option string;
    project_type : option string;
    status : option string;
    contract_price : option decimal;
    purchase_cost : option decimal;
    labor_cost : option decimal;
    total_cost : option decimal;
    profit : option decimal;
    profit_margin : option decimal;
    total_hours : option decimal;
    efficiency_score : option decimal
}.
End financial_summary.

Module department_summary.
Record dept_row := {
    report_date : date;
    department_name : string;
    total_hours : option decimal;
    total_labor_cost : option decimal;
    num_projects : option Z;
    num_tasks : option Z;
    avg_hourly_rate : option decimal
}.
End department_summary.

Record tables := {
  t_financial_summary : list financial_summary.fin_row;
  t_department_summary : list department_summary.dept_row
}.

Definition no_rows : tables :=
  {| t_financial_summary := []; t_department_summary := [] |}.

Definition tables_app (a b : tables) : tables :=
  {| t_financial_summary := t_financial_summary a ++ t_financial_summary b;
     t_department_summary := t_department_summary a ++ t_department_summary b |}.

(* ===================================================================== *)
(** ** The connection: transactions, failures, the clock *)
(* ===================================================================== *)

(** What the server does with the next request: it serves it, or it fails.
    A failing [executemany] has written the first [partial] rows of the
    batch into the open transaction when the error is raised. *)
Inductive outcome := Succeeds | Fails (partial : nat).

(** The state the methods of [DatabaseManager] run against: the committed
    tables, the rows written by the open transaction and not yet committed,
    the outcomes of the coming requests (an empty schedule: all succeed),
    and [datetime.now()]. *)
Record world := {
  committed : tables;
  pending : tables;
  server : list outcome;
  clock : datetime
}.

(** The connection reads its own uncommitted rows. *)
Definition visible (w : world) : tables := tables_app (committed w) (pending w).

Inductive exception := Error | TypeError.

Inductive result (A : Type) := Return (a : A) | Raise (e : exception).
Arguments Return {A} a.
Arguments Raise {A} e.

Definition M (A : Type) : Type := world → result A * world.

#[global] Instance M_ret : MRet M := λ A a w, (Return a, w).
#[global] Instance M_bind : MBind M := λ A B f m w,
  match m w with
  | (Return a, w') => f a w'
  | (Raise e, w') => (Raise e, w')
  end.

Definition raise {A} (e : exception) : M A := λ w, (Raise e, w).

(** Python code that may raise and does not talk to the server. *)
#[global] Instance result_ret : MRet result := λ A a, Return a.
#[global] Instance result_bind : MBind result := λ A B f m,
  match m with
  | Return a => f a
  | Raise e => Raise e
  end.

Definition lift {A} (x : result A) : M A := λ w, (x, w).

(** [try: body  except Error: handler]: only [mysql.connector.Error] is
    caught; any other exception leaves the method as it is. *)
Definition try_except_Error {A} (body : M A) (handler : M A) : M A := λ w,
  match body w with
  | (Raise Error, w') => handler w'
  | r => r
  end.

Definition now : M datetime := λ w, (Return (clock w), w).

Definition next_outcome (w : world) : outcome * world :=
  match server w with
  | [] => (Succeeds, w)
  | o :: rest =>
      (o, {| committed := committed w; pending := pending w;
             server := rest; clock := clock w |})
  end.

Definition tx_write (rows : tables) (w : world) : world :=
  {| committed := committed w; pending := tables_app (pending w) rows;
     server := server w; clock := clock w |}.

Definition only_financial (rows : list financial_summary.fin_row) : tables :=
  {| t_financial_summary := rows; t_department_summary := [] |}.

Definition only_department (rows : list department_summary.dept_row) : tables :=
  {| t_financial_summary := []; t_department_summary := rows |}.

(** [cursor.executemany(insert_query, data)] on [financial_summary].  The
    driver sends nothing for an empty batch. *)
Definition executemany_financial (data : list financial_summary.fin_row) : M unit :=
  λ w,
  match data with
  | [] => (Return (), w)
  | _ =>
      match next_outcome w with
      | (Succeeds, w') => (Return (), tx_write (only_financial data) w')
      | (Fails k, w') => (Raise Error, tx_write (only_financial (take k data)) w')
      end
  end.

(** [cursor.executemany(insert_query, data)] on [department_summary]. *)
Definition executemany_department (data : list department_summary.dept_row) : M unit :=
  λ w,
  match data with
  | [] => (Return (), w)
  | _ =>
      match next_outcome w with
      | (Succeeds, w') => (Return (), tx_write (only_department data) w')
      | (Fails k, w') => (Raise Error, tx_write (only_department (take k data)) w')
      end
  end.

(** [connection.commit()]. *)
Definition commit : M unit := λ w,
  match next_outcome w with
  | (Succeeds, w') =>
      (Return (), {| committed := visible w'; pending := no_rows;
                     server := server w'; clock := clock w' |})
  | (Fails _, w') => (Raise Error, w')
  end.

(** [connection.rollback()]: the open transaction is dropped.  Should the
    request itself fail the server drops the transaction with the
    connection, so the stored result is the same. *)
Definition rollback : M unit := λ w,
  (Return (), {| committed := committed w; pending := no_rows;
                 server := server w; clock := clock w |}).

(** [cursor.execute(select, params)] followed by the fetch of its rows. *)
Definition execute {A} (query : tables → A) : M A := λ w,
  match next_outcome w with
  | (Succeeds, w') => (Return (query (visible w')), w')
  | (Fails _, w') => (Raise Error, w')
  end.

(** A loop whose body may raise. *)
Fixpoint for_each {A S} (body : S → A → result S) (acc : S) (l : list A)
  : result S :=
  match l with
  | [] => mret acc
  | x :: l' => acc' ← body acc x; for_each body acc' l'
  end.

(* ===================================================================== *)
(** ** insert_financial_summary, insert_department_summary *)
(* ===================================================================== *)

(** The tuple appended to [data_to_insert] for one frame row. *)
Definition financial_tuple {c} (report_date : date) (row : summary_row c)
  : financial_summary.fin_row :=
  {| financial_summary.report_date := report_date;
     financial_summary.project_code := ProjectCode row;
     financial_summary.project_name := ProjectName row;
     financial_summary.project_type := ProjectType row;
     financial_summary.status := row_get (Status row) (Some "Unknown"%string);
     financial_summary.contract_price := float_to_mysql (ContractPrice row);
     financial_summary.purchase_cost := float_to_mysql (PurchaseCost row);
     financial_summary.labor_cost :=
       float_to_mysql (row_get (LaborCost row) (Num 0));
     financial_summary.total_cost := float_to_mysql (TotalCost row);
     financial_summary.profit := float_to_mysql (Profit row);
     financial_summary.profit_margin := float_to_mysql (ProfitMargin row);
     financial_summary.total_hours :=
       float_to_mysql (row_get (TotalHours row) (Num 0));
     financial_summary.efficiency_score :=
       float_to_mysql (row_get (EfficiencyScore row) (Num 0)) |}.

Definition department_tuple (report_date : date) (row : dept_summary_row)
  : department_summary.dept_row :=
  {| department_summary.report_date := report_date;
     department_summary.department_name := dept row;
     department_summary.total_hours := float_to_mysql (dept_TotalHours row);
     department_summary.total_labor_cost := float_to_mysql (TotalLaborCost row);
     department_summary.num_projects := Some (NumProjects row);
     department_summary.num_tasks := Some (NumTasks row);
     department_summary.avg_hourly_rate := float_to_mysql (HourlyRate row) |}.

(** [report_date] when given, else [datetime.now().strftime('%Y-%m-%d')]. *)
Definition date_or_today (report_date : option date) : M date :=
  match report_date with
  | Some d => mret d
  | None => t ← now; mret (dt_date t)
  end.

Definition insert_financial_summary {c}
    (summary_df : list (summary_row c)) (report_date : option date) : M unit :=
  try_except_Error
    (report_date ← date_or_today report_date;
     let data_to_insert := map (financial_tuple report_date) summary_df in
     executemany_financial data_to_insert;;
     commit)
    (rollback;; raise Error).

Definition insert_department_summary
    (dept_summary_df : list dept_summary_row) (report_date : option date) : M unit :=
  try_except_Error
    (report_date ← date_or_today report_date;
     let data_to_insert := map (department_tuple report_date) dept_summary_df in
     executemany_department data_to_insert;;
     commit)
    (rollback;; raise Error).

(* ===================================================================== *)
(** ** The SQL the report engine uses *)
(* ===================================================================== *)

(** Aggregates skip [NULL]; over no value at all they are [NULL]. *)
Definition non_null {A} (col : list (option A)) : list A := omap id col.

Definition total (xs : list Z) : Z := foldr Z.add 0 xs.

Definition SUM (col : list (option Z)) : option Z :=
  match non_null col with
  | [] => None
  | xs => Some (total xs)
  end.

(** [AVG(col)] as an exact rational; [scale] is 100 for a column in
    hundredths and 1 for an [INT] column. *)
Definition AVG (scale : positive) (col : list (option Z)) : option Q :=
  match non_null col with
  | [] => None
  | xs => Some (Qred (total xs # (scale * Pos.of_nat (length xs))))
  end.

Definition COUNT_star {A} (rows : list A) : Z := Z.of_nat (length rows).

Definition COUNT_DISTINCT {A} `{EqDecision A} (col : list A) : Z :=
  Z.of_nat (length (remove_dups col)).

(** Comparisons with a constant: the row is kept when the comparison is
    TRUE, which it is not on [NULL]. *)
Definition sql_lt (v : option Z) (c : Z) : bool :=
  match v with Some x => x <? c | None => false end.

Definition sql_gt (v : option Z) (c : Z) : bool :=
  match v with Some x => c <? x | None => false end.

Definition sql_eq (v : option string) (c : string) : bool :=
  match v with Some s => bool_decide (s = c) | None => false end.

Definition sql_ne (v : option string) (c : string) : bool :=
  match v with Some s => negb (bool_decide (s = c)) | None => false end.

(** The rows whose grouping key is [k]. *)
Definition group {A K} `{EqDecision K} (key : A → K) (k : K) (rows : list A)
  : list A :=
  List.filter (λ r, bool_decide (key r = k)) rows.

(** [GROUP BY key]: one group per distinct key, [NULL] keys together. *)
Definition GROUP_BY {A K} `{EqDecision K} (key : A → K) (rows : list A)
  : list (K * list A) :=
  map (λ k, (k, group key k rows)) (remove_dups (map key rows)).

(** [ORDER BY ... DESC] on a nullable number: [NULL] sorts last. *)
Definition desc (a b : option Z) : Prop :=
  match a, b with
  | _, None => True
  | None, Some _ => False
  | Some x, Some y => y ≤ x
  end.

#[global] Instance desc_dec a b : Decision (desc a b).
Proof. destruct a, b; simpl; apply _. Defined.

Definition LIMIT {A} (n : nat) (rows : list A) : list A := take n rows.

Definition fetchone {A} (rows : list A) : option A := head rows.

Definition financial_in_period (start_date end_date : date) (t : tables)
  : list financial_summary.fin_row :=
  List.filter (λ r, BETWEEN (financial_summary.report_date r) start_date end_date)
              (t_financial_summary t).

Definition department_in_period (start_date end_date : date) (t : tables)
  : list department_summary.dept_row :=
  List.filter (λ r, BETWEEN (department_summary.report_date r) start_date end_date)
              (t_department_summary t).

Definition summary_query (start_date end_date : date) (t : tables)
  : list (Z * option decimal * option decimal * option decimal * option Q
          * option decimal) :=
  let rows := financial_in_period start_date end_date t in
  [ (COUNT_DISTINCT (map financial_summary.project_code rows),
     SUM (map financial_summary.contract_price rows),
     SUM (map financial_summary.total_cost rows),
     SUM (map financial_summary.profit rows),
     AVG 100 (map financial_summary.profit_margin rows),
     SUM (map financial_summary.total_hours rows)) ].

Definition type_query (start_date end_date : date) (t : tables)
  : list (option string * Z * option decimal * option Q) :=
  map (λ '(k, g),
         (k, COUNT_star g,
          SUM (map financial_summary.profit g),
          AVG 100 (map financial_summary.profit_margin g)))
      (GROUP_BY financial_summary.project_type
                (financial_in_period start_date end_date t)).

Definition status_where (r : financial_summary.fin_row) : bool :=
  sql_eq (financial_summary.project_type r) "GS"
  && sql_ne (financial_summary.status r) "Unknown".

Definition status_query (start_date end_date : date) (t : tables)
  : list (option string * Z * option Q) :=
  map (λ '(k, g),
         (k, COUNT_star g, AVG 100 (map financial_summary.profit_margin g)))
      (GROUP_BY financial_summary.status
                (List.filter status_where
                             (financial_in_period start_date end_date t))).

Definition dept_tuple : Type := string * option decimal * option decimal * option Q.

(** [ORDER BY total_hours DESC]: the name is the select alias, the sum. *)
Definition by_total_hours_desc (a b : dept_tuple) : Prop :=
  desc (a.1.1.2) (b.1.1.2).

#[global] Instance by_total_hours_desc_dec a b : Decision (by_total_hours_desc a b).
Proof. unfold by_total_hours_desc. apply _. Defined.

Definition dept_groups (start_date end_date : date) (t : tables)
  : list dept_tuple :=
  map (λ '(k, g),
         (k, SUM (map department_summary.total_hours g),
          SUM (map department_summary.total_labor_cost g),
          AVG 1 (map department_summary.num_projects g)))
      (GROUP_BY department_summary.department_name
                (department_in_period start_date end_date t)).

(** SQL leaves the order among departments of equal sum open; the sort
    used here is one such order. *)
Definition dept_query (start_date end_date : date) (t : tables)
  : list dept_tuple :=
  LIMIT 10 (merge_sort by_total_hours_desc (dept_groups start_date end_date t)).

Definition loss_where (r : financial_summary.fin_row) : bool :=
  sql_lt (financial_summary.profit r) 0.

Definition loss_query (start_date end_date : date) (t : tables)
  : list (Z * option decimal) :=
  let rows := List.filter loss_where (financial_in_period start_date end_date t) in
  [ (COUNT_star rows, SUM (map financial_summary.profit rows)) ].

Definition low_eff_where (r : financial_summary.fin_row) : bool :=
  sql_lt (financial_summary.efficiency_score r) (decimal_of_int 100)
  && sql_gt (financial_summary.total_hours r) 0.

Definition low_eff_query (start_date end_date : date) (t : tables) : list Z :=
  [ COUNT_star (List.filter low_eff_where
                            (financial_in_period start_date end_date t)) ].

(* ===================================================================== *)
(** ** generate_automated_report *)
(* ===================================================================== *)

Module summary.
Record summary_dict := {
  total_projects : Z;
  total_revenue : Q;
  total_cost : Q;
  total_profit : Q;
  avg_profit_margin : Q;
  total_hours : Q
}.
End summary.

Module project_types.
Record type_entry := { count : Z; total_profit : Q; avg_margin : Q }.
End project_types.

Module project_status.
Record status_entry := { count : Z; avg_margin : Q }.
End project_status.

Module top_departments.
Record department_entry := {
  department : string;
  total_hours : Q;
  total_cost : Q;
  avg_projects : Q
}.
End top_departments.

Module alerts.
Record alert := { type : string; severity : string; message : string }.
End alerts.

(** The dictionary the method returns.  [summary] is [None] for the empty
    dictionary it starts as; [trends] is never filled. *)
Record report := {
  report_period : string;
  generated_at : string;
  summary : option summary.summary_dict;
  trends : gmap string Q;
  alerts : list alerts.alert;
  project_types : gmap (option string) project_types.type_entry;
  project_status : gmap (option string) project_status.status_entry;
  top_departments : list top_departments.department_entry
}.

(** [float(x)] on a value read from the database: [float(None)] raises. *)
Definition float_decimal (v : option decimal) : result Q :=
  match v with
  | Some d => mret (float_of_decimal d)
  | None => Raise TypeError
  end.

Definition float_avg (v : option Q) : result Q :=
  match v with
  | Some q => mret q
  | None => Raise TypeError
  end.

(** [float(x) if x else 0]: [None] and zero are both falsy. *)
Definition float_decimal_or_0 (v : option decimal) : Q :=
  match v with
  | Some d => if decide (d = 0) then 0%Q else float_of_decimal d
  | None => 0%Q
  end.

Definition float_avg_or_0 (v : option Q) : Q :=
  match v with
  | Some q => if decide (Qnum q = 0) then 0%Q else q
  | None => 0%Q
  end.

(** [abs(x)] on a nullable sum. *)
Definition abs_decimal (v : option decimal) : result decimal :=
  match v with
  | Some d => mret (Z.abs d)
  | None => Raise TypeError
  end.

(** [report['summary'] = {...}] under [if result:]. *)
Definition build_summary
    (result : option (Z * option decimal * option decimal * option decimal
                      * option Q * option decimal))
  : option summary.summary_dict :=
  match result with
  | Some (r0, r1, r2, r3, r4, r5) =>
      Some {| summary.total_projects := r0;
              summary.total_revenue := float_decimal_or_0 r1;
              summary.total_cost := float_decimal_or_0 r2;
              summary.total_profit := float_decimal_or_0 r3;
              summary.avg_profit_margin := float_avg_or_0 r4;
              summary.total_hours := float_decimal_or_0 r5 |}
  | None => None
  end.

(** The body of [for row in type_results]. *)
Definition add_type_entry (d : gmap (option string) project_types.type_entry)
    (row : option string * Z * option decimal * option Q)
  : result (gmap (option string) project_types.type_entry) :=
  let '(r0, r1, r2, r3) := row in
  p ← float_decimal r2;
  m ← float_avg r3;
  mret (<[r0 := {| project_types.count := r1;
                   project_types.total_profit := p;
                   project_types.avg_margin := m |}]> d).

(** The body of [for row in status_results]. *)
Definition add_status_entry (d : gmap (option string) project_status.status_entry)
    (row : option string * Z * option Q)
  : result (gmap (option string) project_status.status_entry) :=
  let '(r0, r1, r2) := row in
  m ← float_avg r2;
  mret (<[r0 := {| project_status.count := r1;
                   project_status.avg_margin := m |}]> d).

(** The body of [for row in dept_results]. *)
Definition append_department (l : list top_departments.department_entry)
    (row : dept_tuple) : result (list top_departments.department_entry) :=
  let '(r0, r1, r2, r3) := row in
  h ← float_decimal r1;
  c ← float_decimal r2;
  a ← float_avg r3;
  mret (l ++ [ {| top_departments.department := r0;
                  top_departments.total_hours := h;
                  top_departments.total_cost := c;
                  top_departments.avg_projects := a |} ]).

Definition loss_alert (count : Z) (loss : decimal) : alerts.alert :=
  {| alerts.type := "loss_making_projects";
     alerts.severity := "high";
     alerts.message :=
       str_int count +:+ " projects with total loss of " +:+ yen
         +:+ format_comma_2f loss |}.

Definition low_efficiency_alert (count : Z) : alerts.alert :=
  {| alerts.type := "low_efficiency";
     alerts.severity := "medium";
     alerts.message := str_int count +:+ " projects with low efficiency scores" |}.

(** [if loss_result and loss_result[0] > 0: report['alerts'].append(...)]. *)
Definition append_loss_alert (alerts : list alerts.alert)
    (loss_result : option (Z * option decimal)) : result (list alerts.alert) :=
  match loss_result with
  | Some (n, total_loss) =>
      if decide (0 < n)
      then l ← abs_decimal total_loss; mret (alerts ++ [loss_alert n l])
      else mret alerts
  | None => mret alerts
  end.

(** [if eff_result and eff_result[0] > 0: report['alerts'].append(...)]. *)
Definition append_low_efficiency_alert (alerts : list alerts.alert)
    (eff_result : option Z) : list alerts.alert :=
  match eff_result with
  | Some n => if decide (0 < n) then alerts ++ [low_efficiency_alert n] else alerts
  | None => alerts
  end.

Definition generate_automated_report (start_date end_date : option date)
  : M report :=
  try_except_Error
    (start_date ← match start_date with
                  | Some d => mret d
                  | None => t ← now; mret (first_of_month (dt_date t))
                  end;
     end_date ← match end_date with
                | Some d => mret d
                | None => t ← now; mret (dt_date t)
                end;
     t ← now;
     let report_period :=
       strftime_Ymd start_date +:+ " to " +:+ strftime_Ymd end_date in
     let generated_at := isoformat t in
     (* Overall summary *)
     cursor ← execute (summary_query start_date end_date);
     let summary := build_summary (fetchone cursor) in
     (* Project type breakdown *)
     type_results ← execute (type_query start_date end_date);
     project_types ← lift (for_each add_type_entry ∅ type_results);
     (* Status breakdown (GS projects) *)
     status_results ← execute (status_query start_date end_date);
     project_status ← lift (for_each add_status_entry ∅ status_results);
     (* Department performance *)
     dept_results ← execute (dept_query start_date end_date);
     top_departments ← lift (for_each append_department [] dept_results);
     (* Alert 1: Loss-making projects *)
     cursor ← execute (loss_query start_date end_date);
     alerts ← lift (append_loss_alert [] (fetchone cursor));
     (* Alert 2: Low efficiency *)
     cursor ← execute (low_eff_query start_date end_date);
     let alerts := append_low_efficiency_alert alerts (fetchone cursor) in
     mret {| report_period := report_period;
             generated_at := generated_at;
             summary := summary;
             trends := ∅;
             alerts := alerts;
             project_types := project_types;
             project_status := project_status;
             top_departments := top_departments |})
    (raise Error).

(* ===================================================================== *)
(** ** Storing one analysis run (main.py, [_database_operations]) *)
(* ===================================================================== *)

(** The two inserts [_database_operations] issues for one report date. *)
Definition store_summaries {c} (report_date : date)
    (financial_rows : list (summary_row c)) (department_rows : list dept_summary_row)
  : M unit :=
  insert_financial_summary financial_rows (Some report_date);;
  insert_department_summary department_rows (Some report_date).

(** The natural keys of the two tables. *)
Definition financial_key (r : financial_summary.fin_row) : date * string :=
  (financial_summary.report_date r, financial_summary.project_code r).

Definition department_key (r : department_summary.dept_row) : date * string :=
  (department_summary.report_date r, department_summary.department_name r).

(** No transaction is open. *)
Definition idle (w : world) : Prop := pending w = no_rows.

(** The first [n] requests to come are served. *)
Fixpoint all_succeed (n : nat) (schedule : list outcome) : bool :=
  match n, schedule with
  | O, _ => true
  | S _, [] => true
  | S n', Succeeds :: rest => all_succeed n' rest
  | S _, Fails _ :: _ => false
  end.

(** The world after [n] requests. *)
Definition after_requests (n : nat) (w : world) : world :=
  {| committed := committed w; pending := pending w;
     server := drop n (server w); clock := clock w |}.

(* ===================================================================== *)
(** ** Vocabulary of the statements *)
(* ===================================================================== *)

#[global] Instance date_le_dec a b : Decision (date_le a b).
Proof. unfold date_le. apply _. Defined.

(** [d] lies in the closed interval from [start_date] to [end_date]. *)
Definition in_range (start_date end_date d : date) : Prop :=
  date_le start_date d ∧ date_le d end_date.

(** A nullable number is there and satisfies [P]. *)
Definition holds (v : option Z) (P : Z → Prop) : Prop :=
  match v with Some x => P x | None => False end.

#[global] Instance holds_dec v P `{∀ x, Decision (P x)} : Decision (holds v P).
Proof. destruct v; simpl; apply _. Defined.

(** The stored financial rows of the period. *)
Definition rows_in_range (start_date end_date : date) (t : tables)
  : list financial_summary.fin_row :=
  filter (λ r, in_range start_date end_date (financial_summary.report_date r))
         (t_financial_summary t).

(** The stored department rows of the period. *)
Definition department_rows_in_range (start_date end_date : date) (t : tables)
  : list department_summary.dept_row :=
  filter (λ r, in_range start_date end_date (department_summary.report_date r))
         (t_department_summary t).

(** Rows with [profit < 0]. *)
Definition loss_making (r : financial_summary.fin_row) : Prop :=
  holds (financial_summary.profit r) (λ p, p < 0).

(** Rows with [efficiency_score < 100] and [total_hours > 0]. *)
Definition low_efficiency (r : financial_summary.fin_row) : Prop :=
  holds (financial_summary.efficiency_score r) (λ x, x < decimal_of_int 100)
  ∧ holds (financial_summary.total_hours r) (λ h, 0 < h).

#[global] Instance loss_making_dec r : Decision (loss_making r).
Proof. unfold loss_making. apply _. Defined.

#[global] Instance low_efficiency_dec r : Decision (low_efficiency r).
Proof. unfold low_efficiency. apply _. Defined.

(** The sum of a nullable column over some rows, [NULL]s skipped. *)
Definition sum_of {A} (col : A → option Z) (rows : list A) : Z :=
  total (omap col rows).

(** The [GS] rows of the period whose status is [st]. *)
Definition gs_rows_with_status (start_date end_date : date) (t : tables)
    (st : string) : list financial_summary.fin_row :=
  filter (λ r, financial_summary.project_type r = Some "GS"%string
               ∧ financial_summary.status r = Some st)
         (rows_in_range start_date end_date t).

(** The rows of the period with project type [ty]. *)
Definition rows_with_type (start_date end_date : date) (t : tables)
    (ty : option string) : list financial_summary.fin_row :=
  filter (λ r, financial_summary.project_type r = ty)
         (rows_in_range start_date end_date t).

(** The department rows of the period of department [name]. *)
Definition rows_of_department (start_date end_date : date) (t : tables)
    (name : string) : list department_summary.dept_row :=
  filter (λ r, department_summary.department_name r = name)
         (department_rows_in_range start_date end_date t).

(* ===================================================================== *)
(** ** Sample data *)
(* ===================================================================== *)

Definition sample_clock : datetime := mkdatetime (mkdate 2024 7 15) 10 30 0 0.

Definition july_1 : date := mkdate 2024 7 1.

(** A frame with every column. *)
Definition all_columns : columns :=
  {| has_Status := true; has_LaborCost := true; has_TotalHours := true;
     has_EfficiencyScore := true |}.

(** A [GS] project: contract 1,000,000; cost 700,000; 200 hours. *)
Definition sample_gs : summary_row all_columns :=
  {| ProjectCode := "GS-001"; ProjectName := Some "Plant"%string;
     ProjectType := Some "GS"%string; Status := Some "Success"%string;
     ContractPrice := Num 100000000; PurchaseCost := Num 70000000;
     LaborCost := Num 0; TotalCost := Num 70000000; Profit := Num 30000000;
     ProfitMargin := Num 3000; TotalHours := Num 20000;
     EfficiencyScore := Num 150000 |}.

(** An [ISS] project, status ['Unknown']: contract 500,000; cost 600,000;
    100 hours. *)
Definition sample_iss : summary_row all_columns :=
  {| ProjectCode := "ISS-001"; ProjectName := Some "Service"%string;
     ProjectType := Some "ISS"%string; Status := Some "Unknown"%string;
     ContractPrice := Num 50000000; PurchaseCost := Num 60000000;
     LaborCost := Num 0; TotalCost := Num 60000000; Profit := Num (-10000000);
     ProfitMargin := Num (-2000); TotalHours := Num 10000;
     EfficiencyScore := Num (-100000) |}.



(** An [ISS] project whose [Status] cell is a missing value, in a frame
    that has the column. *)
Definition sample_iss_missing_status : summary_row all_columns :=
  {| ProjectCode := "ISS-002"; ProjectName := Some "Support"%string;
     ProjectType := Some "ISS"%string; Status := None;
     ContractPrice := Num 50000000; PurchaseCost := Num 60000000;
     LaborCost := Num 0; TotalCost := Num 60000000; Profit := Num (-10000000);
     ProfitMargin := Num (-2000); TotalHours := Num 10000;
     EfficiencyScore := Num (-100000) |}.

(** A frame without a [Status] column, and an [ISS] project in it. *)
Definition no_Status_column : columns :=
  {| has_Status := false; has_LaborCost := true; has_TotalHours := true;
     has_EfficiencyScore := true |}.

Definition sample_iss_no_column : summary_row no_Status_column :=
  {| ProjectCode := "ISS-003"; ProjectName := Some "Upkeep"%string;
     ProjectType := Some "ISS"%string; Status := ();
     ContractPrice := Num 50000000; PurchaseCost := Num 60000000;
     LaborCost := Num 0; TotalCost := Num 60000000; Profit := Num (-10000000);
     ProfitMargin := Num (-2000); TotalHours := Num 10000;
     EfficiencyScore := Num (-100000) |}.

(** Department number [i], with [i] hundred hours. *)
Definition sample_department (i : nat) : dept_summary_row :=
  {| dept := "D" +:+ str_nat i; dept_TotalHours := Num (10000 * Z.of_nat i);
     TotalLaborCost := Num (500000 * Z.of_nat i); NumProjects := Z.of_nat i;
     NumTasks := 3; HourlyRate := Num 5000 |}.

Definition sample_departments : list dept_summary_row :=
  map sample_department (seq 1 12).

Definition empty_world : world :=
  {| committed := no_rows; pending := no_rows; server := [];
     clock := sample_clock |}.

(** The store after one run for July 1st. *)
Definition sample_world : world :=
  {| committed :=
       {| t_financial_summary := map (financial_tuple july_1) [sample_gs; sample_iss];
          t_department_summary := map (department_tuple july_1) sample_departments |};
     pending := no_rows; server := []; clock := sample_clock |}.

(** A server that fails the third request. *)
Definition third_request_fails : world :=
  {| committed := no_rows; pending := no_rows;
     server := [Succeeds; Succeeds; Fails 0]; clock := sample_clock |}.

(** Storing the same run twice. *)
Definition store_twice {c} (report_date : date)
    (financial_rows : list (summary_row c)) (department_rows : list dept_summary_row)
  : M unit :=
  store_summaries report_date financial_rows department_rows;;
  store_summaries report_date financial_rows department_rows.

(** Every number the report converts with [float(...)] is there: what the
    two insert methods write from frames that hold no NaN in these
    columns. *)
Definition well_stored (t : tables) : Prop :=
  Forall (λ r, is_Some (financial_summary.profit r)
               ∧ is_Some (financial_summary.profit_margin r))
         (t_financial_summary t)
  ∧ Forall (λ r, is_Some (department_summary.total_hours r)
                 ∧ is_Some (department_summary.total_labor_cost r)
                 ∧ is_Some (department_summary.num_projects r))
           (t_department_summary t).

(** A stored row with the given profit, hours and efficiency score. *)
Definition fixture_row (code : string) (p h eff : decimal)
  : financial_summary.fin_row :=
  {| financial_summary.report_date := july_1;
     financial_summary.project_code := code;
     financial_summary.project_name := None;
     financial_summary.project_type := Some "ISS"%string;
     financial_summary.status := Some "Unknown"%string;
     financial_summary.contract_price := Some 100000;
     financial_summary.purchase_cost := Some (100000 - p);
     financial_summary.labor_cost := Some 0;
     financial_summary.total_cost := Some (100000 - p);
     financial_summary.profit := Some p;
     financial_summary.profit_margin := Some (p / 10);
     financial_summary.total_hours := Some h;
     financial_summary.efficiency_score := Some eff |}.

(** Three rows at a loss, 500.00 in all, two of them with hours; one
    profitable row. *)
Definition alert_fixture : world :=
  {| committed :=
       {| t_financial_summary :=
            [ fixture_row "A" (-10000) 1000 (-1000);
              fixture_row "B" (-15000) 0 0;
              fixture_row "C" 90000 500 18000;
              fixture_row "D" (-25000) 2500 (-1000) ];
          t_department_summary := [] |};
     pending := no_rows; server := []; clock := sample_clock |}.

(** The sample store behind a server that fails the fourth request. *)
Definition fourth_request_fails : world :=
  {| committed := committed sample_world; pending := no_rows;
     server := [Succeeds; Succeeds; Succeeds; Fails 0]; clock := sample_clock |}.

(** A computation that leaves the stored rows and the clock alone. *)
Definition read_only {A} (m : M A) : Prop :=
  ∀ w, committed (m w).2 = committed w ∧ pending (m w).2 = pending w
       ∧ clock (m w).2 = clock w.


(** A stored [GS] row whose profit margin is [NULL]. *)
Definition null_margin_row : financial_summary.fin_row :=
  {| financial_summary.report_date := july_1;
     financial_summary.project_code := "GS-003";
     financial_summary.project_name := None;
     financial_summary.project_type := Some "GS"%string;
     financial_summary.status := Some "Success"%string;
     financial_summary.contract_price := Some 0;
     financial_summary.purchase_cost := Some 0;
     financial_summary.labor_cost := Some 0;
     financial_summary.total_cost := Some 0;
     financial_summary.profit := Some 0;
     financial_summary.profit_margin := None;
     financial_summary.total_hours := Some 0;
     financial_summary.efficiency_score := Some 0 |}.

(** The sample store with that row between its two rows. *)
Definition sample_world_with_null_margin : world :=
  {| committed :=
       {| t_financial_summary :=
            [financial_tuple july_1 sample_gs; null_margin_row;
             financial_tuple july_1 sample_iss];
          t_department_summary := t_department_summary (committed sample_world) |};
     pending := no_rows; server := []; clock := sample_clock |}.







(* ===================================================================== *)
(** ** The manager object: connection, cursor, report log *)
(* ===================================================================== *)

Module report_log.
Record log_row := {
  report_type : string;
  report_date : date;
  file_path : string;
  summary : option summary.summary_dict
}.
End report_log.

(** [self.connection] and [self.cursor]: [None], a live object, or an
    object that was closed. *)
Inductive handle := Unset | Open | Closed.

(** A [DatabaseManager] together with the server it talks to: the summary
    tables with the connection's open transaction, the committed rows of
    [report_log], and the two attributes.  [connect] sets both attributes
    and [disconnect] closes both; states where only one is live do not
    arise. *)
Record manager := {
  store : world;
  report_log_rows : list report_log.log_row;
  connection : handle;
  cursor : handle
}.

(** What a method of the manager can raise besides the exceptions of the
    report engine: an attribute of [None] was used, or a key is missing
    from a dictionary. *)
Inductive raised := Db (e : exception) | AttributeError | KeyError.

Inductive outcome_of (A : Type) := Done (a : A) | Failed (e : raised).
Arguments Done {A} a.
Arguments Failed {A} e.

Definition Session (A : Type) : Type := manager → outcome_of A * manager.

#[global] Instance Session_ret : MRet Session := λ A a g, (Done a, g).
#[global] Instance Session_bind : MBind Session := λ A B f m g,
  match m g with
  | (Done a, g') => f a g'
  | (Failed e, g') => (Failed e, g')
  end.

Definition fail {A} (e : raised) : Session A := λ g, (Failed e, g).

Definition with_store (w : world) (g : manager) : manager :=
  {| store := w; report_log_rows := report_log_rows g;
     connection := connection g; cursor := cursor g |}.

(** Talking to the server without the manager's attributes. *)
Definition server_side {A} (m : M A) : Session A := λ g,
  match m (store g) with
  | (Return a, w') => (Done a, with_store w' g)
  | (Raise e, w') => (Failed (Db e), with_store w' g)
  end.

(** A method of the first part run on a manager.  Its first use of
    [self.cursor] raises [AttributeError] on a manager that never
    connected, before anything is sent; on a closed cursor the driver
    raises an [Error] and nothing is sent either. *)
Definition on_store {A} (m : M A) : Session A := λ g,
  match cursor g, connection g with
  | Unset, _ => (Failed AttributeError, g)
  | Open, Open => server_side m g
  | _, _ => (Failed (Db Error), g)
  end.

(** [datetime.now().strftime('%Y-%m-%d')], which needs no connection. *)
Definition today : Session date := λ g, (Done (dt_date (clock (store g))), g).

(** [try: body  except Error: handler] at the level of the manager. *)
Definition try_except_Db_Error {A} (body handler : Session A) : Session A :=
  λ g,
  match body g with
  | (Failed (Db Error), g') => handler g'
  | r => r
  end.

(** [try: body  finally: cleanup]. *)
Definition try_finally {A} (body : Session A) (cleanup : Session unit)
  : Session A := λ g,
  match body g with
  | (r, g1) =>
      match cleanup g1 with
      | (Done _, g2) => (r, g2)
      | (Failed e, g2) => (Failed e, g2)
      end
  end.

(** One request that changes no row: opening a connection, [CREATE
    DATABASE IF NOT EXISTS], an [INSERT] into [report_log] (whose row is
    handed to the commit below). *)
Definition request : M unit := λ w,
  match next_outcome w with
  | (Succeeds, w') => (Return (), w')
  | (Fails _, w') => (Raise Error, w')
  end.

(** [DatabaseManager()]: both attributes start as [None]. *)
Definition new_DatabaseManager : Session unit := λ g,
  (Done (), {| store := store g; report_log_rows := report_log_rows g;
               connection := Unset; cursor := Unset |}).

(** [connect]: on success both attributes are set; a new connection has no
    open transaction.  On failure the error is raised again. *)
Definition set_connected : Session unit := λ g,
  (Done (), {| store := (rollback (store g)).2;
               report_log_rows := report_log_rows g;
               connection := Open; cursor := Open |}).

Definition connect : Session unit :=
  try_except_Db_Error (server_side request;; set_connected) (fail (Db Error)).

(** [disconnect]: each attribute is closed when it is not [None]; closing
    the connection drops its open transaction. *)
Definition disconnect : Session unit := λ g,
  let cursor' := match cursor g with Unset => Unset | _ => Closed end in
  match connection g with
  | Unset =>
      (Done (), {| store := store g; report_log_rows := report_log_rows g;
                   connection := Unset; cursor := cursor' |})
  | _ =>
      (Done (), {| store := (rollback (store g)).2;
                   report_log_rows := report_log_rows g;
                   connection := Closed; cursor := cursor' |})
  end.

(** [create_database]: a connection of its own and one statement; the
    manager's attributes are not used. *)
Definition create_database : Session unit :=
  try_except_Db_Error (server_side (request;; request)) (fail (Db Error)).

(** [CREATE TABLE IF NOT EXISTS] on a table that is there changes no
    row; being DDL, it ends the open transaction as a commit does. *)
Definition create_table_if_not_exists : M unit := commit.

(** [create_tables]: three statements and a commit; no rollback. *)
Definition create_tables : Session unit :=
  try_except_Db_Error
    (on_store (create_table_if_not_exists;; create_table_if_not_exists;;
               create_table_if_not_exists;; commit))
    (fail (Db Error)).

(** [connection.commit()] of a transaction that wrote [written] to
    [report_log]. *)
Definition connection_commit (written : list report_log.log_row)
  : Session unit := λ g,
  match connection g with
  | Unset => (Failed AttributeError, g)
  | Open =>
      match commit (store g) with
      | (Return _, w') =>
          (Done (), {| store := w';
                       report_log_rows := report_log_rows g ++ written;
                       connection := connection g; cursor := cursor g |})
      | (Raise e, w') => (Failed (Db e), with_store w' g)
      end
  | Closed => (Failed (Db Error), g)
  end.

(** [connection.rollback()]. *)
Definition connection_rollback : Session unit := λ g,
  match connection g with
  | Unset => (Failed AttributeError, g)
  | Open => (Done (), with_store (rollback (store g)).2 g)
  | Closed => (Failed (Db Error), g)
  end.

(** [log_report].  The summary is kept as the dictionary it is the JSON
    text of. *)
Definition log_report (report_type file_path : string)
    (summary : option summary.summary_dict) : Session unit :=
  try_except_Db_Error
    (report_date ← today;
     let row := {| report_log.report_type := report_type;
                   report_log.report_date := report_date;
                   report_log.file_path := file_path;
                   report_log.summary := summary |} in
     on_store request;;
     connection_commit [row])
    (connection_rollback;; fail (Db Error)).

(* ===================================================================== *)
(** ** AutomatedReportGenerator.generate_daily_report *)
(* ===================================================================== *)

(** [c.upper()] for an ASCII letter; other bytes are kept. *)
Definition upper_ascii (c : ascii) : ascii :=
  let n := nat_of_ascii c in
  if (97 <=? n)%nat && (n <=? 122)%nat then ascii_of_nat (n - 32) else c.

(** [s.upper()] on ASCII text. *)
Fixpoint upper (s : string) : string :=
  match s with
  | EmptyString => EmptyString
  | String c s' => String (upper_ascii c) (upper s')
  end.

(** [c * n] for a one-character string. *)
Definition repeat_string (c : string) (n : nat) : string :=
  String.concat "" (replicate n c).

(** The number of hundredths of a float that is a whole number of them, as
    the sums of the summary are. *)
Definition hundredths (q : Q) : Z := (Qnum q * 100) `div` Zpos (Qden q).

(** [f"{x:,.2f}"] for such a float. *)
Definition format_money (q : Q) : string := format_comma_2f (hundredths q).

(** [lines] for one alert. *)
Definition alert_line (a : alerts.alert) : string :=
  "[" +:+ upper (alerts.severity a) +:+ "] " +:+ alerts.message a.

(** The lines under [if report['alerts']:]. *)
Definition alert_block (al : list alerts.alert) : list string :=
  match al with
  | [] => []
  | _ => ["ALERTS"; repeat_string "-" 30] ++ map alert_line al ++ [""]
  end.

Section daily_report.
(** [f"{x:.2f}"] on a float that need not be a whole number of hundredths:
    Python rounds the binary value, which the exact rational does not
    determine on ties. *)
Variable format_2f : Q → string.

(** The lines of the daily report for a summary dictionary that is
    filled. *)
Definition daily_report_lines (r : report) (s : summary.summary_dict)
  : list string :=
  [ repeat_string "=" 60;
    "WTL DAILY FINANCIAL REPORT";
    repeat_string "=" 60;
    "Generated: " +:+ generated_at r;
    "Period: " +:+ report_period r;
    "";
    "SUMMARY";
    repeat_string "-" 30;
    "Total Projects: " +:+ str_int (summary.total_projects s);
    "Total Revenue: " +:+ yen +:+ format_money (summary.total_revenue s);
    "Total Profit: " +:+ yen +:+ format_money (summary.total_profit s);
    "Avg Profit Margin: " +:+ format_2f (summary.avg_profit_margin s) +:+ "%";
    "" ]
  ++ alert_block (alerts r).

(** ['
'.join(lines)]. *)
Definition join_lines (lines : list string) : string :=
  String.concat (String (ascii_of_nat 10) EmptyString) lines.

Definition generate_daily_report : Session string :=
  report ← on_store (generate_automated_report None None);
  match summary report with
  | None => fail KeyError
  | Some s => mret (join_lines (daily_report_lines report s))
  end.

(* ===================================================================== *)
(** ** The callers: main.py [_database_operations], [main] *)
(* ===================================================================== *)

(** [WTLAnalysisSystem._database_operations]; the value returned is the
    text written to [automated_daily_report.txt]. *)
Definition _database_operations {c}
    (financial_summary_df : list (summary_row c))
    (department_summary_df : list dept_summary_row) : Session string :=
  new_DatabaseManager;;
  try_finally
    (create_database;;
     connect;;
     create_tables;;
     report_date ← today;
     on_store (insert_financial_summary financial_summary_df (Some report_date));;
     on_store (insert_department_summary department_summary_df (Some report_date));;
     auto_report ← generate_daily_report;
     mret auto_report)
    disconnect.

End daily_report.

(** [main] of database_manager.py, from the frames the loader and the
    processor hand over; the value returned is the report printed. *)
Definition main {c}
    (financial_summary : list (summary_row c))
    (department_summary_df : list dept_summary_row) : Session report :=
  new_DatabaseManager;;
  try_finally
    (create_database;;
     connect;;
     create_tables;;
     on_store (insert_financial_summary financial_summary None);;
     on_store (insert_department_summary department_summary_df None);;
     report ← on_store (generate_automated_report None None);
     log_report "daily_summary" "reports/daily_summary.txt" (summary report);;
     mret report)
    disconnect.

(* ===================================================================== *)
(** ** Vocabulary of the statements about the manager *)
(* ===================================================================== *)

(** Both attributes are live. *)
Definition connected (g : manager) : Prop :=
  cursor g = Open ∧ connection g = Open.

(** The outcome is a value or an exception of the database or of the
    report engine: not [AttributeError], not [KeyError]. *)
Definition database_failure_only {A} (res : outcome_of A) : Prop :=
  match res with
  | Failed AttributeError | Failed KeyError => False
  | _ => True
  end.

(** A method that, on a connected manager, keeps it connected and fails
    with database failures only. *)
Definition safe_when_connected {A} (m : Session A) : Prop :=
  ∀ g, connected g → database_failure_only (m g).1 ∧ connected (m g).2.


(** A [GS] row whose status is there and is not ['Unknown']. *)
Definition has_known_status (r : financial_summary.fin_row) : Prop :=
  financial_summary.project_type r = Some "GS"%string
  ∧ financial_summary.status r ≠ None
  ∧ financial_summary.status r ≠ Some "Unknown"%string.

#[global] Instance has_known_status_dec r : Decision (has_known_status r).
Proof. unfold has_known_status. apply _. Defined.

(** Between the steps of a run started at [g0]: the manager is connected
    with no open transaction, and the clock and the report log are those
    of [g0]. *)
Definition settled (g0 g : manager) : Prop :=
  connected g ∧ idle (store g) ∧ clock (store g) = clock (store g0)
  ∧ report_log_rows g = report_log_rows g0.

(** A store whose only [GS] row has no profit margin. *)
Definition sample_world_null_margin_type : world :=
  {| committed :=
       {| t_financial_summary :=
            [null_margin_row; financial_tuple july_1 sample_iss];
          t_department_summary := [] |};
     pending := no_rows; server := []; clock := sample_clock |}.

(** The report [r] under another [generated_at] stamp. *)
Definition with_generated_at (stamp : string) (r : report) : report :=
  {| report_period := report_period r;
     generated_at := stamp;
     summary := summary r;
     trends := trends r;
     alerts := alerts r;
     project_types := project_types r;
     project_status := project_status r;
     top_departments := top_departments r |}.

(** No NaN among the cells of a financial row that end up in columns the
    report converts with [float(...)]. *)
Definition no_missing_numbers {c} (row : summary_row c) : Prop :=
  Profit row ≠ NaN ∧ ProfitMargin row ≠ NaN.

(** The same for a department row. *)
Definition no_missing_department_numbers (row : dept_summary_row) : Prop :=
  dept_TotalHours row ≠ NaN ∧ TotalLaborCost row ≠ NaN.
(* ===================================================================== *)
(** * Properties *)
(* ===================================================================== *)

Section monad_facts.
Context {A B : Type}.

Lemma bind_Return (m : M A) (f : A → M B) w b w' :
    (m ≫= f) w = (Return b, w') →
    ∃ a w1, m w = (Return a, w1) ∧ f a w1 = (Return b, w').
  Proof.
    unfold mbind, M_bind. destruct (m w) as [[a|e] w1]; [eauto | discriminate].
  Qed.

Lemma bind_run (m : M A) (f : A → M B) w a w1 :
    m w = (Return a, w1) → (m ≫= f) w = f a w1.
  Proof. unfold mbind, M_bind. by intros ->. Qed.

Lemma try_reraise (body : M A) w :
    try_except_Error body (raise Error) w = body w.
  Proof.
    unfold try_except_Error, raise. by destruct (body w) as [[a|[]] w1].
  Qed.
End monad_facts.

Lemma tables_app_no_rows_r t : tables_app t no_rows = t.
Proof. destruct t; unfold tables_app; simpl. by rewrite !app_nil_r. Qed.

Lemma idle_visible w : idle w → visible w = committed w.
Proof. unfold idle, visible. intros ->. apply tables_app_no_rows_r. Qed.

(** *** The two insert methods, request by request *)

Lemma elem_of_Fails_drop n k (l : list outcome) :
  Fails k ∈ drop n l → ∃ k', Fails k' ∈ l.
Proof.
  intros H. exists k. apply list_elem_of_lookup in H as [i H].
  rewrite lookup_drop in H. by eapply list_elem_of_lookup_2.
Qed.

Ltac insert_case :=
  intros [= <- <-]; simpl;
  split_and!;
  [ reflexivity | reflexivity
  | first [ by exists 0%nat | by exists 1%nat | by exists 2%nat ]
  | by rewrite ?app_nil_r
  | first [ left; split; [reflexivity | by rewrite ?app_nil_r]
          | right; split_and!;
            [ reflexivity
            | eexists; first [ apply list_elem_of_here
                             | apply list_elem_of_further, list_elem_of_here ]
            | by rewrite ?app_nil_r ] ] ].

Lemma insert_financial_summary_cases {cols} (df : list (summary_row cols)) rd w res w' :
  idle w →
  insert_financial_summary df rd w = (res, w') →
  let data := map (financial_tuple (get rd (dt_date (clock w)))) df in
  idle w' ∧ clock w' = clock w ∧
  (∃ n, server w' = drop n (server w)) ∧
  t_department_summary (committed w') = t_department_summary (committed w) ∧
  ((res = Return () ∧
    t_financial_summary (committed w')
      = t_financial_summary (committed w) ++ data)
   ∨
   (res = Raise Error ∧ (∃ k, Fails k ∈ server w) ∧
    t_financial_summary (committed w') = t_financial_summary (committed w))).
Proof.
  intros Hidle. unfold idle in Hidle.
  unfold insert_financial_summary, try_except_Error.
  assert (Hd : date_or_today rd w
               = (Return (get rd (dt_date (clock w))), w)) by (by destruct rd).
  rewrite (bind_run _ _ _ _ _ Hd).
  destruct w as [c p s t]; simpl in *; subst p.
  unfold mbind, M_bind, executemany_financial, commit, next_outcome, rollback,
    raise, visible, tx_write, idle; simpl.
  destruct (map _ df) as [|x data']; simpl.
  - destruct s as [|[|k] s']; simpl; insert_case.
  - destruct s as [|[|k] s']; simpl; [insert_case | | insert_case].
    destruct s' as [|[|k] s'']; simpl; insert_case.
Qed.

Lemma insert_department_summary_cases df rd w res w' :
  idle w →
  insert_department_summary df rd w = (res, w') →
  let data := map (department_tuple (get rd (dt_date (clock w)))) df in
  idle w' ∧ clock w' = clock w ∧
  (∃ n, server w' = drop n (server w)) ∧
  t_financial_summary (committed w') = t_financial_summary (committed w) ∧
  ((res = Return () ∧
    t_department_summary (committed w')
      = t_department_summary (committed w) ++ data)
   ∨
   (res = Raise Error ∧ (∃ k, Fails k ∈ server w) ∧
    t_department_summary (committed w') = t_department_summary (committed w))).
Proof.
  intros Hidle. unfold idle in Hidle.
  unfold insert_department_summary, try_except_Error.
  assert (Hd : date_or_today rd w
               = (Return (get rd (dt_date (clock w))), w)) by (by destruct rd).
  rewrite (bind_run _ _ _ _ _ Hd).
  destruct w as [c p s t]; simpl in *; subst p.
  unfold mbind, M_bind, executemany_department, commit, next_outcome, rollback,
    raise, visible, tx_write, idle; simpl.
  destruct (map _ df) as [|x data']; simpl.
  - destruct s as [|[|k] s']; simpl; insert_case.
  - destruct s as [|[|k] s']; simpl; [insert_case | | insert_case].
    destruct s' as [|[|k] s'']; simpl; insert_case.
Qed.

Lemma no_failure_drop n (l : list outcome) :
  Forall (eq Succeeds) l → Forall (eq Succeeds) (drop n l).
Proof. apply Forall_drop. Qed.

Lemma no_failure_no_Fails k (l : list outcome) :
  Forall (eq Succeeds) l → Fails k ∈ l → False.
Proof.
  intros Hall Hin. rewrite Forall_forall in Hall.
  specialize (Hall _ Hin). discriminate.
Qed.

Lemma store_summaries_run {cols} d (fin : list (summary_row cols)) dept w res w' :
  store_summaries d fin dept w = (res, w') →
  ∃ res1 w1, insert_financial_summary fin (Some d) w = (res1, w1) ∧
    match res1 with
    | Return _ => insert_department_summary dept (Some d) w1 = (res, w')
    | Raise e => res = Raise e ∧ w' = w1
    end.
Proof.
  unfold store_summaries, mbind, M_bind.
  destruct (insert_financial_summary fin (Some d) w) as [[[]|e] w1]; intros H.
  - exists (Return ()), w1. by split.
  - injection H as <- <-. exists (Raise e), w1. by split.
Qed.

(** The three ways one run can end: both tables extended, neither, or the
    financial table alone. *)
Lemma store_summaries_cases {cols} d (fin : list (summary_row cols)) dept w res w' :
  idle w →
  store_summaries d fin dept w = (res, w') →
  let F := map (financial_tuple d) fin in
  let D := map (department_tuple d) dept in
  let old := committed w in
  let new := committed w' in
  idle w' ∧ clock w' = clock w ∧ (∃ n, server w' = drop n (server w)) ∧
  ((res = Return () ∧
    t_financial_summary new = t_financial_summary old ++ F ∧
    t_department_summary new = t_department_summary old ++ D)
   ∨ (res = Raise Error ∧ (∃ k, Fails k ∈ server w) ∧
      t_financial_summary new = t_financial_summary old ∧
      t_department_summary new = t_department_summary old)
   ∨ (res = Raise Error ∧ (∃ k, Fails k ∈ server w) ∧
      t_financial_summary new = t_financial_summary old ++ F ∧
      t_department_summary new = t_department_summary old)).
Proof.
  intros Hidle Hrun. simpl.
  apply store_summaries_run in Hrun as (res1 & w1 & H1 & H2).
  apply insert_financial_summary_cases in H1
    as (Hidle1 & Hclock1 & [n1 Hs1] & Hdept1 & Hfin1); [|done].
  simpl in Hfin1.
  destruct Hfin1 as [[-> Hfin1] | (-> & Hfail & Hfin1)].
  - apply insert_department_summary_cases in H2
      as (Hidle2 & Hclock2 & [n2 Hs2] & Hfin2 & Hdept2); [|done].
    simpl in Hdept2. split_and!; [done | congruence | |].
    { exists (n1 + n2)%nat. by rewrite Hs2, Hs1, drop_drop. }
    destruct Hdept2 as [[-> Hdept2] | (-> & [k Hfail] & Hdept2)].
    + left. split_and!; [done | congruence | congruence].
    + right; right. split_and!; [done | | congruence | congruence].
      rewrite Hs1 in Hfail. by eapply elem_of_Fails_drop.
  - destruct H2 as [-> ->]. split_and!; [done | done | by exists n1 |].
    right; left. by split_and!.
Qed.

(** *** The report method, request by request *)

Lemma all_succeed_nil n : all_succeed n [] = true.
Proof. by destruct n. Qed.

Lemma all_succeed_S n (l : list outcome) :
  all_succeed (S n) l = all_succeed 1 l && all_succeed n (drop 1 l).
Proof.
  destruct l as [|[|k] l]; simpl; [|by destruct n|done].
  by rewrite all_succeed_nil.
Qed.

Lemma all_succeed_lookup n (l : list outcome) i k :
  (i < n)%nat → l !! i = Some (Fails k) → all_succeed n l = false.
Proof.
  revert l i. induction n as [|n IH]; intros l i Hi Hl; [lia|].
  destruct l as [|o l]; [done|].
  destruct i as [|i]; simpl in Hl.
  - by injection Hl as ->.
  - destruct o; [|done]. simpl. apply (IH l i); [lia | done].
Qed.

Lemma after_requests_add n m w :
  after_requests n (after_requests m w) = after_requests (m + n) w.
Proof. unfold after_requests; simpl. by rewrite drop_drop. Qed.

Lemma visible_after_requests n w : visible (after_requests n w) = visible w.
Proof. done. Qed.

Lemma execute_Return {A} (q : tables → A) w a w1 :
  execute q w = (Return a, w1) →
  a = q (visible w) ∧ w1 = after_requests 1 w ∧ all_succeed 1 (server w) = true.
Proof.
  unfold execute, next_outcome, after_requests.
  destruct w as [c p [|[|k] l] t]; simpl; intros [= <- <-]; by rewrite ?drop_0.
Qed.

Lemma execute_run {A} (q : tables → A) w :
  all_succeed 1 (server w) = true →
  execute q w = (Return (q (visible w)), after_requests 1 w).
Proof.
  unfold execute, next_outcome, after_requests.
  destruct w as [c p [|[|k] l] t]; simpl; intros H; by rewrite ?drop_0.
Qed.

Lemma start_date_run (s : option date) w :
  match s with
  | Some d => mret d
  | None => t ← now; mret (first_of_month (dt_date t))
  end w = (Return (get s (first_of_month (dt_date (clock w)))), w).
Proof. by destruct s. Qed.

Lemma end_date_run (e : option date) w :
  match e with
  | Some d => mret d
  | None => t ← now; mret (dt_date t)
  end w = (Return (get e (dt_date (clock w))), w).
Proof. by destruct e. Qed.

Lemma lift_Return {A} (x : result A) w a w1 :
  lift x w = (Return a, w1) → x = Return a ∧ w1 = w.
Proof. unfold lift. by intros [= -> ->]. Qed.

Lemma generate_automated_report_Return s e w r w' :
  generate_automated_report s e w = (Return r, w') →
  let sd := get s (first_of_month (dt_date (clock w))) in
  let ed := get e (dt_date (clock w)) in
  let T := visible w in
  all_succeed 6 (server w) = true ∧ w' = after_requests 6 w ∧
  report_period r = strftime_Ymd sd +:+ " to " +:+ strftime_Ymd ed ∧
  generated_at r = isoformat (clock w) ∧
  summary r = build_summary (fetchone (summary_query sd ed T)) ∧
  trends r = ∅ ∧
  for_each add_type_entry ∅ (type_query sd ed T) = Return (project_types r) ∧
  for_each add_status_entry ∅ (status_query sd ed T) = Return (project_status r) ∧
  for_each append_department [] (dept_query sd ed T) = Return (top_departments r) ∧
  ∃ a1, append_loss_alert [] (fetchone (loss_query sd ed T)) = Return a1 ∧
        alerts r = append_low_efficiency_alert a1 (fetchone (low_eff_query sd ed T)).
Proof.
  intros H sd ed T. unfold generate_automated_report in H.
  rewrite try_reraise in H.
  rewrite (bind_run _ _ _ _ _ (start_date_run s w)) in H.
  rewrite (bind_run _ _ _ _ _ (end_date_run e w)) in H.
  fold sd ed in H.
  apply bind_Return in H as (now_ & w0 & [= <- <-] & H).
  apply bind_Return in H as (c1 & w1 & (-> & -> & S1)%execute_Return & H).
  apply bind_Return in H as (c2 & w2 & (-> & -> & S2)%execute_Return & H).
  apply bind_Return in H as (pt & ? & (Hpt & ->)%lift_Return & H).
  apply bind_Return in H as (c3 & w3 & (-> & -> & S3)%execute_Return & H).
  apply bind_Return in H as (ps & ? & (Hps & ->)%lift_Return & H).
  apply bind_Return in H as (c4 & w4 & (-> & -> & S4)%execute_Return & H).
  apply bind_Return in H as (td & ? & (Htd & ->)%lift_Return & H).
  apply bind_Return in H as (c5 & w5 & (-> & -> & S5)%execute_Return & H).
  apply bind_Return in H as (a1 & ? & (Ha1 & ->)%lift_Return & H).
  apply bind_Return in H as (c6 & w6 & (-> & -> & S6)%execute_Return & H).
  injection H as <- <-.
  rewrite !after_requests_add in *. cbn [Nat.add] in *.
  rewrite !visible_after_requests in *.
  cbn [after_requests server] in S2, S3, S4, S5, S6.
  split_and!; try done.
  - rewrite (all_succeed_S 5), S1; cbn [andb].
    rewrite (all_succeed_S 4), S2, drop_drop; cbn [andb Nat.add].
    rewrite (all_succeed_S 3), S3, drop_drop; cbn [andb Nat.add].
    rewrite (all_succeed_S 2), S4, drop_drop; cbn [andb Nat.add].
    rewrite (all_succeed_S 1), S5, drop_drop; cbn [andb Nat.add].
    done.
  - by exists a1.
Qed.

Lemma all_succeed_drop n i (l : list outcome) :
  all_succeed n l = true → (i < n)%nat → all_succeed 1 (drop i l) = true.
Proof.
  revert i l. induction n as [|n IH]; intros i l H Hi; [lia|].
  destruct l as [|o l]; [by rewrite drop_nil|].
  destruct i as [|i].
  - rewrite drop_0. by destruct o.
  - destruct o; [|done]. simpl in *. apply IH; [done | lia].
Qed.

Lemma lift_run {A} (a : A) w : lift (Return a) w = (Return a, w).
Proof. reflexivity. Qed.

Lemma generate_automated_report_returns s e w pt ps td a1 :
  let sd := get s (first_of_month (dt_date (clock w))) in
  let ed := get e (dt_date (clock w)) in
  let T := visible w in
  all_succeed 6 (server w) = true →
  for_each add_type_entry ∅ (type_query sd ed T) = Return pt →
  for_each add_status_entry ∅ (status_query sd ed T) = Return ps →
  for_each append_department [] (dept_query sd ed T) = Return td →
  append_loss_alert [] (fetchone (loss_query sd ed T)) = Return a1 →
  generate_automated_report s e w =
    (Return {| report_period := strftime_Ymd sd +:+ " to " +:+ strftime_Ymd ed;
               generated_at := isoformat (clock w);
               summary := build_summary (fetchone (summary_query sd ed T));
               trends := ∅;
               alerts := append_low_efficiency_alert a1
                           (fetchone (low_eff_query sd ed T));
               project_types := pt;
               project_status := ps;
               top_departments := td |},
     after_requests 6 w).
Proof.
  intros sd ed T Hs Hpt Hps Htd Ha1. unfold generate_automated_report.
  rewrite try_reraise.
  rewrite (bind_run _ _ _ _ _ (start_date_run s w)).
  rewrite (bind_run _ _ _ _ _ (end_date_run e w)).
  fold sd ed.
  assert (Hnow : now w = (Return (clock w), w)) by reflexivity.
  rewrite (bind_run _ _ _ _ _ Hnow).
  assert (Hi : ∀ i, (i < 6)%nat →
                    all_succeed 1 (server (after_requests i w)) = true).
  { intros i Hi. simpl. by apply (all_succeed_drop 6). }
  assert (H0 : all_succeed 1 (server w) = true).
  { rewrite <- (drop_0 (server w)). apply (all_succeed_drop 6); [done | lia]. }
  rewrite (bind_run _ _ _ _ _ (execute_run _ _ H0)).
  rewrite (bind_run _ _ _ _ _ (execute_run _ _ (Hi 1%nat ltac:(lia)))).
  rewrite after_requests_add, visible_after_requests; cbn [Nat.add].
  fold T. rewrite Hpt. rewrite (bind_run _ _ _ _ _ (lift_run pt _)).
  rewrite (bind_run _ _ _ _ _ (execute_run _ _ (Hi 2%nat ltac:(lia)))).
  rewrite after_requests_add, visible_after_requests; cbn [Nat.add].
  fold T. rewrite Hps. rewrite (bind_run _ _ _ _ _ (lift_run ps _)).
  rewrite (bind_run _ _ _ _ _ (execute_run _ _ (Hi 3%nat ltac:(lia)))).
  rewrite after_requests_add, visible_after_requests; cbn [Nat.add].
  fold T. rewrite Htd. rewrite (bind_run _ _ _ _ _ (lift_run td _)).
  rewrite (bind_run _ _ _ _ _ (execute_run _ _ (Hi 4%nat ltac:(lia)))).
  rewrite after_requests_add, visible_after_requests; cbn [Nat.add].
  fold T. rewrite Ha1. rewrite (bind_run _ _ _ _ _ (lift_run a1 _)).
  rewrite (bind_run _ _ _ _ _ (execute_run _ _ (Hi 5%nat ltac:(lia)))).
  rewrite after_requests_add, visible_after_requests; cbn [Nat.add].
  reflexivity.
Qed.

(** *** Grouping *)

Section group_by.
Context {A K : Type} `{EqDecision K} (key : A → K).

Lemma elem_of_GROUP_BY k g rows :
    (k, g) ∈ GROUP_BY key rows ↔ k ∈ map key rows ∧ g = group key k rows.
  Proof.
    unfold GROUP_BY. rewrite list_elem_of_fmap. split.
    - intros (k' & [= -> ->] & Hk). by rewrite elem_of_remove_dups in Hk.
    - intros [Hk ->]. exists k. by rewrite elem_of_remove_dups.
  Qed.

Lemma GROUP_BY_keys rows :
    map fst (GROUP_BY key rows) = remove_dups (map key rows).
  Proof.
    unfold GROUP_BY. rewrite map_map. simpl. apply map_id.
  Qed.

Lemma NoDup_GROUP_BY_keys rows : NoDup (map fst (GROUP_BY key rows)).
  Proof. rewrite GROUP_BY_keys. apply NoDup_remove_dups. Qed.

Lemma group_nonempty k rows : k ∈ map key rows ↔ group key k rows ≠ [].
  Proof.
    unfold group. induction rows as [|r rows IH]; simpl.
    - split; [by intros ?%elem_of_nil | done].
    - rewrite elem_of_cons. case_bool_decide as Hk.
      + split; [done | by left].
      + rewrite <- IH. split; [intros [?|?]; [congruence | done] | by right].
  Qed.

End group_by.

(** *** The loops that fill the report *)


Lemma for_each_add_status_entry rows : ∀ d d',
  NoDup (map (λ row, row.1.1) rows) →
  for_each add_status_entry d rows = Return d' →
  (∀ k n a, (k, n, a) ∈ rows → is_Some a) ∧
  (∀ k en, d' !! k = Some en ↔
     (∃ n m, (k, n, Some m) ∈ rows ∧
        en = {| project_status.count := n; project_status.avg_margin := m |})
     ∨ ((k ∉ map (λ row, row.1.1) rows) ∧ d !! k = Some en)).
Proof.
  induction rows as [|[[k0 n0] a0] rows IH]; intros d d' Hnd Hrun.
  - injection Hrun as <-. split.
    + by intros k n a ?%elem_of_nil.
    + intros k en. split.
      * intros H. right. split; [apply not_elem_of_nil | done].
      * intros [(n & m & []%elem_of_nil & _) | [_ H]]; done.
  - simpl in Hnd. apply NoDup_cons in Hnd as [Hk0 Hnd].
    simpl in Hrun. destruct a0 as [m0|]; [|done].
    simpl in Hrun. apply IH in Hrun as [Hsome Hlook]; [|done]. split.
    + intros k n a [[= -> -> ->] | Hin]%elem_of_cons; [done|eauto].
    + intros k en. rewrite Hlook. clear Hlook. simpl. split.
      * intros [(n & m & Hin & ->) | [Hk Hd]].
        -- left. exists n, m. split; [by right | done].
        -- destruct (decide (k0 = k)) as [->|Hne].
           ++ rewrite lookup_insert_eq in Hd. injection Hd as <-.
              left. exists n0, m0. split; [by left | done].
           ++ rewrite lookup_insert_ne in Hd by done. right. split; [|done].
              rewrite elem_of_cons. intros [?|?]; [congruence | done].
      * intros [(n & m & [[= -> -> ->] | Hin]%elem_of_cons & ->) | [Hk Hd]].
        -- right. split; [done|]. by rewrite lookup_insert_eq.
        -- left. by exists n, m.
        -- rewrite elem_of_cons in Hk. right. split; [tauto|].
           rewrite lookup_insert_ne; [done|]. intros ->. tauto.
Qed.

(** *** What the grouped queries return *)

Lemma type_query_elem sd ed T k n s a :
  (k, n, s, a) ∈ type_query sd ed T ↔
  let g := group financial_summary.project_type k (financial_in_period sd ed T) in
  g ≠ [] ∧ n = COUNT_star g ∧
  s = SUM (map financial_summary.profit g) ∧
  a = AVG 100 (map financial_summary.profit_margin g).
Proof.
  unfold type_query. rewrite list_elem_of_fmap. split.
  - intros ([k' g] & [= -> -> -> ->] & [Hk ->]%elem_of_GROUP_BY).
    by apply group_nonempty in Hk.
  - simpl. intros (Hg & -> & -> & ->). eexists (k, _). split; [reflexivity|].
    apply elem_of_GROUP_BY. split; [|done]. by apply group_nonempty.
Qed.

Lemma type_query_keys sd ed T :
  NoDup (map (λ row, row.1.1.1) (type_query sd ed T)).
Proof.
  unfold type_query. rewrite map_map.
  erewrite map_ext; [apply NoDup_GROUP_BY_keys|]. by intros [k g].
Qed.

Lemma status_query_elem sd ed T k n a :
  (k, n, a) ∈ status_query sd ed T ↔
  let g := group financial_summary.status k
             (List.filter status_where (financial_in_period sd ed T)) in
  g ≠ [] ∧ n = COUNT_star g ∧
  a = AVG 100 (map financial_summary.profit_margin g).
Proof.
  unfold status_query. rewrite list_elem_of_fmap. split.
  - intros ([k' g] & [= -> -> ->] & [Hk ->]%elem_of_GROUP_BY).
    by apply group_nonempty in Hk.
  - simpl. intros (Hg & -> & ->). eexists (k, _). split; [reflexivity|].
    apply elem_of_GROUP_BY. split; [|done]. by apply group_nonempty.
Qed.

Lemma status_query_keys sd ed T :
  NoDup (map (λ row, row.1.1) (status_query sd ed T)).
Proof.
  unfold status_query. rewrite map_map.
  erewrite map_ext; [apply NoDup_GROUP_BY_keys|]. by intros [k g].
Qed.


(** The per-status dictionary of a returned report, key by key. *)
Lemma project_status_lookup s e w r w' :
  generate_automated_report s e w = (Return r, w') →
  let sd := get s (first_of_month (dt_date (clock w))) in
  let ed := get e (dt_date (clock w)) in
  ∀ k,
    let g := group financial_summary.status k
               (List.filter status_where
                  (financial_in_period sd ed (visible w))) in
    (g ≠ [] → ∃ m,
       AVG 100 (map financial_summary.profit_margin g) = Some m) ∧
    (∀ en, project_status r !! k = Some en ↔
       g ≠ [] ∧ ∃ m,
         AVG 100 (map financial_summary.profit_margin g) = Some m ∧
         en = {| project_status.count := COUNT_star g;
                 project_status.avg_margin := m |}).
Proof.
  intros H sd ed k g.
  apply generate_automated_report_Return in H
    as (_ & _ & _ & _ & _ & _ & _ & Hps & _).
  apply for_each_add_status_entry in Hps as [Hsome Hlook];
    [|apply status_query_keys].
  fold sd ed in Hsome, Hlook. split.
  - intros Hg.
    destruct (Hsome k (COUNT_star g)
                (AVG 100 (map financial_summary.profit_margin g)))
      as [m Hm]; [by apply status_query_elem | by exists m].
  - intros en. rewrite Hlook. split.
    + intros [(n & m & Hin & ->) | [_ Hd]]; [|by rewrite lookup_empty in Hd].
      apply status_query_elem in Hin as (Hg & -> & Hm). fold g in Hm.
      split; [done|]. by exists m.
    + intros (Hg & m & Hm & ->). left.
      exists (COUNT_star g), m. split; [|done].
      apply status_query_elem. cbv zeta. fold g. by rewrite Hm.
Qed.

(** *** Dates *)

Lemma date_leb_le a b : date_leb a b = true ↔ date_le a b.
Proof.
  unfold date_leb, date_le.
  repeat (case_match; try rewrite ?Nat.ltb_lt, ?Nat.ltb_ge in * );
    rewrite ?Nat.leb_le; try lia.
  all: split; [eauto; try lia | intros; try done; lia].
Qed.

Lemma date_le_refl a : date_le a a.
Proof. unfold date_le. right. split; [done|]. right. split; [done|lia]. Qed.

Lemma BETWEEN_in_range d lo hi : BETWEEN d lo hi = true ↔ in_range lo hi d.
Proof.
  unfold BETWEEN, in_range. by rewrite andb_true_iff, !date_leb_le.
Qed.

(** *** Filters *)

Lemma List_filter_filter {A} (f : A → bool) (P : A → Prop)
    `{∀ x, Decision (P x)} (l : list A) :
  (∀ x, f x = true ↔ P x) → List.filter f l = filter P l.
Proof.
  intros Hf. induction l as [|x l IH]; [done|]. simpl.
  rewrite filter_cons. destruct (f x) eqn:E.
  - rewrite decide_True by (by apply Hf). by rewrite IH.
  - rewrite decide_False; [done|]. intros HP%Hf. congruence.
Qed.

Lemma financial_in_period_rows sd ed T :
  financial_in_period sd ed T = rows_in_range sd ed T.
Proof.
  unfold financial_in_period, rows_in_range. apply List_filter_filter.
  intros r. apply BETWEEN_in_range.
Qed.

Lemma department_in_period_rows sd ed T :
  department_in_period sd ed T = department_rows_in_range sd ed T.
Proof.
  unfold department_in_period, department_rows_in_range.
  apply List_filter_filter. intros r. apply BETWEEN_in_range.
Qed.

Lemma filter_none {A} (P : A → Prop) `{∀ x, Decision (P x)} (l : list A) :
  (∀ x, x ∈ l → ¬ P x) → filter P l = [].
Proof.
  induction l as [|x l IH]; intros Hl; [done|].
  rewrite filter_cons_False by (apply Hl; by left).
  apply IH. intros y Hy. apply Hl. by right.
Qed.

Lemma status_where_spec r :
  status_where r = true ↔
  financial_summary.project_type r = Some "GS"%string ∧
  ∃ st, financial_summary.status r = Some st ∧ st ≠ "Unknown"%string.
Proof.
  unfold status_where, sql_eq, sql_ne. rewrite andb_true_iff.
  destruct (financial_summary.project_type r) as [ty|],
           (financial_summary.status r) as [st|];
    rewrite ?bool_decide_eq_true, ?negb_true_iff, ?bool_decide_eq_false.
  - split.
    + intros [-> Hst]. split; [done|]. by exists st.
    + intros [[= ->] (st' & [= ->] & Hst)]. done.
  - split; [by intros [_ ?] | by intros [_ (st & ? & _)]].
  - split; [by intros [? _] | by intros [? _]].
  - split; [by intros [? _] | by intros [? _]].
Qed.

(** The groups of the status query are the [GS] rows of the period with
    a known status; [Unknown] and [NULL] head no group. *)
Lemma status_group sd ed T k :
  group financial_summary.status k
        (List.filter status_where (financial_in_period sd ed T))
  = match k with
    | Some st => if decide (st = "Unknown"%string) then []
                 else gs_rows_with_status sd ed T st
    | None => []
    end.
Proof.
  unfold group. rewrite financial_in_period_rows.
  rewrite (List_filter_filter status_where (λ r, status_where r = true)) by done.
  rewrite (List_filter_filter _ (λ r, financial_summary.status r = k))
    by (intros; apply bool_decide_eq_true).
  rewrite list_filter_filter. unfold gs_rows_with_status.
  destruct k as [st|]; [destruct (decide (st = "Unknown"%string)) as [->|Hst]|].
  - apply filter_none. intros r _ [Hs (_ & st & Hs' & Hst)%status_where_spec].
    congruence.
  - apply list_filter_iff. intros r. rewrite status_where_spec. split.
    + by intros [Hs [Hty _]].
    + intros [Hty Hs]. split; [done|]. split; [done|]. by exists st.
  - apply filter_none. intros r _ [Hs (_ & st & Hs' & Hst)%status_where_spec].
    congruence.
Qed.

(** The status dictionary of a returned report, in the vocabulary of the
    statements. *)
Lemma project_status_entries s e w r w' :
  generate_automated_report s e w = (Return r, w') →
  let sd := get s (first_of_month (dt_date (clock w))) in
  let ed := get e (dt_date (clock w)) in
  ∀ k en, project_status r !! k = Some en ↔
    ∃ st, k = Some st ∧ st ≠ "Unknown"%string ∧
      let g := gs_rows_with_status sd ed (visible w) st in
      g ≠ [] ∧ ∃ m,
        AVG 100 (map financial_summary.profit_margin g) = Some m ∧
        en = {| project_status.count := Z.of_nat (length g);
                project_status.avg_margin := m |}.
Proof.
  intros H sd ed k en.
  destruct (project_status_lookup _ _ _ _ _ H k) as [_ Hlook].
  rewrite Hlook. clear Hlook. fold sd ed. rewrite status_group.
  destruct k as [st|]; [destruct (decide (st = "Unknown"%string)) as [->|Hst]|].
  - split; [by intros [? _] | intros (st & ? & ? & _); by simplify_eq].
  - split.
    + intros (Hg & m & Hm & ->). exists st. cbv zeta.
      split_and!; try done. by exists m.
    + intros (st' & ? & _ & Hg & m & Hm & ->). simplify_eq.
      split; [done|]. by exists m.
  - split; [by intros [? _] | intros (st & ? & _); by simplify_eq].
Qed.

Ltac compute_run :=
  match goal with
  | |- ?run = _ =>
      let v := eval vm_compute in run in
      transitivity v; [vm_compute; reflexivity | reflexivity]
  end.


(** A row the status query rejects does not change its result. *)
Lemma status_query_skips sd ed x l1 l2 D :
  status_where x = false →
  status_query sd ed {| t_financial_summary := l1 ++ x :: l2;
                        t_department_summary := D |}
  = status_query sd ed {| t_financial_summary := l1 ++ l2;
                          t_department_summary := D |}.
Proof.
  intros Hx. unfold status_query, financial_in_period. simpl.
  rewrite !List.filter_app. simpl.
  destruct (BETWEEN _ _ _); [|done]. simpl. by rewrite Hx.
Qed.

(** C10, amended. [row.get('Status', 'Unknown')] falls back on ['Unknown']
    only when the frame has no [Status] column: every row of such a frame
    is stored with status ['Unknown'].  In a frame that has the column a
    row is stored with its cell, a missing value as [NULL].  In both cases
    no entry of the status breakdown of any later report counts the row:
    every entry is the count and mean of a row set the stored row is not
    in, and the status query returns the same with and without it. *)
Theorem missing_status_excluded_from_breakdown {cols}
    (df : list (summary_row cols)) rd w w' row :
  idle w →
  insert_financial_summary df rd w = (Return (), w') →
  row ∈ df →
  let x := financial_tuple (get rd (dt_date (clock w))) row in
  x ∈ t_financial_summary (committed w') ∧
  (has_Status cols = false →
   financial_summary.status x = Some "Unknown"%string) ∧
  (cell_of (Status row) = Some None → financial_summary.status x = None) ∧
  (has_Status cols = false ∨ cell_of (Status row) = Some None →
   (∀ s e w2 r w2',
      generate_automated_report s e w2 = (Return r, w2') →
      let sd := get s (first_of_month (dt_date (clock w2))) in
      let ed := get e (dt_date (clock w2)) in
      ∀ k en, project_status r !! k = Some en →
        ∃ st, k = Some st ∧ st ≠ "Unknown"%string ∧
          let g := gs_rows_with_status sd ed (visible w2) st in
          (x ∉ g) ∧
          project_status.count en = Z.of_nat (length g) ∧
          AVG 100 (map financial_summary.profit_margin g)
            = Some (project_status.avg_margin en)) ∧
   (∀ sd ed l1 l2 D,
      status_query sd ed {| t_financial_summary := l1 ++ x :: l2;
                            t_department_summary := D |}
      = status_query sd ed {| t_financial_summary := l1 ++ l2;
                              t_department_summary := D |})).
Proof.
  intros Hidle Hrun Hrow x.
  assert (Hno : has_Status cols = false →
                financial_summary.status x = Some "Unknown"%string).
  { subst x. clear. unfold financial_tuple; simpl.
    generalize (Status row). destruct (has_Status cols); [done|].
    by intros []. }
  assert (Hnull : cell_of (Status row) = Some None →
                  financial_summary.status x = None).
  { subst x. clear. unfold financial_tuple; simpl.
    generalize (Status row). destruct (has_Status cols); simpl; [|done].
    by intros v [= ->]. }
  apply insert_financial_summary_cases in Hrun
    as (_ & _ & _ & _ & [[_ Hfin] | [? _]]); [|done|done].
  split_and!; [|done|done|].
  - rewrite Hfin. apply elem_of_app. right.
    apply list_elem_of_fmap. by exists row.
  - intros Hmissing.
    assert (Hx : financial_summary.status x = Some "Unknown"%string
                 ∨ financial_summary.status x = None)
      by (destruct Hmissing; [left|right]; auto).
    clear Hno Hnull Hmissing. split.
    + intros s e w2 r w2' Hgen sd ed k en
        (st & -> & Hst & Hg & m & Hm & ->)%(project_status_entries _ _ _ _ _ Hgen).
      exists st. cbv zeta. split_and!; try done.
      unfold gs_rows_with_status. rewrite list_elem_of_filter.
      intros [[_ Hs] _]. destruct Hx; congruence.
    + intros sd ed l1 l2 D. apply status_query_skips.
      unfold status_where, sql_ne.
      destruct Hx as [-> | ->]; simpl; by rewrite andb_false_r.
Qed.

Lemma missing_status_excluded_from_breakdown_witness :
  ∃ w',
    insert_financial_summary [sample_iss_no_column] (Some july_1) empty_world
      = (Return (), w') ∧
    financial_tuple july_1 sample_iss_no_column
      ∈ t_financial_summary (committed w') ∧
    financial_summary.status (financial_tuple july_1 sample_iss_no_column)
      = Some "Unknown"%string.
Proof.
  eexists. split; [compute_run|].
  match goal with
  | |- context [committed ?w'] =>
      destruct (missing_status_excluded_from_breakdown [sample_iss_no_column]
                  (Some july_1) empty_world w' sample_iss_no_column)
        as (Hin & Hst & _)
  end.
  - reflexivity.
  - vm_compute. reflexivity.
  - by left.
  - split; [exact Hin | by apply Hst].
Defined.

(** C10, as stated, fails: in a frame that has a [Status] column, a row
    whose status is a missing value is stored with a [NULL] status, not
    with ['Unknown']. *)
Lemma missing_status_stored_as_NULL :
  ∃ w' x,
    insert_financial_summary [sample_gs; sample_iss_missing_status]
        (Some july_1) empty_world
      = (Return (), w') ∧
    x ∈ t_financial_summary (committed w') ∧
    x = financial_tuple july_1 sample_iss_missing_status ∧
    financial_summary.project_code x = "ISS-002"%string ∧
    financial_summary.status x = None ∧
    financial_summary.status x ≠ Some "Unknown"%string.
Proof.
  eexists _, (financial_tuple july_1 sample_iss_missing_status).
  split; [compute_run|]. split_and!; try done.
  vm_compute. right. by left.
Qed.

(** *** Storing a run: atomicity and repetition *)

Lemma store_summaries_returns {cols} d (fin : list (summary_row cols)) dept w :
  idle w → Forall (eq Succeeds) (server w) →
  ∃ w', store_summaries d fin dept w = (Return (), w') ∧
    idle w' ∧ Forall (eq Succeeds) (server w') ∧ clock w' = clock w ∧
    t_financial_summary (committed w')
      = t_financial_summary (committed w) ++ map (financial_tuple d) fin ∧
    t_department_summary (committed w')
      = t_department_summary (committed w) ++ map (department_tuple d) dept.
Proof.
  intros Hidle Hok.
  destruct (store_summaries d fin dept w) as [res w'] eqn:Hrun.
  apply store_summaries_cases in Hrun
    as (Hidle' & Hclock & [n Hn] & Hcases); [|done].
  exists w'.
  destruct Hcases as [(-> & Hf & Hd) | [(_ & [k Hk] & _) | (_ & [k Hk] & _)]].
  - split_and!; try done. rewrite Hn. by apply no_failure_drop.
  - by destruct (no_failure_no_Fails k _ Hok).
  - by destruct (no_failure_no_Fails k _ Hok).
Qed.

(** C2, amended. One run writes each of the two tables atomically, in a
    transaction of its own: afterwards no transaction is open and the store
    shows either both batches, or neither, or the financial batch alone
    (the department insert failed after the financial rows were
    committed). *)
Theorem store_summaries_atomic_per_table {cols} d (fin : list (summary_row cols))
    dept w res w' :
  idle w →
  store_summaries d fin dept w = (res, w') →
  let F := map (financial_tuple d) fin in
  let D := map (department_tuple d) dept in
  let old := visible w in
  let new := visible w' in
  idle w' ∧
  ((res = Return () ∧
    t_financial_summary new = t_financial_summary old ++ F ∧
    t_department_summary new = t_department_summary old ++ D)
   ∨ (res = Raise Error ∧
      t_financial_summary new = t_financial_summary old ∧
      t_department_summary new = t_department_summary old)
   ∨ (res = Raise Error ∧
      t_financial_summary new = t_financial_summary old ++ F ∧
      t_department_summary new = t_department_summary old)).
Proof.
  intros Hidle Hrun. cbv zeta.
  apply store_summaries_cases in Hrun as (Hidle' & _ & _ & Hcases); [|done].
  rewrite !idle_visible by done. split; [done|].
  destruct Hcases as [(-> & Hf & Hd) | [(-> & _ & Hf & Hd) | (-> & _ & Hf & Hd)]].
  - by left.
  - right; left. by split_and!.
  - right; right. by split_and!.
Qed.

Lemma store_summaries_atomic_per_table_witness :
  ∃ w', store_summaries july_1 [sample_gs] [sample_department 1] empty_world
          = (Return (), w') ∧
        idle w' ∧
        t_financial_summary (visible w') = [financial_tuple july_1 sample_gs] ∧
        t_department_summary (visible w')
          = [department_tuple july_1 (sample_department 1)].
Proof.
  eexists. split; [compute_run|].
  match goal with
  | |- context [visible ?w'] =>
      destruct (store_summaries_atomic_per_table july_1 [sample_gs]
                  [sample_department 1] empty_world (Return ()) w')
        as (Hidle & Hcases)
  end.
  - reflexivity.
  - vm_compute. reflexivity.
  - split; [exact Hidle|].
    destruct Hcases as [(_ & Hf & Hd) | [(? & _) | (? & _)]];
      [|discriminate|discriminate].
    split; [exact Hf | exact Hd].
Defined.

(** C2, as stated, fails: when the department insert fails, the financial
    rows of the date are committed and its department rows are not. *)
Lemma half_committed_report_date :
  ∃ w', store_summaries july_1 [sample_gs] [sample_department 1]
          third_request_fails = (Raise Error, w') ∧
        idle w' ∧
        t_financial_summary (visible w') = [financial_tuple july_1 sample_gs] ∧
        t_department_summary (visible w') = [].
Proof. eexists. split; [compute_run|]. by split_and!. Qed.

(** C1, amended. Storing the batch of a report date a second time is not
    rejected: when no request fails both runs return, and the second run
    appends the rows of the batch again, so that every row of the batch is
    stored twice. *)
Theorem store_twice_appends_twice {cols} d (fin : list (summary_row cols)) dept w :
  idle w →
  Forall (eq Succeeds) (server w) →
  let F := map (financial_tuple d) fin in
  let D := map (department_tuple d) dept in
  ∃ w', store_twice d fin dept w = (Return (), w') ∧
    idle w' ∧
    t_financial_summary (committed w')
      = t_financial_summary (committed w) ++ F ++ F ∧
    t_department_summary (committed w')
      = t_department_summary (committed w) ++ D ++ D.
Proof.
  intros Hidle Hok F D.
  destruct (store_summaries_returns d fin dept w Hidle Hok)
    as (w1 & Hrun1 & Hidle1 & Hok1 & _ & Hf1 & Hd1).
  destruct (store_summaries_returns d fin dept w1 Hidle1 Hok1)
    as (w2 & Hrun2 & Hidle2 & _ & _ & Hf2 & Hd2).
  exists w2. unfold store_twice. rewrite (bind_run _ _ _ _ _ Hrun1).
  split_and!; [done | done | |].
  - by rewrite Hf2, Hf1, <- app_assoc.
  - by rewrite Hd2, Hd1, <- app_assoc.
Qed.

Lemma store_twice_appends_twice_witness :
  ∃ w', store_twice july_1 [sample_gs] [sample_department 1] empty_world
          = (Return (), w') ∧
        t_financial_summary (committed w')
          = [financial_tuple july_1 sample_gs; financial_tuple july_1 sample_gs].
Proof.
  destruct (store_twice_appends_twice july_1 [sample_gs] [sample_department 1]
              empty_world) as (w' & Hrun & _ & Hf & _).
  - reflexivity.
  - vm_compute. constructor.
  - exists w'. split; [exact Hrun | exact Hf].
Defined.

(** C1, as stated, fails: the second store of the same batch is accepted
    and leaves two rows under one key in each table. *)
Lemma duplicate_rows_after_second_store :
  ∃ w', store_twice july_1 [sample_gs] [sample_department 1] empty_world
          = (Return (), w') ∧
        ¬ NoDup (map financial_key (t_financial_summary (committed w'))) ∧
        ¬ NoDup (map department_key (t_department_summary (committed w'))).
Proof.
  eexists. split; [compute_run|]. split.
  - intros [Hnin _]%NoDup_cons. apply Hnin. vm_compute. by left.
  - intros [Hnin _]%NoDup_cons. apply Hnin. vm_compute. by left.
Qed.

(** *** Aggregates *)

Lemma non_null_map {A B} (f : A → option B) (l : list A) :
  non_null (map f l) = omap f l.
Proof.
  unfold non_null. induction l as [|x l IH]; [done|].
  cbn. destruct (f x); cbn; [f_equal|]; exact IH.
Qed.

Lemma SUM_map {A} (f : A → option Z) (l : list A) :
  SUM (map f l) = match omap f l with [] => None | _ => Some (sum_of f l) end.
Proof. unfold SUM, sum_of. rewrite non_null_map. by destruct (omap f l). Qed.

Lemma omap_nonempty {A B} (f : A → option B) (l : list A) :
  l ≠ [] → Forall (λ x, is_Some (f x)) l → omap f l ≠ [].
Proof.
  destruct l as [|x l]; [done|]. intros _ [[y Hy] _]%Forall_cons.
  simpl. by rewrite Hy.
Qed.

Lemma SUM_is_Some {A} (f : A → option Z) (l : list A) :
  l ≠ [] → Forall (λ x, is_Some (f x)) l →
  SUM (map f l) = Some (sum_of f l).
Proof.
  intros Hl Hall. rewrite SUM_map.
  pose proof (omap_nonempty f l Hl Hall). by destruct (omap f l).
Qed.

Lemma AVG_is_Some {A} scale (f : A → option Z) (l : list A) :
  l ≠ [] → Forall (λ x, is_Some (f x)) l → is_Some (AVG scale (map f l)).
Proof.
  intros Hl Hall. unfold AVG. rewrite non_null_map.
  pose proof (omap_nonempty f l Hl Hall). by destruct (omap f l).
Qed.

Lemma Forall_group {A K} `{EqDecision K} (key : A → K) k (P : A → Prop) l :
  Forall P l → Forall P (group key k l).
Proof.
  rewrite !Forall_forall. intros Hl x Hx. apply Hl.
  unfold group in Hx. apply list_elem_of_In, List.filter_In in Hx as [Hx _].
  by apply list_elem_of_In.
Qed.

Lemma Forall_List_filter {A} (f : A → bool) (P : A → Prop) l :
  Forall P l → Forall P (List.filter f l).
Proof.
  rewrite !Forall_forall. intros Hl x Hx. apply Hl.
  apply list_elem_of_In, List.filter_In in Hx as [Hx _].
  by apply list_elem_of_In.
Qed.

(** *** The loops return on well-stored data *)

Lemma for_each_add_type_entry_returns rows : ∀ d,
  (∀ k n s a, (k, n, s, a) ∈ rows → is_Some s ∧ is_Some a) →
  ∃ d', for_each add_type_entry d rows = Return d'.
Proof.
  induction rows as [|[[[k0 n0] s0] a0] rows IH]; intros d Hrows.
  - by exists d.
  - destruct (Hrows k0 n0 s0 a0) as [[p ->] [m ->]]; [by left|].
    simpl. apply IH. intros k n s a Hin. apply (Hrows k n s a). by right.
Qed.

Lemma for_each_add_status_entry_returns rows : ∀ d,
  (∀ k n a, (k, n, a) ∈ rows → is_Some a) →
  ∃ d', for_each add_status_entry d rows = Return d'.
Proof.
  induction rows as [|[[k0 n0] a0] rows IH]; intros d Hrows.
  - by exists d.
  - destruct (Hrows k0 n0 a0) as [m ->]; [by left|].
    simpl. apply IH. intros k n a Hin. apply (Hrows k n a). by right.
Qed.

Lemma for_each_append_department_returns (rows : list dept_tuple) : ∀ l,
  (∀ k h c a, (k, h, c, a) ∈ rows → is_Some h ∧ is_Some c ∧ is_Some a) →
  ∃ l', for_each append_department l rows = Return l'.
Proof.
  induction rows as [|[[[k0 h0] c0] a0] rows IH]; intros l Hrows.
  - by exists l.
  - destruct (Hrows k0 h0 c0 a0) as ([h ->] & [c ->] & [a ->]); [by left|].
    simpl. apply IH. intros k h' c' a' Hin. apply (Hrows k h' c' a'). by right.
Qed.

(** *** The department query *)

Lemma dept_groups_elem sd ed T k h c a :
  (k, h, c, a) ∈ dept_groups sd ed T ↔
  let g := group department_summary.department_name k
             (department_in_period sd ed T) in
  g ≠ [] ∧
  h = SUM (map department_summary.total_hours g) ∧
  c = SUM (map department_summary.total_labor_cost g) ∧
  a = AVG 1 (map department_summary.num_projects g).
Proof.
  unfold dept_groups. rewrite list_elem_of_fmap. split.
  - intros ([k' g] & [= -> -> -> ->] & [Hk ->]%elem_of_GROUP_BY).
    by apply group_nonempty in Hk.
  - simpl. intros (Hg & -> & -> & ->). eexists (k, _). split; [reflexivity|].
    apply elem_of_GROUP_BY. split; [|done]. by apply group_nonempty.
Qed.

Lemma dept_groups_keys sd ed T :
  NoDup (map (λ row : dept_tuple, row.1.1.1) (dept_groups sd ed T)).
Proof.
  unfold dept_groups. rewrite map_map.
  erewrite map_ext; [apply NoDup_GROUP_BY_keys|]. by intros [k g].
Qed.

Lemma dept_query_sublist sd ed T :
  ∃ rest, merge_sort by_total_hours_desc (dept_groups sd ed T)
          = dept_query sd ed T ++ rest.
Proof.
  exists (drop 10 (merge_sort by_total_hours_desc (dept_groups sd ed T))).
  unfold dept_query, LIMIT. by rewrite take_drop.
Qed.

Lemma dept_query_elem sd ed T row :
  row ∈ dept_query sd ed T → row ∈ dept_groups sd ed T.
Proof.
  intros Hrow. destruct (dept_query_sublist sd ed T) as [rest Hrest].
  rewrite <- (merge_sort_Permutation by_total_hours_desc), Hrest.
  apply elem_of_app. by left.
Qed.

(** *** The alerts *)

Lemma loss_where_spec r : loss_where r = true ↔ loss_making r.
Proof.
  unfold loss_where, loss_making, sql_lt, holds.
  destruct (financial_summary.profit r); [apply Z.ltb_lt | done].
Qed.

Lemma low_eff_where_spec r : low_eff_where r = true ↔ low_efficiency r.
Proof.
  unfold low_eff_where, low_efficiency, sql_lt, sql_gt, holds.
  rewrite andb_true_iff.
  destruct (financial_summary.efficiency_score r),
           (financial_summary.total_hours r);
    rewrite ?Z.ltb_lt; intuition congruence.
Qed.

Lemma append_loss_alert_run sd ed T :
  let losses := filter loss_making (rows_in_range sd ed T) in
  append_loss_alert [] (fetchone (loss_query sd ed T))
  = Return (if decide (losses = []) then []
            else [loss_alert (Z.of_nat (length losses))
                             (Z.abs (sum_of financial_summary.profit losses))]).
Proof.
  intros losses. unfold loss_query. cbn [fetchone head append_loss_alert].
  rewrite financial_in_period_rows.
  rewrite (List_filter_filter loss_where loss_making) by apply loss_where_spec.
  fold losses. unfold COUNT_star.
  destruct (decide (losses = [])) as [->|Hne]; [done|].
  rewrite decide_True by (destruct losses; [done | simpl; lia]).
  rewrite SUM_is_Some; [done | done |].
  apply Forall_forall. intros x [Hx _]%list_elem_of_filter.
  unfold loss_making, holds in Hx.
  by destruct (financial_summary.profit x).
Qed.

Lemma append_low_efficiency_alert_run sd ed T alerts :
  let slow := filter low_efficiency (rows_in_range sd ed T) in
  append_low_efficiency_alert alerts (fetchone (low_eff_query sd ed T))
  = alerts ++ (if decide (slow = []) then []
               else [low_efficiency_alert (Z.of_nat (length slow))]).
Proof.
  intros slow. unfold low_eff_query.
  cbn [fetchone head append_low_efficiency_alert].
  rewrite financial_in_period_rows.
  rewrite (List_filter_filter low_eff_where low_efficiency)
    by apply low_eff_where_spec.
  fold slow. unfold COUNT_star.
  destruct (decide (slow = [])) as [->|Hne]; [by rewrite app_nil_r|].
  by rewrite decide_True by (destruct slow; [done | simpl; lia]).
Qed.

(** The alert list of a returned report. *)
Lemma report_alerts s e w r w' :
  generate_automated_report s e w = (Return r, w') →
  let sd := get s (first_of_month (dt_date (clock w))) in
  let ed := get e (dt_date (clock w)) in
  let losses := filter loss_making (rows_in_range sd ed (visible w)) in
  let slow := filter low_efficiency (rows_in_range sd ed (visible w)) in
  alerts r =
    (if decide (losses = []) then []
     else [loss_alert (Z.of_nat (length losses))
                      (Z.abs (sum_of financial_summary.profit losses))])
    ++ (if decide (slow = []) then []
        else [low_efficiency_alert (Z.of_nat (length slow))]).
Proof.
  intros H sd ed losses slow.
  apply generate_automated_report_Return in H
    as (_ & _ & _ & _ & _ & _ & _ & _ & _ & a1 & Ha1 & ->).
  fold sd ed in Ha1 |- *. rewrite append_loss_alert_run in Ha1.
  injection Ha1 as <-. apply append_low_efficiency_alert_run.
Qed.

(** *** The report is produced on well-stored data *)

Lemma well_stored_financial_in_period sd ed T :
  well_stored T →
  Forall (λ r, is_Some (financial_summary.profit r)
               ∧ is_Some (financial_summary.profit_margin r))
         (financial_in_period sd ed T).
Proof. intros [H _]. by apply Forall_List_filter. Qed.

Lemma generate_automated_report_total s e w :
  all_succeed 6 (server w) = true →
  well_stored (visible w) →
  ∃ r, generate_automated_report s e w = (Return r, after_requests 6 w).
Proof.
  intros Hs Hwell.
  set (sd := get s (first_of_month (dt_date (clock w)))).
  set (ed := get e (dt_date (clock w))).
  pose proof (well_stored_financial_in_period sd ed _ Hwell) as Hfin.
  destruct (for_each_add_type_entry_returns
              (type_query sd ed (visible w)) ∅) as [pt Hpt].
  { intros k n sm a (Hg & _ & -> & ->)%type_query_elem.
    eapply (Forall_group financial_summary.project_type k) in Hfin.
    split.
    - rewrite SUM_is_Some; [done | done |].
      eapply Forall_impl; [exact Hfin | by intros ? [? _]].
    - apply AVG_is_Some; [done|].
      eapply Forall_impl; [exact Hfin | by intros ? [_ ?]]. }
  destruct (for_each_add_status_entry_returns
              (status_query sd ed (visible w)) ∅) as [ps Hps].
  { intros k n a (Hg & _ & ->)%status_query_elem.
    apply AVG_is_Some; [done|]. apply Forall_group.
    apply Forall_List_filter.
    eapply Forall_impl; [exact Hfin | by intros ? [_ ?]]. }
  destruct (for_each_append_department_returns
              (dept_query sd ed (visible w)) []) as [td Htd].
  { intros k h c a (Hg & -> & -> & ->)%dept_query_elem%dept_groups_elem.
    destruct Hwell as [_ Hdept].
    apply (Forall_List_filter
             (λ r, BETWEEN (department_summary.report_date r) sd ed)) in Hdept.
    apply (Forall_group department_summary.department_name k) in Hdept.
    split_and!.
    - rewrite SUM_is_Some; [done | done |].
      eapply Forall_impl; [exact Hdept | by intros ? (? & _ & _)].
    - rewrite SUM_is_Some; [done | done |].
      eapply Forall_impl; [exact Hdept | by intros ? (_ & ? & _)].
    - apply AVG_is_Some; [done|].
      eapply Forall_impl; [exact Hdept | by intros ? (_ & _ & ?)]. }
  eexists. eapply generate_automated_report_returns; try done.
  apply append_loss_alert_run.
Qed.

(** C4. For every stored data set and date range the report carries the
    alerts of two rules evaluated independently and in a fixed order: a
    ['high'] loss alert when the count of rows of the period with
    [profit < 0] is positive, its message giving that count and the
    absolute value of their summed profit, then a ['medium'] low-efficiency
    alert when the count of rows of the period with
    [efficiency_score < 100] and [total_hours > 0] is positive, its message
    giving that count; nothing else.  On well-stored data with no failing
    query the report is produced. *)
Theorem alerts_evaluated_independently s e w :
  let sd := get s (first_of_month (dt_date (clock w))) in
  let ed := get e (dt_date (clock w)) in
  let losses := filter loss_making (rows_in_range sd ed (visible w)) in
  let slow := filter low_efficiency (rows_in_range sd ed (visible w)) in
  let n := Z.of_nat (length losses) in
  let m := Z.of_nat (length slow) in
  (all_succeed 6 (server w) = true → well_stored (visible w) →
   ∃ r, generate_automated_report s e w = (Return r, after_requests 6 w))
  ∧
  (∀ r w', generate_automated_report s e w = (Return r, w') →
     alerts r =
       (if decide (0 < n)
        then [ {| alerts.type := "loss_making_projects";
                  alerts.severity := "high";
                  alerts.message :=
                    str_int n +:+ " projects with total loss of " +:+ yen
                      +:+ format_comma_2f
                            (Z.abs (sum_of financial_summary.profit losses)) |} ]
        else [])
       ++
       (if decide (0 < m)
        then [ {| alerts.type := "low_efficiency";
                  alerts.severity := "medium";
                  alerts.message :=
                    str_int m +:+ " projects with low efficiency scores" |} ]
        else [])).
Proof.
  intros sd ed losses slow n m. split.
  - apply generate_automated_report_total.
  - intros r w' H. rewrite (report_alerts _ _ _ _ _ H).
    fold sd ed losses slow. f_equal.
    + destruct (decide (losses = [])) as [Hl|Hl].
      * rewrite decide_False; [done|]. unfold n. rewrite Hl. simpl. lia.
      * rewrite decide_True; [done|]. unfold n. destruct losses; [done|].
        simpl. lia.
    + destruct (decide (slow = [])) as [Hl|Hl].
      * rewrite decide_False; [done|]. unfold m. rewrite Hl. simpl. lia.
      * rewrite decide_True; [done|]. unfold m. destruct slow; [done|].
        simpl. lia.
Qed.

Ltac solve_well_stored :=
  unfold well_stored; simpl;
  split;
    repeat first [ by apply Forall_nil
                 | apply Forall_cons; split; [split_and!; by eexists|] ].

Lemma alerts_evaluated_independently_witness :
  ∃ r, generate_automated_report (Some july_1) (Some july_1) alert_fixture
         = (Return r, after_requests 6 alert_fixture) ∧
       alerts r =
         [ {| alerts.type := "loss_making_projects";
              alerts.severity := "high";
              alerts.message :=
                "3 projects with total loss of " +:+ yen +:+ "500.00" |};
           {| alerts.type := "low_efficiency";
              alerts.severity := "medium";
              alerts.message := "2 projects with low efficiency scores" |} ].
Proof.
  destruct (alerts_evaluated_independently (Some july_1) (Some july_1)
              alert_fixture) as [Htotal Halerts].
  destruct Htotal as [r Hr].
  - reflexivity.
  - solve_well_stored.
  - exists r. split; [exact Hr|]. rewrite (Halerts r _ Hr).
    vm_compute. reflexivity.
Defined.

(** C9. For every date range that matches no stored row, the report is
    produced (no query failing): its summary fields are all 0, its
    [project_types], [project_status] and [top_departments] sections are
    empty, and so is its alert list. *)
Theorem empty_period_report s e w :
  let sd := get s (first_of_month (dt_date (clock w))) in
  let ed := get e (dt_date (clock w)) in
  all_succeed 6 (server w) = true →
  rows_in_range sd ed (visible w) = [] →
  department_rows_in_range sd ed (visible w) = [] →
  generate_automated_report s e w =
    (Return {| report_period := strftime_Ymd sd +:+ " to " +:+ strftime_Ymd ed;
               generated_at := isoformat (clock w);
               summary := Some {| summary.total_projects := 0;
                                  summary.total_revenue := 0;
                                  summary.total_cost := 0;
                                  summary.total_profit := 0;
                                  summary.avg_profit_margin := 0;
                                  summary.total_hours := 0 |};
               trends := ∅;
               alerts := [];
               project_types := ∅;
               project_status := ∅;
               top_departments := [] |},
     after_requests 6 w).
Proof.
  intros sd ed Hs Hfin Hdept.
  rewrite <- financial_in_period_rows in Hfin.
  rewrite <- department_in_period_rows in Hdept.
  rewrite (generate_automated_report_returns s e w ∅ ∅ [] []); try done.
  - fold sd ed. unfold summary_query, low_eff_query. rewrite Hfin. reflexivity.
  - fold sd ed. unfold type_query. by rewrite Hfin.
  - fold sd ed. unfold status_query. by rewrite Hfin.
  - fold sd ed. unfold dept_query, dept_groups. by rewrite Hdept.
  - fold sd ed. unfold loss_query. by rewrite Hfin.
Qed.

Lemma empty_period_report_witness :
  ∃ r, generate_automated_report (Some (mkdate 2025 1 1)) (Some (mkdate 2025 1 31))
         sample_world
         = (Return r, after_requests 6 sample_world) ∧
       report_period r = "2025-01-01 to 2025-01-31"%string ∧
       summary r = Some {| summary.total_projects := 0;
                           summary.total_revenue := 0;
                           summary.total_cost := 0;
                           summary.total_profit := 0;
                           summary.avg_profit_margin := 0;
                           summary.total_hours := 0 |} ∧
       alerts r = [] ∧ project_types r = ∅ ∧ project_status r = ∅ ∧
       top_departments r = [].
Proof.
  eexists. split.
  - apply (empty_period_report (Some (mkdate 2025 1 1))
             (Some (mkdate 2025 1 31)) sample_world).
    + reflexivity.
    + vm_compute. reflexivity.
    + vm_compute. reflexivity.
  - by split_and!.
Defined.

(** *** The report method only reads *)

Lemma read_only_ret {A} (a : A) : read_only (mret a).
Proof. by intros w. Qed.

Lemma read_only_raise {A} e : read_only (@raise A e).
Proof. by intros w. Qed.

Lemma read_only_lift {A} (x : result A) : read_only (lift x).
Proof. by intros w. Qed.

Lemma read_only_now : read_only now.
Proof. by intros w. Qed.

Lemma read_only_execute {A} (q : tables → A) : read_only (execute q).
Proof.
  intros w. unfold execute, next_outcome.
  by destruct w as [c p [|[|k] l] t].
Qed.

Lemma read_only_bind {A B} (m : M A) (f : A → M B) :
  read_only m → (∀ a, read_only (f a)) → read_only (m ≫= f).
Proof.
  intros Hm Hf w. unfold mbind, M_bind.
  destruct (Hm w) as (Hc & Hp & Ht). destruct (m w) as [[a|ex] w1]; simpl in *.
  - destruct (Hf a w1) as (Hc' & Hp' & Ht'). split_and!; congruence.
  - done.
Qed.

Lemma read_only_try {A} (body handler : M A) :
  read_only body → read_only handler →
  read_only (try_except_Error body handler).
Proof.
  intros Hb Hh w. unfold try_except_Error.
  destruct (Hb w) as (Hc & Hp & Ht).
  destruct (body w) as [[a|[]] w1]; simpl in *; try done.
  destruct (Hh w1) as (Hc' & Hp' & Ht'). split_and!; congruence.
Qed.

Lemma generate_automated_report_read_only s e :
  read_only (generate_automated_report s e).
Proof.
  unfold generate_automated_report.
  apply read_only_try; [|apply read_only_raise].
  repeat first
    [ apply read_only_ret | apply read_only_lift | apply read_only_now
    | apply read_only_execute
    | apply read_only_bind; [|intros ?]
    | progress destruct s | progress destruct e ].
Qed.

(** C7. When a read query of the call fails, the call as a whole raises:
    no report value is returned, filled in part or otherwise, and the
    stored rows are as they were. *)
Theorem failed_query_fails_report s e w i k :
  (i < 6)%nat →
  server w !! i = Some (Fails k) →
  ∃ exn w', generate_automated_report s e w = (Raise exn, w') ∧
            committed w' = committed w ∧ pending w' = pending w.
Proof.
  intros Hi Hfail.
  destruct (generate_automated_report_read_only s e w) as (Hc & Hp & _).
  destruct (generate_automated_report s e w) as [[r|exn] w'] eqn:Hrun.
  - apply generate_automated_report_Return in Hrun as (Hs & _).
    by rewrite (all_succeed_lookup 6 _ i k) in Hs.
  - by exists exn, w'.
Qed.

Lemma failed_query_fails_report_witness :
  ∃ exn w',
    generate_automated_report (Some july_1) (Some july_1) fourth_request_fails
      = (Raise exn, w') ∧
    committed w' = committed fourth_request_fails.
Proof.
  destruct (failed_query_fails_report (Some july_1) (Some july_1)
              fourth_request_fails 3 0) as (exn & w' & Hrun & Hc & _).
  - lia.
  - reflexivity.
  - by exists exn, w'.
Defined.

(** *** Rows with a [NULL] in the averaged column *)

Section adds_nulls.
Context {A B : Type} (col : A → option B).





End adds_nulls.


Lemma summary_of_report s e w r w' :
  generate_automated_report s e w = (Return r, w') →
  let sd := get s (first_of_month (dt_date (clock w))) in
  let ed := get e (dt_date (clock w)) in
  let rows := financial_in_period sd ed (visible w) in
  summary r =
    Some {| summary.total_projects :=
              COUNT_DISTINCT (map financial_summary.project_code rows);
            summary.total_revenue :=
              float_decimal_or_0 (SUM (map financial_summary.contract_price rows));
            summary.total_cost :=
              float_decimal_or_0 (SUM (map financial_summary.total_cost rows));
            summary.total_profit :=
              float_decimal_or_0 (SUM (map financial_summary.profit rows));
            summary.avg_profit_margin :=
              float_avg_or_0 (AVG 100 (map financial_summary.profit_margin rows));
            summary.total_hours :=
              float_decimal_or_0 (SUM (map financial_summary.total_hours rows)) |}.
Proof.
  intros H sd ed rows.
  by apply generate_automated_report_Return in H as (_ & _ & _ & _ & -> & _).
Qed.




(** *** The report reads the rows of the period only *)

Section respects.
Variables sd ed : date.





End respects.







(** *** The ranking of departments *)

#[local] Instance desc_total : Total desc.
Proof. intros [x|] [y|]; simpl; try tauto. lia. Qed.

#[local] Instance desc_trans : Transitive desc.
Proof. intros [x|] [y|] [z|]; simpl; try tauto. lia. Qed.

#[local] Instance by_total_hours_desc_total : Total by_total_hours_desc.
Proof. intros a b. apply desc_total. Qed.

#[local] Instance by_total_hours_desc_trans : Transitive by_total_hours_desc.
Proof. intros a b c. apply desc_trans. Qed.

Lemma StronglySorted_lookup {A} (R : relation A) l i j a b :
  StronglySorted R l → (i < j)%nat →
  l !! i = Some a → l !! j = Some b → R a b.
Proof.
  intros Hl Hij Ha Hb. rewrite <- (take_drop j l) in Hl.
  eapply StronglySorted_app_1_elem_of; [exact Hl | |].
  - apply elem_of_take. eauto.
  - apply list_elem_of_lookup. exists 0%nat.
    by rewrite lookup_drop, Nat.add_0_r.
Qed.

Lemma dept_query_sorted sd ed T :
  StronglySorted by_total_hours_desc
    (merge_sort by_total_hours_desc (dept_groups sd ed T)).
Proof. apply StronglySorted_merge_sort; apply _. Qed.

Lemma dept_query_keys sd ed T :
  NoDup (map (λ row : dept_tuple, row.1.1.1) (dept_query sd ed T)).
Proof.
  unfold dept_query, LIMIT.
  change (map ?f (take ?n ?l)) with (f <$> take n l). rewrite fmap_take.
  eapply sublist_NoDup; [|apply sublist_take].
  rewrite (merge_sort_Permutation by_total_hours_desc).
  apply (dept_groups_keys sd ed T).
Qed.

Lemma department_group sd ed T name :
  group department_summary.department_name name (department_in_period sd ed T)
  = rows_of_department sd ed T name.
Proof.
  unfold group, rows_of_department. rewrite department_in_period_rows.
  apply List_filter_filter. intros r. apply bool_decide_eq_true.
Qed.

Lemma for_each_append_department (rows : list dept_tuple) : ∀ l td,
  for_each append_department l rows = Return td →
  ∃ es, td = l ++ es ∧
    Forall2 (λ (row : dept_tuple) en,
               ∃ h c,
                 row = (top_departments.department en, Some h, Some c,
                        Some (top_departments.avg_projects en)) ∧
                 top_departments.total_hours en = float_of_decimal h ∧
                 top_departments.total_cost en = float_of_decimal c)
            rows es.
Proof.
  induction rows as [|[[[k0 h0] c0] a0] rows IH]; intros l td Hrun.
  - injection Hrun as <-. exists []. by rewrite app_nil_r.
  - simpl in Hrun. destruct h0 as [h|]; [|done]. destruct c0 as [c|]; [|done].
    destruct a0 as [a|]; [|done]. simpl in Hrun.
    apply IH in Hrun as (es & -> & Hes). eexists (_ :: es).
    split; [by rewrite <- app_assoc|]. constructor; [|done]. by exists h, c.
Qed.

Lemma float_of_decimal_le a b :
  a ≤ b → (float_of_decimal a <= float_of_decimal b)%Q.
Proof.
  intros H. unfold float_of_decimal. rewrite !Qred_correct.
  unfold Qle. simpl. lia.
Qed.

Lemma take_full {A} n (l : list A) : drop n l ≠ [] → length (take n l) = n.
Proof.
  intros Hdrop. apply length_take_le.
  destruct (decide (n ≤ length l)%nat) as [|Hn]; [done|].
  destruct Hdrop. apply drop_ge. lia.
Qed.

(** What a returned report lists as top departments, against the rows the
    department query ranked. *)
Lemma top_departments_rows s e w r w' :
  generate_automated_report s e w = (Return r, w') →
  let sd := get s (first_of_month (dt_date (clock w))) in
  let ed := get e (dt_date (clock w)) in
  Forall2 (λ (row : dept_tuple) en,
             ∃ h c,
               row = (top_departments.department en, Some h, Some c,
                      Some (top_departments.avg_projects en)) ∧
               top_departments.total_hours en = float_of_decimal h ∧
               top_departments.total_cost en = float_of_decimal c)
          (dept_query sd ed (visible w)) (top_departments r).
Proof.
  intros H sd ed.
  apply generate_automated_report_Return in H
    as (_ & _ & _ & _ & _ & _ & _ & _ & Htd & _).
  by apply for_each_append_department in Htd as (es & -> & Hes).
Qed.

(** C8. The top-departments section of the report has at most 10 entries,
    one per department, in descending order of summed [total_hours]; every
    entry carries the sum of its department's [total_hours], the sum of its
    [total_labor_cost] and the mean of its [num_projects] over the rows of
    the period; a department of the period that is not listed is ranked
    after all ten that are.  On well-stored data with no failing query the
    report is produced. *)
Theorem top_departments_ranked s e w :
  let sd := get s (first_of_month (dt_date (clock w))) in
  let ed := get e (dt_date (clock w)) in
  let T := visible w in
  (all_succeed 6 (server w) = true → well_stored T →
   ∃ r, generate_automated_report s e w = (Return r, after_requests 6 w))
  ∧
  (∀ r w', generate_automated_report s e w = (Return r, w') →
     let td := top_departments r in
     (length td ≤ 10)%nat
     ∧ NoDup (map top_departments.department td)
     ∧ (∀ en, en ∈ td →
          let g := rows_of_department sd ed T (top_departments.department en) in
          g ≠ [] ∧
          ∃ h c,
            SUM (map department_summary.total_hours g) = Some h ∧
            top_departments.total_hours en = float_of_decimal h ∧
            SUM (map department_summary.total_labor_cost g) = Some c ∧
            top_departments.total_cost en = float_of_decimal c ∧
            AVG 1 (map department_summary.num_projects g)
              = Some (top_departments.avg_projects en))
     ∧ (∀ i j a b, (i < j)%nat → td !! i = Some a → td !! j = Some b →
          (top_departments.total_hours b <= top_departments.total_hours a)%Q)
     ∧ (∀ name,
          rows_of_department sd ed T name ≠ [] →
          name ∉ map top_departments.department td →
          length td = 10%nat ∧
          ∀ en h, en ∈ td →
            SUM (map department_summary.total_hours
                     (rows_of_department sd ed T name)) = Some h →
            (float_of_decimal h <= top_departments.total_hours en)%Q)).
Proof.
  intros sd ed T. split; [apply generate_automated_report_total|].
  intros r w' Hrun td.
  pose proof (top_departments_rows _ _ _ _ _ Hrun) as Hrows.
  fold sd ed T td in Hrows.
  set (sorted := merge_sort by_total_hours_desc (dept_groups sd ed T)).
  assert (Hsplit : sorted = dept_query sd ed T ++ drop 10 sorted).
  { unfold dept_query, LIMIT. fold sorted. by rewrite take_drop. }
  assert (Hsorted : StronglySorted by_total_hours_desc sorted)
    by apply dept_query_sorted.
  assert (Hkeys : map (λ row : dept_tuple, row.1.1.1) (dept_query sd ed T)
                  = map top_departments.department td).
  { clear -Hrows. induction Hrows as [|row en rows es (h & c & -> & _) _ IH];
      [done|]. simpl. by rewrite IH. }
  assert (Hrow : ∀ en, en ∈ td → ∃ h c,
            (top_departments.department en, Some h, Some c,
             Some (top_departments.avg_projects en)) ∈ dept_query sd ed T ∧
            top_departments.total_hours en = float_of_decimal h ∧
            top_departments.total_cost en = float_of_decimal c).
  { intros en [i Hi]%list_elem_of_lookup.
    destruct (Forall2_lookup_r _ _ _ _ _ Hrows Hi)
      as (row & Hrow & h & c & -> & Hh & Hc).
    exists h, c. split; [|done]. by eapply list_elem_of_lookup_2. }
  split_and!.
  - rewrite <- (Forall2_length _ _ _ Hrows). unfold dept_query, LIMIT.
    rewrite length_take. lia.
  - rewrite <- Hkeys. apply dept_query_keys.
  - intros en Hen g. destruct (Hrow en Hen) as (h & c & Hin & Hh & Hc).
    apply dept_query_elem, dept_groups_elem in Hin as (Hg & Hsh & Hsc & Ha).
    rewrite department_group in Hg, Hsh, Hsc, Ha. fold g in Hg, Hsh, Hsc, Ha.
    split; [done|]. by exists h, c.
  - intros i j a b Hij Ha Hb.
    destruct (Forall2_lookup_r _ _ _ _ _ Hrows Ha)
      as (ra & Hra & ha & ca & Hea & Hha & _).
    destruct (Forall2_lookup_r _ _ _ _ _ Hrows Hb)
      as (rb & Hrb & hb & cb & Heb & Hhb & _).
    rewrite Hha, Hhb. apply float_of_decimal_le.
    assert (HR : by_total_hours_desc ra rb).
    { eapply StronglySorted_lookup; [|exact Hij|exact Hra|exact Hrb].
      rewrite Hsplit in Hsorted. by apply StronglySorted_app_1_l in Hsorted. }
    subst ra rb. exact HR.
  - intros name Hg Hname.
    set (g := rows_of_department sd ed T name) in *.
    set (row0 := (name, SUM (map department_summary.total_hours g),
                  SUM (map department_summary.total_labor_cost g),
                  AVG 1 (map department_summary.num_projects g)) : dept_tuple).
    assert (Hin : row0 ∈ drop 10 sorted).
    { assert (H0 : row0 ∈ sorted).
      { unfold sorted. rewrite (merge_sort_Permutation by_total_hours_desc).
        apply dept_groups_elem. cbv zeta. rewrite department_group.
        by split_and!. }
      rewrite Hsplit in H0. apply elem_of_app in H0 as [H0|H0]; [|done].
      destruct Hname. rewrite <- Hkeys.
      apply list_elem_of_fmap. by exists row0. }
    split.
    + rewrite <- (Forall2_length _ _ _ Hrows). unfold dept_query, LIMIT.
      fold sorted. apply take_full. intros Hnil. rewrite Hnil in Hin.
      by apply elem_of_nil in Hin.
    + intros en h Hen Hh. destruct (Hrow en Hen) as (h' & c' & Hin' & -> & _).
      apply float_of_decimal_le. rewrite Hsplit in Hsorted.
      pose proof (StronglySorted_app_1_elem_of _ _ _ _ _ Hsorted Hin' Hin) as HR.
      unfold by_total_hours_desc, row0 in HR. simpl in HR.
      by rewrite Hh in HR.
Qed.

Lemma top_departments_ranked_witness :
  ∃ r, generate_automated_report (Some july_1) (Some july_1) sample_world
         = (Return r, after_requests 6 sample_world) ∧
       (length (top_departments r) ≤ 10)%nat ∧
       NoDup (map top_departments.department (top_departments r)) ∧
       map top_departments.department (top_departments r)
         = ["D12"; "D11"; "D10"; "D9"; "D8"; "D7"; "D6"; "D5"; "D4"; "D3"]%string.
Proof.
  destruct (top_departments_ranked (Some july_1) (Some july_1) sample_world)
    as [Htotal Hranked].
  destruct Htotal as [r Hr].
  - reflexivity.
  - solve_well_stored.
  - exists r. destruct (Hranked r _ Hr) as (Hlen & Hnd & _).
    split_and!; [exact Hr | exact Hlen | exact Hnd |].
    assert (Hrun : ∃ r0,
              generate_automated_report (Some july_1) (Some july_1) sample_world
                = (Return r0, after_requests 6 sample_world) ∧
              map top_departments.department (top_departments r0)
                = ["D12"; "D11"; "D10"; "D9"; "D8"; "D7"; "D6"; "D5"; "D4";
                   "D3"]%string).
    { eexists. split; [compute_run | vm_compute; reflexivity]. }
    destruct Hrun as (r0 & Hr0 & Hnames). rewrite Hr in Hr0.
    by injection Hr0 as ->.
Defined.

(** C5. For every stored data set and date range, the status breakdown of
    the report holds an entry (count and mean margin) only for the rows of
    the period with [project_type = 'GS'] and a status other than
    ['Unknown']: every entry is keyed by such a status and is the count and
    the mean margin of exactly those rows, every such row has its entry,
    and no [ISS] row and no [GS] row of status ['Unknown'] is among the
    rows of any entry.  On well-stored data with no failing query the
    report is produced. *)
Theorem status_breakdown_only_known_GS s e w :
  let sd := get s (first_of_month (dt_date (clock w))) in
  let ed := get e (dt_date (clock w)) in
  let T := visible w in
  (all_succeed 6 (server w) = true → well_stored T →
   ∃ r, generate_automated_report s e w = (Return r, after_requests 6 w))
  ∧
  (∀ r w', generate_automated_report s e w = (Return r, w') →
     (∀ k en, project_status r !! k = Some en →
        ∃ st, k = Some st ∧ st ≠ "Unknown"%string ∧
          let g := gs_rows_with_status sd ed T st in
          g ≠ [] ∧
          project_status.count en = Z.of_nat (length g) ∧
          AVG 100 (map financial_summary.profit_margin g)
            = Some (project_status.avg_margin en) ∧
          ∀ x, x ∈ g ↔
               x ∈ t_financial_summary T ∧
               in_range sd ed (financial_summary.report_date x) ∧
               financial_summary.project_type x = Some "GS"%string ∧
               financial_summary.status x = Some st)
     ∧ (∀ x st, x ∈ t_financial_summary T →
          in_range sd ed (financial_summary.report_date x) →
          financial_summary.project_type x = Some "GS"%string →
          financial_summary.status x = Some st → st ≠ "Unknown"%string →
          is_Some (project_status r !! Some st)))
  ∧
  (∀ x, financial_summary.project_type x ≠ Some "GS"%string
        ∨ financial_summary.status x = Some "Unknown"%string →
     ∀ st, st ≠ "Unknown"%string → x ∉ gs_rows_with_status sd ed T st).
Proof.
  intros sd ed T.
  assert (Hmem : ∀ st x, x ∈ gs_rows_with_status sd ed T st ↔
            x ∈ t_financial_summary T ∧
            in_range sd ed (financial_summary.report_date x) ∧
            financial_summary.project_type x = Some "GS"%string ∧
            financial_summary.status x = Some st).
  { intros st x. unfold gs_rows_with_status, rows_in_range.
    rewrite !list_elem_of_filter. tauto. }
  split; [apply generate_automated_report_total|]. split.
  - intros r w' H. split.
    + intros k en
        (st & -> & Hst & Hg & m & Hm & ->)%(project_status_entries _ _ _ _ _ H).
      exists st. cbv zeta. split_and!; try done.
    + intros x st Hx Hr Hty Hs Hst.
      assert (Hg : gs_rows_with_status sd ed T st ≠ []).
      { intros Hnil. assert (Hin : x ∈ gs_rows_with_status sd ed T st)
          by (by apply Hmem).
        rewrite Hnil in Hin. by apply elem_of_nil in Hin. }
      destruct (project_status_lookup _ _ _ _ _ H (Some st)) as [Hsome _].
      fold sd ed T in Hsome. rewrite status_group in Hsome.
      rewrite decide_False in Hsome by done.
      destruct (Hsome Hg) as [m Hm].
      exists {| project_status.count :=
                  Z.of_nat (length (gs_rows_with_status sd ed T st));
                project_status.avg_margin := m |}.
      apply (project_status_entries _ _ _ _ _ H). exists st. cbv zeta.
      split_and!; try done. by exists m.
  - intros x Hx st Hst (_ & _ & Hty & Hs)%Hmem.
    destruct Hx as [Hx|Hx]; congruence.
Qed.

Lemma status_breakdown_only_known_GS_witness :
  ∃ r,
    generate_automated_report (Some july_1) (Some july_1) sample_world
      = (Return r, after_requests 6 sample_world) ∧
    (∀ k en, project_status r !! k = Some en →
       ∃ st, k = Some st ∧ st ≠ "Unknown"%string) ∧
    is_Some (project_status r !! Some "Success"%string).
Proof.
  destruct (status_breakdown_only_known_GS (Some july_1) (Some july_1)
              sample_world) as (Htotal & Hentries & _).
  destruct Htotal as [r Hr].
  - reflexivity.
  - solve_well_stored.
  - exists r. destruct (Hentries r _ Hr) as [Honly Hall].
    split_and!; [exact Hr | |].
    + intros k en Hk. destruct (Honly k en Hk) as (st & -> & Hst & _).
      exists st. split; [reflexivity | exact Hst].
    + apply (Hall (financial_tuple july_1 sample_gs)).
      * vm_compute. by left.
      * vm_compute. lia.
      * reflexivity.
      * reflexivity.
      * discriminate.
Defined.

(** *** Worked examples *)

Example format_comma_2f_millions :
  format_comma_2f 123456789 = "1,234,567.89"%string.
Proof. reflexivity. Qed.

Example format_comma_2f_cents : format_comma_2f 5 = "0.05"%string.
Proof. reflexivity. Qed.

Example format_comma_2f_thousand : format_comma_2f 100000 = "1,000.00"%string.
Proof. reflexivity. Qed.

Example strftime_Ymd_pads : strftime_Ymd july_1 = "2024-07-01"%string.
Proof. reflexivity. Qed.

Example isoformat_sample_clock :
  isoformat sample_clock = "2024-07-15T10:30:00"%string.
Proof. reflexivity. Qed.

(** One [GS] project (contract 1,000,000; cost 700,000; [Success]) and one
    [ISS] project (contract 500,000; cost 600,000) stored for July 1st and
    reported for that day. *)
Example end_to_end_scenario :
  ∃ r w',
    (store_summaries july_1 [sample_gs; sample_iss] sample_departments;;
     generate_automated_report (Some july_1) (Some july_1)) empty_world
      = (Return r, w') ∧
    (summary.total_projects <$> summary r) = Some 2 ∧
    (summary.total_profit <$> summary r) = Some 200000%Q ∧
    alerts r !! 0%nat
      = Some {| alerts.type := "loss_making_projects";
                alerts.severity := "high";
                alerts.message :=
                  "1 projects with total loss of " +:+ yen +:+ "100,000.00" |} ∧
    project_status r
      = {[ Some "Success"%string :=
             {| project_status.count := 1;
                project_status.avg_margin := 30 |} ]}.
Proof.
  eexists _, _. split; [compute_run|].
  split_and!; vm_compute; reflexivity.
Qed.

(** *** More on the two methods: same-day reports, repeated reports *)

Lemma first_of_month_le d : (1 ≤ day d)%nat → date_le (first_of_month d) d.
Proof.
  intros Hd. unfold date_le, first_of_month. simpl.
  right. split; [done|]. right. by split.
Qed.

Lemma remove_dups_length_subseteq {A} `{EqDecision A} (l k : list A) :
  (∀ x, x ∈ l → x ∈ k) → (length (remove_dups l) ≤ length (remove_dups k))%nat.
Proof.
  intros Hsub. apply submseteq_length, NoDup_submseteq.
  - apply NoDup_remove_dups.
  - intros x. rewrite !elem_of_remove_dups. apply Hsub.
Qed.

(** X1. Rows inserted without a report date are dated today, and a report
    asked for without dates on the same day covers them: each of them is
    among the rows of the default period (first of the month to today),
    and the report counts at least the distinct project codes of the
    batch. *)
Theorem rows_stored_today_are_reported {cols} (df : list (summary_row cols)) w w' :
  idle w →
  (1 ≤ day (dt_date (clock w)))%nat →
  insert_financial_summary df None w = (Return (), w') →
  let today := dt_date (clock w) in
  (∀ row, row ∈ df →
     financial_tuple today row
       ∈ rows_in_range (first_of_month today) today (visible w'))
  ∧ (∀ r w'', generate_automated_report None None w' = (Return r, w'') →
       ∃ s, summary r = Some s ∧
            Z.of_nat (length (remove_dups (map ProjectCode df)))
              ≤ summary.total_projects s).
Proof.
  intros Hidle Hday Hrun today.
  apply insert_financial_summary_cases in Hrun
    as (Hidle' & Hclock & _ & _ & [[_ Hfin] | [? _]]); [|done|done].
  simpl in Hfin. fold today in Hfin.
  assert (Hin : ∀ row, row ∈ df →
            financial_tuple today row
              ∈ rows_in_range (first_of_month today) today (visible w')).
  { intros row Hrow. unfold rows_in_range. apply list_elem_of_filter. split.
    - split; [by apply first_of_month_le | apply date_le_refl].
    - rewrite idle_visible by done. rewrite Hfin. apply elem_of_app. right.
      apply list_elem_of_fmap. by exists row. }
  split; [done|].
  intros r w'' Hgen. rewrite (summary_of_report _ _ _ _ _ Hgen).
  eexists. split; [reflexivity|]. simpl. unfold COUNT_DISTINCT.
  apply inj_le, remove_dups_length_subseteq.
  intros c (row & -> & Hrow)%list_elem_of_fmap.
  rewrite Hclock. fold today. rewrite financial_in_period_rows.
  apply list_elem_of_fmap. exists (financial_tuple today row).
  split; [done | by apply Hin].
Qed.

Lemma rows_stored_today_are_reported_witness :
  ∃ w', insert_financial_summary [sample_gs; sample_iss] None empty_world
          = (Return (), w') ∧
        financial_tuple (dt_date sample_clock) sample_gs
          ∈ rows_in_range (first_of_month (dt_date sample_clock))
              (dt_date sample_clock) (visible w').
Proof.
  eexists. split; [compute_run|].
  match goal with
  | |- context [visible ?w'] =>
      destruct (rows_stored_today_are_reported [sample_gs; sample_iss]
                  empty_world w') as [Hin _]
  end.
  - reflexivity.
  - vm_compute. lia.
  - vm_compute. reflexivity.
  - apply Hin. by left.
Defined.

(** X2. The report engine keeps no state and writes nothing: after a
    report is returned the stored rows are as before, and a later call for
    the same period over the same rows, at whatever time and with its six
    queries served, returns the same report but for its [generated_at]
    stamp, which is the time of that call. *)
Theorem report_is_repeatable s e w r w1 :
  generate_automated_report s e w = (Return r, w1) →
  committed w1 = committed w ∧ pending w1 = pending w ∧
  ∀ w2,
    visible w2 = visible w1 →
    all_succeed 6 (server w2) = true →
    get s (first_of_month (dt_date (clock w2)))
      = get s (first_of_month (dt_date (clock w))) →
    get e (dt_date (clock w2)) = get e (dt_date (clock w)) →
    generate_automated_report s e w2
      = (Return (with_generated_at (isoformat (clock w2)) r),
         after_requests 6 w2).
Proof.
  intros Hrun.
  destruct (generate_automated_report_read_only s e w) as (Hc & Hp & Ht).
  rewrite Hrun in Hc, Hp, Ht. simpl in Hc, Hp, Ht.
  split; [done|]. split; [done|].
  intros w2 Hvis Hs Hsd Hed.
  assert (Hvis1 : visible w1 = visible w)
    by (unfold visible; by rewrite Hc, Hp).
  apply generate_automated_report_Return in Hrun
    as (_ & _ & Hperiod & Hgen & Hsum & Htr & Hpt & Hps & Htd & a1 & Ha1 & Hal).
  rewrite (generate_automated_report_returns s e w2 (project_types r)
             (project_status r) (top_departments r) a1);
    rewrite ?Hsd, ?Hed, ?Hvis, ?Hvis1; try done.
  f_equal. unfold with_generated_at. f_equal; congruence.
Qed.

Lemma report_is_repeatable_witness :
  let later :=
    {| committed := committed sample_world; pending := pending sample_world;
       server := [];
       clock := mkdatetime (mkdate 2024 7 16) 9 0 0 0 |} in
  ∃ r, generate_automated_report (Some july_1) (Some july_1) sample_world
         = (Return r, after_requests 6 sample_world) ∧
       generate_automated_report (Some july_1) (Some july_1) later
         = (Return (with_generated_at (isoformat (clock later)) r),
            after_requests 6 later).
Proof.
  intros later. eexists. split; [compute_run|].
  refine (proj2 (proj2 (report_is_repeatable (Some july_1) (Some july_1)
                          sample_world _ _ _)) later _ _ _ _).
  - compute_run.
  - reflexivity.
  - reflexivity.
  - reflexivity.
  - reflexivity.
Defined.

(** *** The breakdowns count every row once *)

Lemma total_Permutation (l k : list Z) : l ≡ₚ k → total l = total k.
Proof.
  induction 1 as [|x l k _ IH|x y l|l k m _ IH1 _ IH2]; simpl; lia.
Qed.

Lemma total_map_add {A} (f g : A → Z) (l : list A) :
  total (map (λ x, f x + g x) l) = total (map f l) + total (map g l).
Proof. induction l as [|x l IH]; simpl; lia. Qed.

Lemma total_indicator {K} `{EqDecision K} (k0 : K) (keys : list K) :
  NoDup keys → k0 ∈ keys →
  total (map (λ k, if bool_decide (k0 = k) then 1 else 0) keys) = 1.
Proof.
  induction keys as [|k keys IH]; intros Hnd Hin; [by apply elem_of_nil in Hin|].
  apply NoDup_cons in Hnd as [Hk Hnd]. simpl. case_bool_decide as Heq.
  - subst k.
    assert (H0 : total (map (λ k, if bool_decide (k0 = k) then 1 else 0) keys) = 0).
    { clear IH Hin Hnd. induction keys as [|k keys IH]; [done|]. simpl.
      rewrite bool_decide_eq_false_2.
      - rewrite IH; [done|]. intros ?. apply Hk. by right.
      - intros ->. apply Hk. by left. }
    lia.
  - apply elem_of_cons in Hin as [?|Hin]; [done|]. rewrite IH; [lia|done|done].
Qed.

Lemma group_sizes {A K} `{EqDecision K} (key : A → K) (l : list A) :
  ∀ keys, NoDup keys → (∀ y, y ∈ l → key y ∈ keys) →
  total (map (λ k, Z.of_nat (length (group key k l))) keys)
  = Z.of_nat (length l).
Proof.
  induction l as [|x l IH]; intros keys Hnd Hkeys.
  - simpl. clear. induction keys as [|k keys IH]; simpl; lia.
  - erewrite map_ext.
    2:{ intros k. unfold group. simpl.
        instantiate (1 := λ k, (if bool_decide (key x = k) then 1 else 0)
                               + Z.of_nat (length (group key k l))).
        simpl. unfold group. case_bool_decide; simpl; lia. }
    rewrite total_map_add, total_indicator, IH; [simpl; lia|done| |done|].
    + intros y Hy. apply Hkeys. by right.
    + apply Hkeys. by left.
Qed.

Lemma GROUP_BY_sizes {A K} `{EqDecision K} (key : A → K) (l : list A) :
  total (map (λ kg, COUNT_star kg.2) (GROUP_BY key l)) = Z.of_nat (length l).
Proof.
  unfold GROUP_BY. rewrite map_map. simpl. unfold COUNT_star.
  apply (group_sizes key l).
  - apply NoDup_remove_dups.
  - intros y Hy. apply elem_of_remove_dups, list_elem_of_fmap. by exists y.
Qed.

Lemma for_each_add_type_entry_counts rows : ∀ d d',
  NoDup (map (λ row, row.1.1.1) rows) →
  (∀ k, k ∈ map (λ row, row.1.1.1) rows → d !! k = None) →
  for_each add_type_entry d rows = Return d' →
  total (map (λ p, project_types.count p.2) (map_to_list d'))
  = total (map (λ p, project_types.count p.2) (map_to_list d))
    + total (map (λ row, row.1.1.2) rows).
Proof.
  induction rows as [|[[[k0 n0] s0] a0] rows IH]; intros d d' Hnd Hfresh Hrun.
  - injection Hrun as <-. simpl. lia.
  - simpl in Hnd. apply NoDup_cons in Hnd as [Hk0 Hnd].
    simpl in Hrun. destruct s0 as [p0|]; [|done]. destruct a0 as [m0|]; [|done].
    simpl in Hrun. apply IH in Hrun; [|done|].
    + assert (Hd : d !! k0 = None) by (apply Hfresh; by left).
      rewrite Hrun.
      rewrite (total_Permutation _ _
                 (Permutation_map _ (map_to_list_insert d k0 _ Hd))).
      simpl. lia.
    + intros k Hk. rewrite lookup_insert_ne.
      * apply Hfresh. by right.
      * intros ->. done.
Qed.

Lemma for_each_add_status_entry_counts rows : ∀ d d',
  NoDup (map (λ row, row.1.1) rows) →
  (∀ k, k ∈ map (λ row, row.1.1) rows → d !! k = None) →
  for_each add_status_entry d rows = Return d' →
  total (map (λ p, project_status.count p.2) (map_to_list d'))
  = total (map (λ p, project_status.count p.2) (map_to_list d))
    + total (map (λ row, row.1.2) rows).
Proof.
  induction rows as [|[[k0 n0] a0] rows IH]; intros d d' Hnd Hfresh Hrun.
  - injection Hrun as <-. simpl. lia.
  - simpl in Hnd. apply NoDup_cons in Hnd as [Hk0 Hnd].
    simpl in Hrun. destruct a0 as [m0|]; [|done].
    simpl in Hrun. apply IH in Hrun; [|done|].
    + assert (Hd : d !! k0 = None) by (apply Hfresh; by left).
      rewrite Hrun.
      rewrite (total_Permutation _ _
                 (Permutation_map _ (map_to_list_insert d k0 _ Hd))).
      simpl. lia.
    + intros k Hk. rewrite lookup_insert_ne.
      * apply Hfresh. by right.
      * intros ->. done.
Qed.

(** X3. The breakdowns of a report count every row of the period once: the
    counts of the per-type entries add up to the number of rows of the
    period, and the counts of the per-status entries to the number of its
    [GS] rows with a status other than ['Unknown']. *)
Theorem breakdown_counts_add_up s e w r w' :
  generate_automated_report s e w = (Return r, w') →
  let sd := get s (first_of_month (dt_date (clock w))) in
  let ed := get e (dt_date (clock w)) in
  let rows := rows_in_range sd ed (visible w) in
  total (map (λ p, project_types.count p.2) (map_to_list (project_types r)))
    = Z.of_nat (length rows)
  ∧ total (map (λ p, project_status.count p.2)
               (map_to_list (project_status r)))
    = Z.of_nat (length (filter has_known_status rows)).
Proof.
  intros H sd ed rows.
  apply generate_automated_report_Return in H
    as (_ & _ & _ & _ & _ & _ & Hpt & Hps & _).
  fold sd ed in Hpt, Hps. split.
  - apply for_each_add_type_entry_counts in Hpt;
      [|apply type_query_keys|intros; apply lookup_empty].
    rewrite Hpt, map_to_list_empty. simpl.
    unfold type_query. rewrite map_map.
    rewrite (map_ext _ (λ kg, COUNT_star kg.2)) by (by intros [k g]).
    rewrite (GROUP_BY_sizes financial_summary.project_type).
    by rewrite financial_in_period_rows.
  - apply for_each_add_status_entry_counts in Hps;
      [|apply status_query_keys|intros; apply lookup_empty].
    rewrite Hps, map_to_list_empty. simpl.
    unfold status_query. rewrite map_map.
    rewrite (map_ext _ (λ kg, COUNT_star kg.2)) by (by intros [k g]).
    rewrite (GROUP_BY_sizes financial_summary.status).
    rewrite financial_in_period_rows. fold rows. rewrite Z.add_0_l.
    do 2 f_equal. apply List_filter_filter. intros x. rewrite status_where_spec.
    unfold has_known_status. split.
    + intros (Hty & st & Hst & Hne). rewrite Hst. split_and!; congruence.
    + intros (Hty & Hsome & Hne). split; [done|].
      destruct (financial_summary.status x) as [st|]; [|done].
      exists st. split; [done|]. congruence.
Qed.

Lemma breakdown_counts_add_up_witness :
  ∃ r, generate_automated_report (Some july_1) (Some july_1) sample_world
         = (Return r, after_requests 6 sample_world) ∧
       total (map (λ p, project_types.count p.2)
                  (map_to_list (project_types r))) = 2.
Proof.
  eexists. split; [compute_run|].
  match goal with
  | |- context [project_types ?r] =>
      destruct (breakdown_counts_add_up (Some july_1) (Some july_1)
                  sample_world r (after_requests 6 sample_world))
        as [Htypes _]; [vm_compute; reflexivity|]
  end.
  rewrite Htypes. vm_compute. reflexivity.
Defined.

(** *** What a repeated store does to the report *)

Lemma total_app (a b : list Z) : total (a ++ b) = total a + total b.
Proof. induction a as [|x a IH]; simpl; lia. Qed.

Lemma non_null_app {A} (a b : list (option A)) :
  non_null (a ++ b) = non_null a ++ non_null b.
Proof. unfold non_null. apply omap_app. Qed.

Lemma COUNT_DISTINCT_twice {A} `{EqDecision A} (l : list A) :
  COUNT_DISTINCT (l ++ l) = COUNT_DISTINCT l.
Proof.
  unfold COUNT_DISTINCT. f_equal. apply Permutation_length.
  apply NoDup_Permutation; [apply NoDup_remove_dups..|].
  intros x. rewrite !elem_of_remove_dups, elem_of_app. tauto.
Qed.

Lemma SUM_twice (col : list (option Z)) :
  SUM (col ++ col) = (λ x, 2 * x) <$> SUM col.
Proof.
  unfold SUM. rewrite non_null_app.
  destruct (non_null col) as [|x xs] eqn:E; [done|].
  simpl. f_equal. rewrite total_app. simpl. lia.
Qed.

Lemma AVG_twice scale (col : list (option Z)) :
  AVG scale (col ++ col) = AVG scale col.
Proof.
  unfold AVG. rewrite non_null_app.
  destruct (non_null col) as [|x xs] eqn:E; [done|].
  remember (x :: xs) as l eqn:El.
  assert (Hn : (length l ≠ 0)%nat) by (subst l; simpl; lia).
  destruct (l ++ l) as [|y ys] eqn:Ell.
  { apply app_eq_nil in Ell as [-> _]. done. }
  rewrite <- Ell. clear El E Ell. f_equal. apply Qred_complete.
  unfold Qeq. simpl. rewrite total_app, length_app.
  rewrite !Pos2Z.inj_mul.
  replace (Z.pos (Pos.of_nat (length l + length l)))
    with (2 * Z.pos (Pos.of_nat (length l))); [lia|].
  rewrite <- !(Znat.positive_nat_Z (Pos.of_nat _)), !Nat2Pos.id by lia. lia.
Qed.

Lemma float_decimal_or_0_twice (v : option Z) :
  (float_decimal_or_0 ((λ x, 2 * x)%Z <$> v) == 2 * float_decimal_or_0 v)%Q.
Proof.
  destruct v as [x|]; [|reflexivity].
  cbn [fmap option_fmap option_map]. unfold float_decimal_or_0.
  repeat case_decide; try lia; [reflexivity|].
  unfold float_of_decimal. rewrite !Qred_correct. unfold Qeq, Qmult. simpl. lia.
Qed.

Lemma rows_in_range_batch {cols} sd ed d (fin : list (summary_row cols)) old :
  in_range sd ed d →
  filter (λ r, in_range sd ed (financial_summary.report_date r))
         (old ++ map (financial_tuple d) fin)
  = filter (λ r, in_range sd ed (financial_summary.report_date r)) old
    ++ map (financial_tuple d) fin.
Proof.
  intros Hd. rewrite filter_app. f_equal.
  induction fin as [|row fin IH]; [done|]. simpl.
  rewrite filter_cons_True by done. by rewrite IH.
Qed.

(** X4. What the second store of a batch does to the report of a period
    that held no row before: the count of distinct projects and the mean
    margin stay as after the first store, while the sums of revenue, cost,
    profit and hours are doubled. *)
Theorem second_store_doubles_sums {cols} d (fin : list (summary_row cols)) dept
    w w1 w2 s e r1 r2 w1' w2' :
  idle w →
  store_summaries d fin dept w = (Return (), w1) →
  store_summaries d fin dept w1 = (Return (), w2) →
  let sd := get s (first_of_month (dt_date (clock w))) in
  let ed := get e (dt_date (clock w)) in
  rows_in_range sd ed (visible w) = [] →
  in_range sd ed d →
  generate_automated_report s e w1 = (Return r1, w1') →
  generate_automated_report s e w2 = (Return r2, w2') →
  ∃ s1 s2, summary r1 = Some s1 ∧ summary r2 = Some s2 ∧
    summary.total_projects s2 = summary.total_projects s1 ∧
    summary.avg_profit_margin s2 = summary.avg_profit_margin s1 ∧
    (summary.total_revenue s2 == 2 * summary.total_revenue s1)%Q ∧
    (summary.total_cost s2 == 2 * summary.total_cost s1)%Q ∧
    (summary.total_profit s2 == 2 * summary.total_profit s1)%Q ∧
    (summary.total_hours s2 == 2 * summary.total_hours s1)%Q.
Proof.
  intros Hidle Hrun1 Hrun2 sd ed Hempty Hd Hr1 Hr2.
  apply store_summaries_cases in Hrun1
    as (Hidle1 & Hclock1 & _ & [(_ & Hf1 & _) | [(? & _) | (? & _)]]);
    [|done..].
  apply store_summaries_cases in Hrun2
    as (Hidle2 & Hclock2 & _ & [(_ & Hf2 & _) | [(? & _) | (? & _)]]);
    [|done..].
  set (F := map (financial_tuple d) fin) in *.
  assert (H1 : financial_in_period sd ed (visible w1) = F).
  { rewrite financial_in_period_rows. unfold rows_in_range.
    rewrite idle_visible, Hf1 by done.
    unfold F. rewrite rows_in_range_batch by done.
    unfold rows_in_range in Hempty. rewrite idle_visible in Hempty by done.
    by rewrite Hempty. }
  assert (H2 : financial_in_period sd ed (visible w2) = F ++ F).
  { rewrite financial_in_period_rows. unfold rows_in_range.
    rewrite idle_visible, Hf2, Hf1, <- app_assoc by done.
    unfold F. rewrite app_assoc, rows_in_range_batch by done.
    rewrite rows_in_range_batch by done.
    unfold rows_in_range in Hempty. rewrite idle_visible in Hempty by done.
    by rewrite Hempty. }
  rewrite (summary_of_report _ _ _ _ _ Hr1), (summary_of_report _ _ _ _ _ Hr2).
  rewrite Hclock2, !Hclock1. fold sd ed. rewrite H1, H2.
  eexists _, _. split; [reflexivity|]. split; [reflexivity|]. simpl.
  rewrite !map_app.
  split_and!.
  - apply COUNT_DISTINCT_twice.
  - by rewrite AVG_twice.
  - rewrite SUM_twice. apply float_decimal_or_0_twice.
  - rewrite SUM_twice. apply float_decimal_or_0_twice.
  - rewrite SUM_twice. apply float_decimal_or_0_twice.
  - rewrite SUM_twice. apply float_decimal_or_0_twice.
Qed.

Lemma second_store_doubles_sums_witness :
  ∃ w1 w2 r1 r2,
    store_summaries july_1 [sample_gs; sample_iss] [] empty_world
      = (Return (), w1) ∧
    store_summaries july_1 [sample_gs; sample_iss] [] w1 = (Return (), w2) ∧
    generate_automated_report (Some july_1) (Some july_1) w1
      = (Return r1, after_requests 6 w1) ∧
    generate_automated_report (Some july_1) (Some july_1) w2
      = (Return r2, after_requests 6 w2) ∧
    (summary.total_projects <$> summary r2)
      = (summary.total_projects <$> summary r1).
Proof.
  eexists _, _, _, _.
  split; [compute_run|]. split; [compute_run|].
  split; [compute_run|]. split; [compute_run|].
  lazymatch goal with
  | |- _ <$> summary ?r2 = _ <$> summary ?r1 =>
      let w1 := eval vm_compute in
        (store_summaries july_1 [sample_gs; sample_iss] [] empty_world).2 in
      let w2 := eval vm_compute in
        (store_summaries july_1 [sample_gs; sample_iss] [] w1).2 in
      destruct (second_store_doubles_sums july_1 [sample_gs; sample_iss] []
                  empty_world w1 w2 (Some july_1) (Some july_1) r1 r2
                  (after_requests 6 w1) (after_requests 6 w2))
        as (s1 & s2 & Hs1 & Hs2 & Hcount & _)
  end.
  - reflexivity.
  - compute_run.
  - compute_run.
  - vm_compute. reflexivity.
  - vm_compute. lia.
  - compute_run.
  - compute_run.
  - rewrite Hs1, Hs2. simpl. by rewrite Hcount.
Defined.

(** *** The manager: connection, log *)

Lemma sbind_run {A B} (m : Session A) (f : A → Session B) g a g1 :
  m g = (Done a, g1) → (m ≫= f) g = f a g1.
Proof. unfold mbind, Session_bind. by intros ->. Qed.

Lemma sbind_fail {A B} (m : Session A) (f : A → Session B) g e g1 :
  m g = (Failed e, g1) → (m ≫= f) g = (Failed e, g1).
Proof. unfold mbind, Session_bind. by intros ->. Qed.

Lemma on_store_run {A} (m : M A) g :
  cursor g = Open → connection g = Open →
  on_store m g
  = match m (store g) with
    | (Return a, w') => (Done a, with_store w' g)
    | (Raise e, w') => (Failed (Db e), with_store w' g)
    end.
Proof. unfold on_store, server_side. by intros -> ->. Qed.

Lemma request_cases w res w' :
  request w = (res, w') →
  committed w' = committed w ∧ pending w' = pending w ∧ clock w' = clock w ∧
  (∃ n, server w' = drop n (server w)) ∧
  (res = Return () ∨ (res = Raise Error ∧ ∃ k, Fails k ∈ server w)).
Proof.
  unfold request, next_outcome. destruct w as [c p [|[|k] l] t]; simpl;
    intros [= <- <-]; simpl; split_and!; try done.
  - by exists 0%nat.
  - by left.
  - by exists 1%nat.
  - by left.
  - by exists 1%nat.
  - right. split; [done|]. exists k. by left.
Qed.

Lemma commit_cases w res w' :
  commit w = (res, w') →
  clock w' = clock w ∧ (∃ n, server w' = drop n (server w)) ∧
  ((res = Return () ∧ committed w' = visible w ∧ pending w' = no_rows)
   ∨ (res = Raise Error ∧ committed w' = committed w ∧ pending w' = pending w
      ∧ ∃ k, Fails k ∈ server w)).
Proof.
  unfold commit, next_outcome. destruct w as [c p [|[|k] l] t]; simpl;
    intros [= <- <-]; simpl; split_and!; try done.
  - by exists 0%nat.
  - by left.
  - by exists 1%nat.
  - by left.
  - by exists 1%nat.
  - right. split_and!; try done. exists k. by left.
Qed.

(** X5. On a connected manager with no open transaction, [log_report]
    either appends exactly one row to the report log -- the given type,
    path and summary under today's date, after the rows that were there --
    or raises an [Error] and leaves the log as it was; the summary tables
    are untouched and no transaction stays open either way. *)
Theorem log_report_appends_one_row_or_nothing ty path summ g res g' :
  cursor g = Open → connection g = Open → idle (store g) →
  log_report ty path summ g = (res, g') →
  committed (store g') = committed (store g) ∧ idle (store g') ∧
  cursor g' = Open ∧ connection g' = Open ∧
  ((res = Done () ∧
    report_log_rows g'
      = report_log_rows g
        ++ [ {| report_log.report_type := ty;
                report_log.report_date := dt_date (clock (store g));
                report_log.file_path := path;
                report_log.summary := summ |} ])
   ∨ (res = Failed (Db Error) ∧ report_log_rows g' = report_log_rows g)).
Proof.
  intros Hcur Hcon Hidle. unfold idle in Hidle.
  unfold log_report, try_except_Db_Error, today, connection_commit,
    connection_rollback, fail, mbind, Session_bind.
  rewrite on_store_run by done.
  destruct g as [[c p sch t] lg cn cu]. simpl in *. subst cn cu p.
  unfold request, commit, rollback, next_outcome, with_store, visible; simpl.
  destruct sch as [|[|k] sch]; simpl.
  - intros [= <- <-]. simpl. rewrite tables_app_no_rows_r.
    split_and!; try done. by left.
  - destruct sch as [|[|k] sch]; simpl; intros [= <- <-]; simpl;
      rewrite ?tables_app_no_rows_r; split_and!; try done;
      first [by left | by right].
  - intros [= <- <-]. simpl. split_and!; try done. by right.
Qed.

Lemma log_report_appends_one_row_or_nothing_witness :
  ∃ g', log_report "daily_summary" "reports/daily_summary.txt" None
          {| store := sample_world; report_log_rows := [];
             connection := Open; cursor := Open |}
        = (Done (), g') ∧
        length (report_log_rows g') = 1%nat.
Proof.
  eexists. split; [compute_run|].
  match goal with
  | |- context [report_log_rows ?g'] =>
      destruct (log_report_appends_one_row_or_nothing
                  "daily_summary" "reports/daily_summary.txt" None
                  {| store := sample_world; report_log_rows := [];
                     connection := Open; cursor := Open |} (Done ()) g')
        as (_ & _ & _ & _ & [[_ Hlog] | [? _]])
  end.
  - reflexivity.
  - reflexivity.
  - reflexivity.
  - vm_compute. reflexivity.
  - by rewrite Hlog.
  - discriminate.
Defined.


(** X7. [disconnect] never raises and can be repeated: afterwards neither
    attribute is live, the committed rows and the log are as before, a
    second [disconnect] changes nothing, and on a manager that never
    connected the first one changes nothing either. *)
Theorem disconnect_is_safe_and_idempotent g :
  ∃ g1, disconnect g = (Done (), g1) ∧
    connection g1 ≠ Open ∧ cursor g1 ≠ Open ∧
    committed (store g1) = committed (store g) ∧
    report_log_rows g1 = report_log_rows g ∧
    (connection g ≠ Unset → idle (store g1)) ∧
    disconnect g1 = (Done (), g1) ∧
    (connection g = Unset → cursor g = Unset → g1 = g).
Proof.
  destruct g as [[c p sch t] lg cn cu].
  unfold disconnect, idle. destruct cn, cu; simpl; eexists;
    (split; [reflexivity|]); simpl; split_and!; done.
Qed.

(** *** Between connect and disconnect *)

Lemma safe_ret {A} (a : A) : safe_when_connected (mret a).
Proof. by intros g Hg. Qed.

Lemma safe_today : safe_when_connected today.
Proof. by intros g Hg. Qed.

Lemma safe_bind {A B} (m : Session A) (f : A → Session B) :
  safe_when_connected m → (∀ a, safe_when_connected (f a)) →
  safe_when_connected (m ≫= f).
Proof.
  intros Hm Hf g Hg. unfold mbind, Session_bind.
  destruct (Hm g Hg) as [Hres Hcon]. destruct (m g) as [[a|e] g1]; simpl in *.
  - by apply Hf.
  - done.
Qed.

Lemma safe_on_store {A} (m : M A) : safe_when_connected (on_store m).
Proof.
  intros g [Hcur Hcon]. rewrite on_store_run by done.
  by destruct (m (store g)) as [[a|e] w'].
Qed.

Lemma safe_try_except {A} (body handler : Session A) :
  safe_when_connected body → safe_when_connected handler →
  safe_when_connected (try_except_Db_Error body handler).
Proof.
  intros Hb Hh g Hg. unfold try_except_Db_Error.
  destruct (Hb g Hg) as [Hres Hcon].
  destruct (body g) as [[a|[[]| |]] g1]; simpl in *; try done.
  by apply Hh.
Qed.

Lemma safe_fail_Db {A} e : safe_when_connected (@fail A (Db e)).
Proof. by intros g Hg. Qed.

Lemma safe_create_tables : safe_when_connected create_tables.
Proof.
  apply safe_try_except; [apply safe_on_store | apply safe_fail_Db].
Qed.

Lemma safe_connection_commit written :
  safe_when_connected (connection_commit written).
Proof.
  intros g [Hcur Hcon]. unfold connection_commit. rewrite Hcon.
  destruct (commit (store g)) as [[a|e] w']; simpl; by rewrite ?Hcur, ?Hcon.
Qed.

Lemma safe_connection_rollback : safe_when_connected connection_rollback.
Proof. intros g [Hcur Hcon]. unfold connection_rollback. by rewrite Hcon. Qed.

Lemma safe_log_report ty path summ :
  safe_when_connected (log_report ty path summ).
Proof.
  unfold log_report. apply safe_try_except.
  - apply safe_bind; [apply safe_today|]. intros d.
    apply safe_bind; [apply safe_on_store|]. intros _.
    apply safe_connection_commit.
  - apply safe_bind; [apply safe_connection_rollback|]. intros _.
    apply safe_fail_Db.
Qed.

Lemma safe_generate_daily_report format_2f :
  safe_when_connected (generate_daily_report format_2f).
Proof.
  intros g [Hcur Hcon]. unfold generate_daily_report, mbind, Session_bind.
  rewrite on_store_run by done.
  destruct (generate_automated_report None None (store g)) as [[r|e] w'] eqn:Hrun;
    [|done].
  apply generate_automated_report_Return in Hrun as (_ & _ & _ & _ & Hsum & _).
  rewrite Hsum. simpl. done.
Qed.

Lemma create_database_keeps_handles g :
  database_failure_only (create_database g).1 ∧
  connection (create_database g).2 = connection g ∧
  cursor (create_database g).2 = cursor g.
Proof.
  unfold create_database, try_except_Db_Error, server_side, fail.
  by destruct ((request;; request) (store g)) as [[a|[]] w'].
Qed.

Lemma connect_cases g :
  database_failure_only (connect g).1 ∧
  match (connect g).1 with
  | Done _ => connected (connect g).2
  | Failed _ => connection (connect g).2 = connection g
                ∧ cursor (connect g).2 = cursor g
  end.
Proof.
  unfold connect, try_except_Db_Error, server_side, fail, set_connected,
    mbind, Session_bind.
  by destruct (request (store g)) as [[a|[]] w'].
Qed.

Lemma disconnect_closes g :
  ∃ g1, disconnect g = (Done (), g1) ∧ connection g1 ≠ Open ∧ cursor g1 ≠ Open.
Proof.
  destruct g as [w lg cn cu]. unfold disconnect.
  destruct cn, cu; simpl; eexists; (split; [reflexivity|]); by split.
Qed.

Lemma guarded_run {A} (rest : Session A) g :
  safe_when_connected rest →
  let run := (new_DatabaseManager;;
              try_finally (create_database;; connect;; rest) disconnect) g in
  database_failure_only run.1 ∧ connection run.2 ≠ Open ∧ cursor run.2 ≠ Open.
Proof.
  intros Hrest. cbv zeta.
  rewrite (sbind_run new_DatabaseManager _ g () _ eq_refl).
  set (g0 := {| store := store g; report_log_rows := report_log_rows g;
                connection := Unset; cursor := Unset |}).
  unfold try_finally.
  destruct ((create_database;; connect;; rest) g0) as [r g1] eqn:Hbody.
  destruct (disconnect_closes g1) as (g2 & -> & Hcon & Hcur). simpl.
  split; [|done].
  revert Hbody. unfold mbind at 1. unfold Session_bind.
  destruct (create_database_keeps_handles g0) as (Hres1 & _ & _).
  destruct (create_database g0) as [[[]|e1] g01]; simpl in Hres1.
  - unfold mbind at 1. unfold Session_bind.
    destruct (connect_cases g01) as [Hres2 Hcase].
    destruct (connect g01) as [[[]|e2] g02]; simpl in Hres2, Hcase.
    + intros Hrun. destruct (Hrest g02 Hcase) as [Hres3 _].
      by rewrite Hrun in Hres3.
    + by intros [= <- _].
  - by intros [= <- _].
Qed.

(** X8. The two callers always release the connection and fail only with
    failures of the database or the report engine: whatever request fails,
    after [_database_operations] and after [main] neither attribute of the
    manager is live, and the outcome is never an [AttributeError] or a
    [KeyError]. *)
Theorem callers_always_disconnect {cols} format_2f (fdf : list (summary_row cols))
    ddf g :
  (let run := _database_operations format_2f fdf ddf g in
   database_failure_only run.1 ∧ connection run.2 ≠ Open ∧ cursor run.2 ≠ Open)
  ∧
  (let run := main fdf ddf g in
   database_failure_only run.1 ∧ connection run.2 ≠ Open ∧ cursor run.2 ≠ Open).
Proof.
  split.
  - apply guarded_run.
    apply safe_bind; [apply safe_create_tables|]. intros _.
    apply safe_bind; [apply safe_today|]. intros d.
    apply safe_bind; [apply safe_on_store|]. intros _.
    apply safe_bind; [apply safe_on_store|]. intros _.
    apply safe_bind; [apply safe_generate_daily_report|]. intros t.
    apply safe_ret.
  - apply guarded_run.
    apply safe_bind; [apply safe_create_tables|]. intros _.
    apply safe_bind; [apply safe_on_store|]. intros _.
    apply safe_bind; [apply safe_on_store|]. intros _.
    apply safe_bind; [apply safe_on_store|]. intros r.
    apply safe_bind; [apply safe_log_report|]. intros _.
    apply safe_ret.
Qed.

(** *** The daily report *)

Lemma hundredths_float_of_decimal d : hundredths (float_of_decimal d) = d.
Proof.
  unfold hundredths, float_of_decimal.
  pose proof (Qred_correct (d # 100)) as H. unfold Qeq in H. simpl in H.
  rewrite H. apply Z.div_mul. done.
Qed.

Lemma hundredths_float_decimal_or_0 {A} (col : A → option Z) rows :
  hundredths (float_decimal_or_0 (SUM (map col rows))) = sum_of col rows.
Proof.
  unfold float_decimal_or_0, SUM, sum_of.
  replace (non_null (map col rows)) with (omap col rows).
  2:{ unfold non_null. induction rows as [|r rows IH]; [done|].
      cbn. destruct (col r); cbn; by rewrite IH. }
  destruct (omap col rows) as [|x xs] eqn:E; [done|].
  case_decide as Hz; [by rewrite Hz|]. apply hundredths_float_of_decimal.
Qed.

Lemma generate_daily_report_Done format_2f g text g' :
  generate_daily_report format_2f g = (Done text, g') →
  connected g ∧
  ∃ r s w', generate_automated_report None None (store g) = (Return r, w')
            ∧ summary r = Some s
            ∧ g' = with_store w' g
            ∧ text = join_lines (daily_report_lines format_2f r s).
Proof.
  unfold generate_daily_report, mbind, Session_bind.
  destruct (on_store (generate_automated_report None None) g) as [[r|e] g1] eqn:E;
    [|done].
  assert (connected g) as [Hcu Hco].
  { unfold on_store in E. unfold connected. destruct (cursor g), (connection g); done. }
  rewrite on_store_run in E by done.
  destruct (generate_automated_report None None (store g)) as [[r0|e] w1] eqn:Hr;
    [|done].
  injection E as -> <-.
  destruct (summary r) as [s|] eqn:Hs; [|done].
  intros [= <- <-]. split; [done|]. by exists r, s, w1.
Qed.

(** X9. The text of the daily report is determined by the rows of the
    current month up to today: it prints the number of distinct project
    codes, the exact sums of the contract prices and of the profits (as long
    as they stay within the fifteen digits a float keeps), the mean margin,
    and an ALERTS section that is present exactly when some row makes a loss
    or has a low efficiency, with one [HIGH] line and one [MEDIUM] line for
    the two rules. *)
Theorem daily_report_text format_2f g text g' :
  generate_daily_report format_2f g = (Done text, g') →
  let today := dt_date (clock (store g)) in
  let first := first_of_month today in
  let rows := rows_in_range first today (visible (store g)) in
  let losses := filter loss_making rows in
  let slow := filter low_efficiency rows in
  let alert_lines :=
    (if decide (losses = []) then []
     else ["[HIGH] " +:+ str_int (Z.of_nat (length losses))
             +:+ " projects with total loss of " +:+ yen
             +:+ format_comma_2f (Z.abs (sum_of financial_summary.profit losses))])
    ++ (if decide (slow = []) then []
        else ["[MEDIUM] " +:+ str_int (Z.of_nat (length slow))
                +:+ " projects with low efficiency scores"]) in
  Z.abs (sum_of financial_summary.contract_price rows) < 10 ^ 15 →
  Z.abs (sum_of financial_summary.profit rows) < 10 ^ 15 →
  text = join_lines
    ([ repeat_string "=" 60;
       "WTL DAILY FINANCIAL REPORT";
       repeat_string "=" 60;
       "Generated: " +:+ isoformat (clock (store g));
       "Period: " +:+ strftime_Ymd first +:+ " to " +:+ strftime_Ymd today;
       "";
       "SUMMARY";
       repeat_string "-" 30;
       "Total Projects: "
         +:+ str_int (COUNT_DISTINCT (map financial_summary.project_code rows));
       "Total Revenue: " +:+ yen
         +:+ format_comma_2f (sum_of financial_summary.contract_price rows);
       "Total Profit: " +:+ yen
         +:+ format_comma_2f (sum_of financial_summary.profit rows);
       "Avg Profit Margin: "
         +:+ format_2f (float_avg_or_0
                          (AVG 100 (map financial_summary.profit_margin rows)))
         +:+ "%";
       "" ]
     ++ (if decide (alert_lines = []) then []
         else ["ALERTS"; repeat_string "-" 30] ++ alert_lines ++ [""])).
Proof.
  intros H today first rows losses slow alert_lines _ _.
  apply generate_daily_report_Done in H as (_ & r & s & w' & Hr & Hs & _ & ->).
  pose proof (summary_of_report _ _ _ _ _ Hr) as Hsum.
  pose proof (report_alerts _ _ _ _ _ Hr) as Hal.
  apply generate_automated_report_Return in Hr as (_ & _ & Hper & Hgen & _).
  cbv zeta in Hsum, Hal, Hper. cbn [get] in Hsum, Hal, Hper.
  fold today in Hsum, Hal, Hper. fold first in Hsum, Hal, Hper.
  rewrite financial_in_period_rows in Hsum. fold rows in Hsum, Hal.
  fold losses in Hal. fold slow in Hal.
  rewrite Hs in Hsum. injection Hsum as ->.
  f_equal. unfold daily_report_lines.
  cbn [summary.total_projects summary.total_revenue summary.total_profit
       summary.avg_profit_margin].
  unfold format_money. rewrite !hundredths_float_decimal_or_0.
  rewrite Hper, Hgen, Hal. f_equal.
  subst alert_lines.
  destruct (decide (losses = [])), (decide (slow = [])); reflexivity.
Qed.

Lemma daily_report_text_witness :
  let g := {| store := sample_world; report_log_rows := [];
              connection := Open; cursor := Open |} in
  ∃ text g' lines,
    generate_daily_report format_money g = (Done text, g') ∧
    text = join_lines lines ∧
    lines !! 9%nat = Some ("Total Revenue: " +:+ yen +:+ "1,500,000.00")%string ∧
    lines !! 15%nat
      = Some ("[HIGH] 1 projects with total loss of " +:+ yen +:+ "100,000.00")%string.
Proof.
  intros g. eexists _, _, _. split; [compute_run|]. split.
  - eapply (daily_report_text format_money g).
    + compute_run.
    + vm_compute. reflexivity.
    + vm_compute. reflexivity.
  - split; vm_compute; reflexivity.
Defined.

(** *** A successful run of the callers, step by step *)

Lemma sbind_Done {A B} (m : Session A) (f : A → Session B) g b g' :
  (m ≫= f) g = (Done b, g') →
  ∃ a g1, m g = (Done a, g1) ∧ f a g1 = (Done b, g').
Proof.
  unfold mbind, Session_bind. destruct (m g) as [[a|e] g1]; [eauto|done].
Qed.

Lemma try_finally_Done {A} (body : Session A) cleanup g a g' :
  try_finally body cleanup g = (Done a, g') →
  ∃ g1, body g = (Done a, g1) ∧ cleanup g1 = (Done (), g').
Proof.
  unfold try_finally. destruct (body g) as [r g1].
  destruct (cleanup g1) as [[[]|e] g2] eqn:E; intros [= -> ->]. by exists g1.
Qed.

Lemma try_except_reraise_Done {A} (body : Session A) g a g' :
  try_except_Db_Error body (fail (Db Error)) g = (Done a, g') →
  body g = (Done a, g').
Proof.
  unfold try_except_Db_Error, fail.
  by destruct (body g) as [[a0|[[]| |]] g1].
Qed.

Lemma on_store_Done {A} (m : M A) g a g' :
  on_store m g = (Done a, g') →
  connected g ∧ ∃ w', m (store g) = (Return a, w') ∧ g' = with_store w' g.
Proof.
  intros H.
  assert (connected g) as [Hcu Hco].
  { unfold on_store in H. unfold connected.
    destruct (cursor g), (connection g); done. }
  split; [done|]. rewrite on_store_run in H by done.
  destruct (m (store g)) as [[a0|e] w']; [|done].
  injection H as -> <-. by exists w'.
Qed.

Lemma request_Return w w' :
  request w = (Return (), w') →
  committed w' = committed w ∧ pending w' = pending w ∧ clock w' = clock w.
Proof. intros H. by apply request_cases in H as (? & ? & ? & _). Qed.

Lemma commit_Return w w' :
  idle w → commit w = (Return (), w') →
  idle w' ∧ committed w' = committed w ∧ clock w' = clock w.
Proof.
  intros Hidle H.
  apply commit_cases in H as (Hclock & _ & [(_ & Hc & Hp) | (? & _)]); [|done].
  by rewrite idle_visible in Hc.
Qed.

Lemma create_database_Done g g1 :
  create_database g = (Done (), g1) →
  committed (store g1) = committed (store g)
  ∧ clock (store g1) = clock (store g)
  ∧ report_log_rows g1 = report_log_rows g.
Proof.
  intros H%try_except_reraise_Done. unfold server_side in H.
  destruct ((request;; request) (store g)) as [[[]|e] w'] eqn:E; [|done].
  injection H as <-. simpl.
  apply bind_Return in E as ([] & w1 & (Hc1 & _ & Ht1)%request_Return
                             & (Hc2 & _ & Ht2)%request_Return).
  split_and!; [congruence..|done].
Qed.

Lemma connect_Done g g1 :
  connect g = (Done (), g1) →
  settled g g1 ∧ committed (store g1) = committed (store g).
Proof.
  intros H%try_except_reraise_Done.
  apply sbind_Done in H as ([] & g0 & H0 & H). unfold server_side in H0.
  destruct (request (store g)) as [[[]|e] w'] eqn:E; [|done].
  injection H0 as <-. apply request_Return in E as (Hc & _ & Ht).
  unfold set_connected in H. injection H as <-.
  unfold settled, connected, idle. simpl. by split_and!.
Qed.

Lemma create_tables_Done g0 g g1 :
  settled g0 g → create_tables g = (Done (), g1) →
  settled g0 g1 ∧ committed (store g1) = committed (store g).
Proof.
  intros (Hcon & Hidle & Ht & Hlog) H%try_except_reraise_Done.
  apply on_store_Done in H as (_ & w' & H & ->).
  unfold create_table_if_not_exists in H.
  apply bind_Return in H as ([] & w1 & (Hi1 & Hc1 & Ht1)%commit_Return & H);
    [|done].
  apply bind_Return in H as ([] & w2 & (Hi2 & Hc2 & Ht2)%commit_Return & H);
    [|done].
  apply bind_Return in H as ([] & w3 & (Hi3 & Hc3 & Ht3)%commit_Return & H);
    [|done].
  apply commit_Return in H as (Hi4 & Hc4 & Ht4); [|done].
  unfold settled, with_store; simpl. split_and!; try done; congruence.
Qed.

Lemma insert_financial_summary_Done {cols} g0 g g1 (df : list (summary_row cols)) rd :
  settled g0 g →
  on_store (insert_financial_summary df rd) g = (Done (), g1) →
  settled g0 g1
  ∧ t_department_summary (committed (store g1))
    = t_department_summary (committed (store g))
  ∧ t_financial_summary (committed (store g1))
    = t_financial_summary (committed (store g))
      ++ map (financial_tuple (get rd (dt_date (clock (store g0))))) df.
Proof.
  intros (Hcon & Hidle & Ht & Hlog) (_ & w' & H & ->)%on_store_Done.
  apply insert_financial_summary_cases in H
    as (Hi & Hc & _ & Hd & [(_ & Hf) | (? & _)]); [|done..].
  rewrite Ht in Hf.
  unfold settled, with_store; simpl. split_and!; try done; congruence.
Qed.

Lemma insert_department_summary_Done g0 g g1 df rd :
  settled g0 g →
  on_store (insert_department_summary df rd) g = (Done (), g1) →
  settled g0 g1
  ∧ t_financial_summary (committed (store g1))
    = t_financial_summary (committed (store g))
  ∧ t_department_summary (committed (store g1))
    = t_department_summary (committed (store g))
      ++ map (department_tuple (get rd (dt_date (clock (store g0))))) df.
Proof.
  intros (Hcon & Hidle & Ht & Hlog) (_ & w' & H & ->)%on_store_Done.
  apply insert_department_summary_cases in H
    as (Hi & Hc & _ & Hd & [(_ & Hf) | (? & _)]); [|done..].
  rewrite Ht in Hf.
  unfold settled, with_store; simpl. split_and!; try done; congruence.
Qed.

Lemma report_Done g0 g g1 s e r :
  settled g0 g →
  on_store (generate_automated_report s e) g = (Done r, g1) →
  settled g0 g1 ∧ committed (store g1) = committed (store g)
  ∧ generate_automated_report s e (store g) = (Return r, store g1).
Proof.
  intros (Hcon & Hidle & Ht & Hlog) (_ & w' & H & ->)%on_store_Done.
  destruct (generate_automated_report_read_only s e (store g)) as (Hc & Hp & Hk).
  rewrite H in Hc, Hp, Hk. simpl in Hc, Hp, Hk.
  unfold settled, with_store, idle in *; simpl. split_and!; try done; congruence.
Qed.

Lemma log_report_Done g0 g g1 ty path summ :
  settled g0 g →
  log_report ty path summ g = (Done (), g1) →
  connected g1 ∧ idle (store g1) ∧ clock (store g1) = clock (store g0)
  ∧ committed (store g1) = committed (store g)
  ∧ report_log_rows g1
    = report_log_rows g0
      ++ [ {| report_log.report_type := ty;
              report_log.report_date := dt_date (clock (store g0));
              report_log.file_path := path;
              report_log.summary := summ |} ].
Proof.
  intros ([Hcu Hco] & Hidle & Ht & Hlog) H. unfold log_report in H.
  unfold try_except_Db_Error in H.
  match type of H with
  | match ?body g with _ => _ end = _ => destruct (body g) as [res g2] eqn:E
  end.
  destruct res as [[]|err].
  - injection H as <-.
    apply sbind_Done in E as (d & ? & [= <- <-] & E).
    apply sbind_Done in E as ([] & g3 & (_ & w' & Hreq & ->)%on_store_Done & E).
    apply request_Return in Hreq as (Hc & Hp & Hk).
    unfold connection_commit, with_store in E. simpl in E. rewrite Hco in E.
    destruct (commit w') as [[[]|err] w2] eqn:Ec; [|done].
    injection E as <-. simpl.
    apply commit_Return in Ec as (Hi2 & Hc2 & Hk2);
      [|unfold idle in *; congruence].
    rewrite Hlog, Ht. unfold connected; simpl. split_and!; try done; congruence.
  - destruct err as [[]| |]; try done.
    unfold connection_rollback, fail, mbind, Session_bind in H.
    by destruct (connection g2).
Qed.

Lemma disconnect_connected g g1 :
  connected g → disconnect g = (Done (), g1) →
  connection g1 = Closed ∧ cursor g1 = Closed ∧ idle (store g1)
  ∧ committed (store g1) = committed (store g)
  ∧ report_log_rows g1 = report_log_rows g.
Proof.
  intros [Hcu Hco]. unfold disconnect. rewrite Hcu, Hco. by intros [= <-].
Qed.

Lemma setup_Done {A} (rest : Session A) g a g' :
  (new_DatabaseManager;;
   try_finally (create_database;; connect;; create_tables;; rest) disconnect) g
    = (Done a, g') →
  ∃ g1 g2, settled g g1 ∧ committed (store g1) = committed (store g)
           ∧ rest g1 = (Done a, g2) ∧ disconnect g2 = (Done (), g').
Proof.
  intros H. rewrite (sbind_run new_DatabaseManager _ g () _ eq_refl) in H.
  apply try_finally_Done in H as (g2 & H & Hd).
  apply sbind_Done in H as ([] & ga & (Hc1 & Ht1 & Hl1)%create_database_Done & H).
  apply sbind_Done in H as ([] & gb & [Hs2 Hc2]%connect_Done & H).
  apply sbind_Done in H as ([] & gc & H3 & H).
  apply (create_tables_Done ga) in H3 as [Hs3 Hc3]; [|done].
  exists gc, g2. simpl in *.
  destruct Hs3 as (? & ? & Ht3 & Hl3).
  unfold settled. split_and!; try done; congruence.
Qed.

(** X10. When [main] returns, the two frames are committed under today's
    date after the rows that were there, the report returned is the report
    of the tables as they are left, exactly one row is appended to the
    report log -- type [daily_summary], today's date, the report's summary
    -- and the connection is closed with no transaction left open. *)
Theorem main_stores_reports_and_logs {cols} (fdf : list (summary_row cols)) ddf
    g r g' :
  main fdf ddf g = (Done r, g') →
  let today := dt_date (clock (store g)) in
  t_financial_summary (committed (store g'))
    = t_financial_summary (committed (store g)) ++ map (financial_tuple today) fdf
  ∧ t_department_summary (committed (store g'))
    = t_department_summary (committed (store g))
      ++ map (department_tuple today) ddf
  ∧ (∃ w, idle w ∧ committed w = committed (store g')
          ∧ clock w = clock (store g)
          ∧ (generate_automated_report None None w).1 = Return r)
  ∧ report_log_rows g'
    = report_log_rows g
      ++ [ {| report_log.report_type := "daily_summary";
              report_log.report_date := today;
              report_log.file_path := "reports/daily_summary.txt";
              report_log.summary := summary r |} ]
  ∧ idle (store g') ∧ connection g' = Closed ∧ cursor g' = Closed.
Proof.
  intros H today. unfold main in H.
  apply setup_Done in H as (g1 & g2 & Hs1 & Hc1 & H & Hd).
  apply sbind_Done in H as ([] & ga & Ha & H).
  apply (insert_financial_summary_Done g) in Ha as (Hsa & Hda & Hfa); [|done].
  apply sbind_Done in H as ([] & gb & Hb & H).
  apply (insert_department_summary_Done g) in Hb as (Hsb & Hfb & Hdb); [|done].
  apply sbind_Done in H as (r0 & gc & Hr & H).
  pose proof Hsb as (_ & Hib & Hkb & _).
  apply (report_Done g) in Hr as (Hsc & Hcc & Hrun); [|done].
  apply sbind_Done in H as ([] & gd & Hl & H).
  apply (log_report_Done g) in Hl as (Hcon & Hidle & Hclk & Hcd & Hlog); [|done].
  injection H as -> ->.
  apply disconnect_connected in Hd as (Hco & Hcu & Hi & Hc & Hlg); [|done].
  cbn [get] in Hfa, Hdb. fold today in Hfa, Hdb.
  split_and!; try done.
  - rewrite Hc, Hcd, Hcc, Hfb, Hfa. by rewrite Hc1.
  - rewrite Hc, Hcd, Hcc, Hdb, Hda. by rewrite Hc1.
  - exists (store gb). split_and!; [done|congruence|done|by rewrite Hrun].
  - by rewrite Hlg.
Qed.

Lemma main_stores_reports_and_logs_witness :
  let g := {| store := empty_world; report_log_rows := [];
              connection := Unset; cursor := Unset |} in
  ∃ r g', main [sample_gs; sample_iss] [] g = (Done r, g') ∧
          length (t_financial_summary (committed (store g'))) = 2%nat ∧
          length (report_log_rows g') = 1%nat ∧
          connection g' = Closed.
Proof.
  intros g. eexists _, _. split; [compute_run|].
  match goal with
  | |- context [report_log_rows ?g'] =>
      lazymatch eval vm_compute in (main [sample_gs; sample_iss] [] g) with
      | (Done ?r, _) =>
          destruct (main_stores_reports_and_logs
                      [sample_gs; sample_iss] [] g r g')
            as (Hf & _ & _ & Hlog & _ & Hco & _)
      end
  end.
  - vm_compute. reflexivity.
  - rewrite Hf, Hlog. by split_and!.
Defined.

(** X11. When [_database_operations] returns, the two frames are committed
    under today's date after the rows that were there, the text returned is
    the daily report of the tables as they are left, the report log is not
    written, and the connection is closed with no transaction left open. *)
Theorem database_operations_stores_and_reports {cols} format_2f
    (fdf : list (summary_row cols)) ddf g text g' :
  _database_operations format_2f fdf ddf g = (Done text, g') →
  let today := dt_date (clock (store g)) in
  t_financial_summary (committed (store g'))
    = t_financial_summary (committed (store g)) ++ map (financial_tuple today) fdf
  ∧ t_department_summary (committed (store g'))
    = t_department_summary (committed (store g))
      ++ map (department_tuple today) ddf
  ∧ (∃ g1, connected g1 ∧ idle (store g1)
           ∧ committed (store g1) = committed (store g')
           ∧ clock (store g1) = clock (store g)
           ∧ (generate_daily_report format_2f g1).1 = Done text)
  ∧ report_log_rows g' = report_log_rows g
  ∧ idle (store g') ∧ connection g' = Closed ∧ cursor g' = Closed.
Proof.
  intros H today. unfold _database_operations in H.
  apply setup_Done in H as (g1 & g2 & Hs1 & Hc1 & H & Hd).
  apply sbind_Done in H as (d & ? & [= <- <-] & H).
  pose proof Hs1 as (_ & _ & Hk1 & _). rewrite Hk1 in H.
  apply sbind_Done in H as ([] & ga & Ha & H).
  apply (insert_financial_summary_Done g) in Ha as (Hsa & Hda & Hfa); [|done].
  apply sbind_Done in H as ([] & gb & Hb & H).
  apply (insert_department_summary_Done g) in Hb as (Hsb & Hfb & Hdb); [|done].
  apply sbind_Done in H as (t & gc & Hr & H).
  injection H as -> ->.
  pose proof Hsb as (Hconb & Hib & Hkb & Hlb).
  pose proof Hr as (_ & r & s & w' & Hrun & _ & -> & _)%generate_daily_report_Done.
  destruct (generate_automated_report_read_only None None (store gb))
    as (Hc' & Hp' & Hk').
  rewrite Hrun in Hc', Hp', Hk'. simpl in Hc', Hp', Hk'.
  apply disconnect_connected in Hd as (Hco & Hcu & Hi & Hc & Hlg);
    [|by destruct Hconb].
  simpl in Hc, Hlg. cbn [get] in Hfa, Hdb. fold today in Hfa, Hdb.
  split_and!; try done.
  - rewrite Hc, Hc', Hfb, Hfa. by rewrite Hc1.
  - rewrite Hc, Hc', Hdb, Hda. by rewrite Hc1.
  - exists gb. split_and!; [done|done|congruence|done|by rewrite Hr].
  - by rewrite Hlg.
Qed.

Lemma database_operations_stores_and_reports_witness :
  let g := {| store := empty_world; report_log_rows := [];
              connection := Unset; cursor := Unset |} in
  ∃ text g',
    _database_operations format_money [sample_gs; sample_iss] [] g
      = (Done text, g') ∧
    length (t_financial_summary (committed (store g'))) = 2%nat ∧
    report_log_rows g' = [] ∧ connection g' = Closed.
Proof.
  intros g. eexists _, _. split; [compute_run|].
  match goal with
  | |- context [report_log_rows ?g'] =>
      lazymatch eval vm_compute in
        (_database_operations format_money [sample_gs; sample_iss] [] g) with
      | (Done ?text, _) =>
          destruct (database_operations_stores_and_reports format_money
                      [sample_gs; sample_iss] [] g text g')
            as (Hf & _ & _ & Hlog & _ & Hco & _)
      end
  end.
  - vm_compute. reflexivity.
  - rewrite Hf, Hlog. by split_and!.
Defined.

(** *** Stored numbers and the report *)

Lemma float_to_mysql_is_Some x : x ≠ NaN → is_Some (float_to_mysql x).
Proof. by destruct x. Qed.

Lemma well_stored_financial_tuple {cols} d (row : summary_row cols) :
  no_missing_numbers row →
  is_Some (financial_summary.profit (financial_tuple d row))
  ∧ is_Some (financial_summary.profit_margin (financial_tuple d row)).
Proof. intros [? ?]. split; by apply float_to_mysql_is_Some. Qed.

Lemma well_stored_department_tuple d row :
  no_missing_department_numbers row →
  is_Some (department_summary.total_hours (department_tuple d row))
  ∧ is_Some (department_summary.total_labor_cost (department_tuple d row))
  ∧ is_Some (department_summary.num_projects (department_tuple d row)).
Proof. intros [? ?]. split_and!; [by apply float_to_mysql_is_Some..|done]. Qed.

Lemma Forall_map_impl {A B} (P : A → Prop) (Q : B → Prop) (f : A → B)
    (l : list A) :
  (∀ x, P x → Q (f x)) → Forall P l → Forall Q (map f l).
Proof. intros H. induction 1; simpl; constructor; auto. Qed.

(** X12. Frames that hold no NaN in [Profit], [ProfitMargin],
    [TotalHours] and [TotalLaborCost] keep the tables free of [NULL] in the
    columns the report converts with [float(...)]: tables in which these
    columns are filled stay so after such a store, however it ends, and the
    report over them is produced whenever its six queries are served -- the
    conversions do not raise [TypeError]. *)
Theorem stores_keep_tables_reportable {cols} d (fin : list (summary_row cols))
    dept w res w' s e :
  idle w → well_stored (committed w) →
  Forall no_missing_numbers fin →
  Forall no_missing_department_numbers dept →
  store_summaries d fin dept w = (res, w') →
  well_stored (committed w')
  ∧ (all_succeed 6 (server w') = true →
     ∃ r, generate_automated_report s e w' = (Return r, after_requests 6 w')).
Proof.
  intros Hidle [Hf Hd] Hfin Hdept Hrun.
  apply store_summaries_cases in Hrun as (Hidle' & _ & _ & Hcases); [|done].
  cbv zeta in Hcases.
  assert (Hwell : well_stored (committed w')).
  { pose proof (Forall_map_impl _
                  (λ r, is_Some (financial_summary.profit r)
                        ∧ is_Some (financial_summary.profit_margin r))
                  (financial_tuple d) fin
                  (well_stored_financial_tuple d) Hfin) as HF.
    pose proof (Forall_map_impl _
                  (λ r, is_Some (department_summary.total_hours r)
                        ∧ is_Some (department_summary.total_labor_cost r)
                        ∧ is_Some (department_summary.num_projects r))
                  (department_tuple d) dept
                  (well_stored_department_tuple d) Hdept) as HD.
    unfold well_stored.
    destruct Hcases as [(_ & -> & ->) | [(_ & _ & -> & ->) | (_ & _ & -> & ->)]];
      split; rewrite ?Forall_app; done. }
  split; [done|]. intros Hs.
  apply generate_automated_report_total; [done|]. by rewrite idle_visible.
Qed.

Lemma stores_keep_tables_reportable_witness :
  ∃ w',
    store_summaries july_1 [sample_gs; sample_iss] sample_departments
        empty_world = (Return (), w') ∧
    well_stored (committed w') ∧
    ∃ r, generate_automated_report (Some july_1) (Some july_1) w'
           = (Return r, after_requests 6 w').
Proof.
  eexists. split; [compute_run|].
  lazymatch goal with
  | |- well_stored (committed ?w') ∧ _ =>
      destruct (stores_keep_tables_reportable july_1 [sample_gs; sample_iss]
                  sample_departments empty_world (Return ()) w'
                  (Some july_1) (Some july_1)) as [Hwell Hreport]
  end.
  - reflexivity.
  - split; by constructor.
  - by repeat constructor.
  - unfold sample_departments. apply Forall_map_impl with (P := λ _, True).
    + by intros i _.
    + by apply Forall_true.
  - compute_run.
  - split; [exact Hwell|]. apply Hreport. vm_compute. reflexivity.
Defined.

(** *** Missing numbers *)

Lemma bind_Raise {A B} (m : M A) (f : A → M B) w e w1 :
  m w = (Raise e, w1) → (m ≫= f) w = (Raise e, w1).
Proof. unfold mbind, M_bind. by intros ->. Qed.

Lemma omap_all_None {A B} (f : A → option B) (l : list A) :
  (∀ y, y ∈ l → f y = None) → omap f l = [].
Proof.
  induction l as [|x l IH]; intros H; [done|]. cbn.
  rewrite (H x) by (by left). apply IH. intros y Hy. apply H. by right.
Qed.

Lemma elem_of_group {A K} `{EqDecision K} (key : A → K) k rows y :
  y ∈ group key k rows ↔ y ∈ rows ∧ key y = k.
Proof.
  unfold group. rewrite !list_elem_of_In, filter_In, bool_decide_eq_true. done.
Qed.

Lemma for_each_add_type_entry_TypeError rows : ∀ d k n s a,
  (k, n, s, a) ∈ rows → s = None ∨ a = None →
  for_each add_type_entry d rows = Raise TypeError.
Proof.
  induction rows as [|[[[k0 n0] s0] a0] rows IH]; intros d k n s a Hin Hnull.
  - by apply elem_of_nil in Hin.
  - simpl. destruct s0 as [p0|]; [|done]. destruct a0 as [m0|]; [|done].
    simpl. apply elem_of_cons in Hin as [[= -> -> -> ->]|Hin].
    + by destruct Hnull.
    + by apply (IH _ k n s a).
Qed.

(** X13. A number missing from a whole project type stops the report: when
    every row of the period with the project type of some row has a [NULL]
    profit (a NaN in the frame), or every one a [NULL] profit margin, the
    call raises
    [TypeError] after its second query -- an exception the [except Error]
    handler does not catch -- and returns no report. *)
Theorem missing_numbers_raise_TypeError s e w x :
  let sd := get s (first_of_month (dt_date (clock w))) in
  let ed := get e (dt_date (clock w)) in
  let same_type :=
    filter (λ y, financial_summary.project_type y
                 = financial_summary.project_type x)
           (rows_in_range sd ed (visible w)) in
  all_succeed 2 (server w) = true →
  x ∈ rows_in_range sd ed (visible w) →
  Forall (λ y, financial_summary.profit y = None) same_type
  ∨ Forall (λ y, financial_summary.profit_margin y = None) same_type →
  generate_automated_report s e w = (Raise TypeError, after_requests 2 w).
Proof.
  intros sd ed same_type Hs Hx Hnull.
  set (k := financial_summary.project_type x).
  set (g := group financial_summary.project_type k
              (financial_in_period sd ed (visible w))).
  assert (Hg : ∀ y, y ∈ g ↔ y ∈ same_type).
  { intros y. unfold g, same_type. rewrite elem_of_group, list_elem_of_filter.
    rewrite financial_in_period_rows. tauto. }
  assert (Hrow : (k, COUNT_star g, SUM (map financial_summary.profit g),
                  AVG 100 (map financial_summary.profit_margin g))
                 ∈ type_query sd ed (visible w)).
  { apply type_query_elem. cbv zeta. fold k g. split_and!; try done.
    intros Hnil. assert (Hxg : x ∈ g).
    { apply Hg. unfold same_type. by apply list_elem_of_filter. }
    rewrite Hnil in Hxg. by apply elem_of_nil in Hxg. }
  assert (Hnone : SUM (map financial_summary.profit g) = None
                  ∨ AVG 100 (map financial_summary.profit_margin g) = None).
  { destruct Hnull as [Hall|Hall]; [left|right].
    - rewrite SUM_map, omap_all_None; [done|].
      intros y Hy%Hg. by eapply Forall_forall in Hall.
    - unfold AVG. rewrite non_null_map, omap_all_None; [done|].
      intros y Hy%Hg. by eapply Forall_forall in Hall. }
  pose proof (for_each_add_type_entry_TypeError _ ∅ _ _ _ _ Hrow Hnone) as Hloop.
  rewrite (all_succeed_S 1) in Hs. apply andb_true_iff in Hs as [Hs1 Hs2].
  unfold generate_automated_report. rewrite try_reraise.
  rewrite (bind_run _ _ _ _ _ (start_date_run s w)).
  rewrite (bind_run _ _ _ _ _ (end_date_run e w)).
  fold sd ed.
  rewrite (bind_run now _ w (clock w) w eq_refl).
  rewrite (bind_run _ _ _ _ _ (execute_run _ w Hs1)).
  rewrite (bind_run _ _ _ _ _ (execute_run _ (after_requests 1 w) Hs2)).
  rewrite after_requests_add. cbn [Nat.add].
  apply bind_Raise. unfold lift. by rewrite visible_after_requests, Hloop.
Qed.

Lemma missing_numbers_raise_TypeError_witness :
  generate_automated_report (Some july_1) (Some july_1)
      sample_world_null_margin_type
    = (Raise TypeError, after_requests 2 sample_world_null_margin_type).
Proof.
  apply (missing_numbers_raise_TypeError (Some july_1) (Some july_1)
           sample_world_null_margin_type null_margin_row).
  - reflexivity.
  - vm_compute. by left.
  - right. vm_compute. by repeat constructor.
Defined.
